(** * Crisis detection (backend/apps/chat/crisis_detection.py)

    A shallow embedding of the keyword risk scorer, the dual-pass
    reconciler, the emotion fusion table, the trigger extractor and the
    response resolver, with the properties the specification states
    about them.

    Modelling conventions.
    - A Python [str] is a [string] whose characters are the code points
      U+0000..U+00FF (one [ascii] per code point).  On that range
      [str.lower] and [str.strip] are the character-wise functions
      written below; text with code points above U+00FF is outside the
      model.
    - [x in s] on strings is substring containment ([contains]).
    - spaCy's pipeline [nlp] is an external collaborator: it is a
      parameter that either yields the lemmas of the tokens or raises.
    - Exceptions are values of [result]; [print] calls are dropped.
    - The emotion confidence is a rational.  For every finite double
      [c], [c > 0.6] (resp. [0.7]) in double arithmetic holds exactly
      when the rational value of [c] exceeds 6/10 (resp. 7/10), because
      the doubles nearest to 0.6 and 0.7 lie below them. *)

From Stdlib Require Import Bool Arith Lia List Ascii String NArith ZArith QArith Qround.
Import ListNotations.

Local Close Scope Q_scope.
Local Close Scope Z_scope.
Local Open Scope string_scope.
Local Open Scope list_scope.
Local Open Scope nat_scope.

(** ** Characters and strings *)

(** [str.isspace] on one code point below U+0100: TAB..CR, FS..US, SPACE,
    NEL and NBSP. *)
Definition isspace (c : ascii) : bool :=
  let n := N_of_ascii c in
  ((9 <=? n) && (n <=? 13) || (28 <=? n) && (n <=? 32)
   || (n =? 133) || (n =? 160))%N.

(** [str.lower] on one code point below U+0100: A..Z and the Latin-1
    capitals U+00C0..U+00DE (but not the multiplication sign U+00D7). *)
Definition lower_char (c : ascii) : ascii :=
  let n := N_of_ascii c in
  if ((65 <=? n) && (n <=? 90)
      || (192 <=? n) && (n <=? 222) && negb (n =? 215))%N
  then ascii_of_N (n + 32) else c.

Fixpoint lower (s : string) : string :=
  match s with
  | EmptyString => EmptyString
  | String c r => String (lower_char c) (lower r)
  end.

Fixpoint lstrip (s : string) : string :=
  match s with
  | EmptyString => EmptyString
  | String c r => if isspace c then lstrip r else s
  end.

Fixpoint rstrip (s : string) : string :=
  match s with
  | EmptyString => EmptyString
  | String c r =>
      match rstrip r with
      | EmptyString => if isspace c then EmptyString else String c EmptyString
      | r' => String c r'
      end
  end.

(** [s.strip()] *)
Definition strip (s : string) : string := rstrip (lstrip s).

(** [s.startswith(p)] *)
Fixpoint startswith (p s : string) : bool :=
  match p, s with
  | EmptyString, _ => true
  | String _ _, EmptyString => false
  | String a p', String b s' => Ascii.eqb a b && startswith p' s'
  end.

(** [p in s] *)
Fixpoint contains (p s : string) : bool :=
  startswith p s ||
  match s with
  | EmptyString => false
  | String _ r => contains p r
  end.

(** [sep.join(parts)] *)
Fixpoint join (sep : string) (parts : list string) : string :=
  match parts with
  | [] => ""
  | [x] => x
  | x :: rest => (x ++ sep ++ join sep rest)%string
  end.

(** ** Exceptions *)

Definition exn := string.

Inductive result (A : Type) : Type :=
| Ok (a : A)
| Raised (e : exn).
Arguments Ok {A} a.
Arguments Raised {A} e.

Definition bind {A B} (m : result A) (k : A -> result B) : result B :=
  match m with
  | Ok a => k a
  | Raised e => Raised e
  end.

Notation "x <- m ;; k" := (bind m (fun x => k))
  (at level 61, m at next level, right associativity).

(** [try: body / except Exception: handler] *)
Definition try_except {A} (body : result A) (handler : exn -> result A) : result A :=
  match body with
  | Ok a => Ok a
  | Raised e => handler e
  end.

(** ** Risk tiers *)

Inductive RiskTier : Type := SAFE | MEDIUM | HIGH | CRITICAL.

Definition RiskTier_eqb (a b : RiskTier) : bool :=
  match a, b with
  | SAFE, SAFE | MEDIUM, MEDIUM | HIGH, HIGH | CRITICAL, CRITICAL => true
  | _, _ => false
  end.

(** The key under which a tier appears in [CRISIS_KEYWORDS], and the
    value the functions return for it. *)
Definition tier_name (t : RiskTier) : string :=
  match t with
  | SAFE => "SAFE"
  | MEDIUM => "MEDIUM"
  | HIGH => "HIGH"
  | CRITICAL => "CRITICAL"
  end.

(** [risk_levels = ['SAFE', 'MEDIUM', 'HIGH', 'CRITICAL']] *)
Definition risk_levels : list RiskTier := [SAFE; MEDIUM; HIGH; CRITICAL].

(** [xs.index(x)]: position of the first occurrence, [ValueError] if
    there is none. *)
Fixpoint index (xs : list RiskTier) (x : RiskTier) : result nat :=
  match xs with
  | [] => Raised "ValueError"
  | y :: r => if RiskTier_eqb y x then Ok 0 else i <- index r x ;; Ok (S i)
  end.

(** The severity order SAFE < MEDIUM < HIGH < CRITICAL. *)
Definition severity (t : RiskTier) : nat :=
  match t with
  | SAFE => 0
  | MEDIUM => 1
  | HIGH => 2
  | CRITICAL => 3
  end.

Definition tier_le (a b : RiskTier) : Prop := severity a <= severity b.
Definition tier_max (a b : RiskTier) : RiskTier :=
  if severity a <? severity b then b else a.

(** ** The lexicon *)

Inductive Dialect : Type := english | pidgin.

(** [CRISIS_KEYWORDS] maps a tier to a map from dialect to phrases.  Its
    keys are fixed, so it is a function on them together with the order
    in which [.items()] yields them. *)
Definition keyword_table : Type := RiskTier -> Dialect -> list string.

(** Insertion order of the keys of [CRISIS_KEYWORDS] and of each of its
    values. *)
Definition tier_keys : list RiskTier := [CRITICAL; HIGH; MEDIUM].
Definition dialect_keys : list Dialect := [english; pidgin].

(** [METAPHORICAL_CONTEXTS]: category name to indicator phrases, in
    insertion order. *)
Definition context_table : Type := list (string * list string).

Module Lexicon.

Definition CRITICAL_english : list string :=
  [ "kill myself"; "commit suicide"; "end my life"; "take my life";
    "suicide plan"; "how to die"; "way to die"; "end it all";
    "be off dead"; "world without I";
    "say goodbye"; "final goodbye"; "last message";
    "no reason to live"; "want to die"; "go to die"; "plan to die";
    "hang myself"; "overdose"; "jump off"; "no reason to live";
    "buy pill"; "write note"; "final arrangement";
    "feel unstable" ].

Definition CRITICAL_pidgin : list string :=
  [ "i wan die"; "make i just die"; "i go kill myself";
    "make i comot for this world"; "i don taya for life";
    "nothing dey for me again"; "i fit just end am";
    "make i just finish am"; "i go end myself"; "wan kpai"; "kpai myself" ].

Definition HIGH_english : list string :=
  [ "hurt myself"; "cut myself"; "harm myself"; "self harm";
    "burn myself"; "punish myself";
    "hate myself"; "deserve pain"; "want to hurt";
    "no point live"; "life be meaningless"; "can not go on";
    "give up everything"; "nothing matter";
    "no hope leave"; "everyone hate I";
    "burden to everyone"; "world hate I";
    "disappear forever"; "run away forever"; "leave forever";
    "can not do this anymore"; "can not take it anymore";
    "everybody good without I"; "waste of space";
    "can't go on"; "no hope"; "give up everything";
    "everyone hates me"; "worthless";
    "hurt myself"; "self harm"; "cut myself";
    "this country don finish me"; "nobody go miss me" ].

Definition HIGH_pidgin : list string :=
  [ "nobody go miss me"; "this country don finish me";
    "i no fit continue"; "wahala too much abeg";
    "make i just disappear"; "person wey born me no happy" ].

(** The source has no comma between ['too much to handle'] and
    ['nobody care'], so Python joins the two literals into one phrase. *)
Definition MEDIUM_english : list string :=
  [ "feel hopeless"; "very depressed"; "extremely anxious";
    "panic attack"; "can not cope"; "overwhelm completely";
    "tired of try"; "nothing work"; "give up";
    "do not want to wake up"; "wish i be not here";
    "wish i could sleep forever"; "tired of life";
    "feel hopeless"; "very depressed"; "extremely anxious";
    "panic attack"; "can't cope"; "overwhelmed";
    "nothing matters"; "tired of trying"; "too much to handlenobody care";
    "all alone"; "no one understand";
    "push everyone away"; "isolate myself";
    "nobody listen"; "invisible to everyone" ].

Definition MEDIUM_pidgin : list string :=
  [ "this life no balance"; "e don do for me";
    "wetin i dey do for this world"; "i don tire" ].

(** ['SAFE'] is not a key of the table and is never looked up. *)
Definition CRISIS_KEYWORDS : keyword_table :=
  fun tier dialect =>
    match tier, dialect with
    | CRITICAL, english => CRITICAL_english
    | CRITICAL, pidgin => CRITICAL_pidgin
    | HIGH, english => HIGH_english
    | HIGH, pidgin => HIGH_pidgin
    | MEDIUM, english => MEDIUM_english
    | MEDIUM, pidgin => MEDIUM_pidgin
    | SAFE, _ => []
    end.

Definition METAPHORICAL_CONTEXTS : context_table :=
  [ ("academic",
     [ "exam"; "test"; "assignment"; "deadline"; "interview";
       "presentation"; "project"; "quiz"; "homework"; "study" ]);
    ("entertainment",
     [ "movie"; "film"; "show"; "game"; "video"; "song";
       "book"; "story"; "comedy"; "funny"; "laugh" ]);
    ("positive",
     [ "excited"; "can not wait"; "look forward"; "eager";
       "thrilled"; "amazing"; "wonderful"; "great" ]);
    ("figurative",
     [ "die to see"; "kill I"; "to die for"; "dead tired";
       "kill it"; "slay"; "murder"; "destroy" ]) ].

End Lexicon.

(** ** Emotion signal and assessment *)

(** [emotion_data]: a dict whose three keys may each be missing. *)
Record EmotionData : Type := {
  ed_primary_emotion : option string;
  ed_confidence : option Q;
  ed_urgency : option string
}.

(** [d.get(key, default)] *)
Definition get {A} (field : option A) (default : A) : A :=
  match field with
  | Some v => v
  | None => default
  end.

Record EmotionContext : Type := {
  primary_emotion : string;
  emotion_confidence : Q;
  urgency : string
}.

Record CrisisAssessment : Type := {
  risk_level : RiskTier;
  confidence : Q;
  triggers : list string;
  recommendation : string;
  emotion_context : EmotionContext
}.

(** [round(x, 2)]: nearest multiple of 1/100, ties to the even one. *)
Definition round_half_even (q : Q) : Z :=
  let f := Qfloor q in
  match Qcompare (q - inject_Z f) (1 # 2) with
  | Lt => f
  | Gt => (f + 1)%Z
  | Eq => if Z.even f then f else (f + 1)%Z
  end.

Definition round2 (q : Q) : Q := Qred (Qmake (round_half_even (q * 100)) 100).

(** ** Response bundles *)

Record Resource : Type := {
  name : string;
  contact : string;
  available : string;
  type : string
}.

Record ResponseBundle : Type := {
  response : string;
  resources : list Resource;
  escalate : bool;
  immediate_action_required : bool
}.

(** Line feed, and the UTF-8 bytes of U+2014 (em dash) and U+1F499
    (blue heart), which occur in the canned texts only. *)
Definition nl : string := String "010"%char "".
Definition em_dash : string :=
  String "226"%char (String "128"%char (String "148"%char "")).
Definition blue_heart : string :=
  String "240"%char (String "159"%char (String "146"%char (String "153"%char ""))).

(** ** The detector

    The functions read the module-level tables and the spaCy pipeline
    when they are called; here these are the variables of the section,
    instantiated with [Lexicon.CRISIS_KEYWORDS] and
    [Lexicon.METAPHORICAL_CONTEXTS] in the theorems about the
    repository. *)

Section Detector.

Variable CRISIS_KEYWORDS : keyword_table.
Variable METAPHORICAL_CONTEXTS : context_table.

(** [[token.lemma_ for token in nlp(text)]], or the exception raised
    while computing it. *)
Variable nlp : string -> result (list string).

Definition lemmatize_text (text : string) : result string :=
  try_except
    (lemmas <- nlp (lower text) ;;
     Ok (join " " lemmas))
    (fun e => Ok text).

(** The nested loops over [METAPHORICAL_CONTEXTS.items()] return [True]
    at the first indicator found and [False] after the last. *)
Definition check_metaphorical_context (message : string) : bool :=
  existsb (fun entry : string * list string =>
             existsb (fun keyword => contains keyword message) (snd entry))
          METAPHORICAL_CONTEXTS.

(** Each [for keyword in ...: if keyword in message_lower: return ...]
    loop leaves at its first match with a value that does not depend on
    the keyword, so it is an [existsb] over the concatenated lists. *)
Definition detect_crisis_level (message : string) : RiskTier :=
  if (message =? "")%string || (length (strip message) <=? 3) then SAFE
  else
    let message_lower := lower message in
    let is_metaphorical := check_metaphorical_context message_lower in
    if existsb (fun keyword => contains keyword message_lower)
               (CRISIS_KEYWORDS CRITICAL english ++ CRISIS_KEYWORDS CRITICAL pidgin)
    then (if is_metaphorical then HIGH else CRITICAL)
    else if existsb (fun keyword => contains keyword message_lower)
                    (CRISIS_KEYWORDS HIGH english ++ CRISIS_KEYWORDS HIGH pidgin)
    then (if is_metaphorical then MEDIUM else HIGH)
    else if existsb (fun keyword => contains keyword message_lower)
                    (CRISIS_KEYWORDS MEDIUM english ++ CRISIS_KEYWORDS MEDIUM pidgin)
    then (if is_metaphorical then SAFE else MEDIUM)
    else SAFE.

(** The body of the [try] block of [detect_crisis_enhanced]: [Some r]
    when the block returns [r], [None] when control falls out of it. *)
Definition second_pass (message : string) (risk_original : RiskTier)
  : result (option RiskTier) :=
  lemmatized_message <- lemmatize_text message ;;
  if negb (lemmatized_message =? lower message)%string then
    let risk_lemmatized := detect_crisis_level lemmatized_message in
    idx_original <- index risk_levels risk_original ;;
    idx_lemmatized <- index risk_levels risk_lemmatized ;;
    if idx_original <? idx_lemmatized then Ok (Some risk_lemmatized)
    else Ok None
  else Ok None.

(** [try: body / except Exception: print(...)] followed by
    [return risk_original]. *)
Definition with_fallback (risk_original : RiskTier)
    (body : result (option RiskTier)) : result RiskTier :=
  returned <- try_except body (fun e => Ok None) ;;
  match returned with
  | Some r => Ok r
  | None => Ok risk_original
  end.

Definition detect_crisis_enhanced (message : string) : result RiskTier :=
  if (message =? "")%string || (length (strip message) <? 3) then Ok SAFE
  else
    let risk_original := detect_crisis_level message in
    if existsb (RiskTier_eqb risk_original) [CRITICAL; HIGH] then Ok risk_original
    else with_fallback risk_original (second_pass message risk_original).

(** [f"{risk_level}: '{keyword}'"] *)
Definition format_trigger (risk_level : RiskTier) (keyword : string) : string :=
  (tier_name risk_level ++ ": '" ++ keyword ++ "'")%string.

Definition identify_triggers (message : string) : list string :=
  let message_lower := lower message in
  let triggers :=
    fold_left (fun triggers risk_level =>
      fold_left (fun triggers dialect =>
        fold_left (fun triggers keyword =>
                     if contains keyword message_lower
                     then triggers ++ [format_trigger risk_level keyword]
                     else triggers)
                  (CRISIS_KEYWORDS risk_level dialect) triggers)
        dialect_keys triggers)
      tier_keys [] in
  firstn 5 triggers.

Definition get_risk_recommendation (risk_level : RiskTier)
    (emotion_data : EmotionData) : string :=
  match risk_level with
  | CRITICAL => "IMMEDIATE_CRISIS_RESPONSE"
  | HIGH => "URGENT_SUPPORT_NEEDED"
  | MEDIUM => "ELEVATED_CONCERN"
  | SAFE => "STANDARD_THERAPEUTIC_RESPONSE"
  end.

(** [x in ['fear', 'sadness']] *)
Definition fear_or_sadness (emotion : string) : bool :=
  (emotion =? "fear")%string || (emotion =? "sadness")%string.

(** [a > b] on numbers *)
Definition Qgtb (a b : Q) : bool := negb (Qle_bool a b).

Definition detect_crisis_with_emotion (message : string)
    (emotion_data : EmotionData) : result CrisisAssessment :=
  keyword_risk <- detect_crisis_enhanced message ;;
  let primary_emotion := get (ed_primary_emotion emotion_data) "neutral" in
  let emotion_confidence := get (ed_confidence emotion_data) 0%Q in
  let urgency := get (ed_urgency emotion_data) "low" in
  let triggers := identify_triggers message in
  let '(keyword_risk, confidence) :=
    if existsb (RiskTier_eqb keyword_risk) [HIGH; CRITICAL] then
      if fear_or_sadness primary_emotion && Qgtb emotion_confidence (6 # 10)
      then (keyword_risk, 9 # 10)%Q
      else if (primary_emotion =? "anger")%string && Qgtb emotion_confidence (7 # 10)
      then (keyword_risk, 75 # 100)%Q
      else (keyword_risk, 6 # 10)%Q
    else if RiskTier_eqb keyword_risk MEDIUM then
      if (urgency =? "high")%string && fear_or_sadness primary_emotion
      then (HIGH, 7 # 10)%Q
      else (keyword_risk, 5 # 10)%Q
    else
      if (urgency =? "high")%string && fear_or_sadness primary_emotion
      then (MEDIUM, 4 # 10)%Q
      else (keyword_risk, 95 # 100)%Q in
  let recommendation := get_risk_recommendation keyword_risk emotion_data in
  Ok {| risk_level := keyword_risk;
        confidence := round2 confidence;
        triggers := triggers;
        recommendation := recommendation;
        emotion_context :=
          {| primary_emotion := primary_emotion;
             emotion_confidence := emotion_confidence;
             urgency := urgency |} |}.

End Detector.

(** ** Response resolver *)

Definition critical_response : string :=
  ("I'm truly concerned about what you're sharing with me. Your safety and wellbeing are what matters most right now."
   ++ nl ++ nl ++
   "You don't have to face this moment alone. Help is available, and people who care want to support you. Please reach out to one of the emergency services below"
   ++ em_dash ++
   "they're trained to help and are available right now."
   ++ nl ++ nl ++
   "If you're in immediate danger, please call emergency services (112 or 767) right away. "
   ++ nl ++ nl ++
   "We're also notifying our support team, and someone from our team may reach out to you to check in. You're valued, and we're here for you. "
   ++ blue_heart)%string.

Definition high_response : string :=
  ("I hear you, and I can sense that you're going through something really difficult right now. What you're feeling is valid and important."
   ++ nl ++ nl ++
   "The fact that you're reaching out shows strength. You don't have to handle this alone"
   ++ em_dash ++
   "support is available, and it's okay to ask for help."
   ++ nl ++ nl ++
   "If you're feeling overwhelmed, please consider connecting with one of the resources below. They're trained professionals who understand what you're going through and are ready to listen and support you."
   ++ nl ++ nl ++
   "Our team may also reach out to check in on you. You matter. "
   ++ blue_heart)%string.

Definition medium_response : string :=
  ("It sounds like you're dealing with some challenging feelings right now, and I appreciate you sharing that with me. That takes courage."
   ++ nl ++ nl ++
   "Let's work through this together. I'm here to listen and support you. Sometimes talking through what's happening can help clarify things and make them feel more manageable."
   ++ nl ++ nl ++
   "If you'd like additional support, there are resources available to help. Remember, seeking help is a sign of strength, not weakness. "
   ++ blue_heart)%string.

Definition get_crisis_response (risk_level : RiskTier) : option ResponseBundle :=
  match risk_level with
  | CRITICAL =>
      Some {| response := critical_response;
              resources :=
                [ {| name := "National Emergency";
                     contact := "112 or 767";
                     available := "24/7";
                     type := "emergency" |};
                  {| name := "Mentally Aware Nigeria (MANI)";
                     contact := "+2348091116264";
                     available := "24/7";
                     type := "crisis_line" |};
                  {| name := "LUTH Psychiatry Emergency";
                     contact := "+234 1 593 6394";
                     available := "24/7";
                     type := "hospital" |};
                  {| name := "She Writes Woman Crisis Line";
                     contact := "+234 813 951 3888";
                     available := "Mon-Fri 10am-6pm";
                     type := "crisis_line" |} ];
              escalate := true;
              immediate_action_required := true |}
  | HIGH =>
      Some {| response := high_response;
              resources :=
                [ {| name := "Mentally Aware Nigeria (MANI)";
                     contact := "+234 809 210 6493";
                     available := "24/7";
                     type := "crisis_line" |};
                  {| name := "She Writes Woman";
                     contact := "+234 813 951 3888";
                     available := "Mon-Fri 10am-6pm";
                     type := "support_line" |};
                  {| name := "The Agbeyega Care Centre";
                     contact := "+234 803 333 7574";
                     available := "By appointment";
                     type := "therapy_center" |} ];
              escalate := true;
              immediate_action_required := false |}
  | MEDIUM =>
      Some {| response := medium_response;
              resources :=
                [ {| name := "Mental Health Foundation Nigeria";
                     contact := "+234 814 652 3537";
                     available := "Mon-Fri 9am-5pm";
                     type := "information" |} ];
              escalate := false;
              immediate_action_required := false |}
  | SAFE => None
  end.

(** ** The scorer as the specification words it

    Used only to state the properties; the functions above are the
    code. *)

(** Some phrase of [phrases] occurs in [text]. *)
Definition occurs (phrases : list string) (text : string) : Prop :=
  exists phrase, In phrase phrases /\ contains phrase text = true.

(** The phrases of a tier, all dialects, in lexicon order. *)
Definition tier_phrases (kw : keyword_table) (tier : RiskTier) : list string :=
  kw tier english ++ kw tier pidgin.

(** Some indicator of some category occurs in [text]. *)
Definition metaphorical (mc : context_table) (text : string) : Prop :=
  exists category indicators indicator,
    In (category, indicators) mc /\ In indicator indicators /\
    contains indicator text = true.

(** Every (tier, phrase) pair of the lexicon: CRITICAL, HIGH, MEDIUM,
    and within a tier english before pidgin. *)
Definition lexicon_order (kw : keyword_table) : list (RiskTier * string) :=
  flat_map (fun tier =>
    flat_map (fun dialect => map (pair tier) (kw tier dialect)) dialect_keys)
    tier_keys.

(** The matches of a message, in lexicon order. *)
Definition matches (kw : keyword_table) (message : string) : list (RiskTier * string) :=
  filter (fun entry => contains (snd entry) (lower message)) (lexicon_order kw).

(** The fixed decision table of the fusion engine. *)
Definition fusion_table (keyword_tier : RiskTier) (primary : string)
    (conf : Q) (urg : string) : RiskTier * Q :=
  match keyword_tier with
  | HIGH | CRITICAL =>
      if fear_or_sadness primary && Qgtb conf (6 # 10) then (keyword_tier, 90 # 100)%Q
      else if (primary =? "anger")%string && Qgtb conf (7 # 10)
      then (keyword_tier, 75 # 100)%Q
      else (keyword_tier, 60 # 100)%Q
  | MEDIUM =>
      if (urg =? "high")%string && fear_or_sadness primary then (HIGH, 70 # 100)%Q
      else (MEDIUM, 50 # 100)%Q
  | SAFE =>
      if (urg =? "high")%string && fear_or_sadness primary then (MEDIUM, 40 # 100)%Q
      else (SAFE, 95 # 100)%Q
  end.

(** Last character of [String c s]. *)
Fixpoint last_char (s : string) (c : ascii) : ascii :=
  match s with
  | EmptyString => c
  | String d r => last_char r d
  end.

(** A phrase whose first and last characters are not white space. *)
Definition anchored (p : string) : bool :=
  match p with
  | EmptyString => false
  | String c r => negb (isspace c) && negb (isspace (last_char r c))
  end.

(** Every phrase of the lexicon is anchored and longer than three
    characters. *)
Definition long_anchored (kw : keyword_table) : bool :=
  forallb (fun entry : RiskTier * string =>
             anchored (snd entry) && (3 <? length (snd entry)))
          (lexicon_order kw).

(** What the scorer returns for [message], in the words of the
    specification: tiers are tried in the order CRITICAL, HIGH, MEDIUM,
    the first tier with a phrase in the lower-cased message decides, and
    a metaphorical message lowers the result by one tier. *)
Definition scorer_contract (kw : keyword_table) (mc : context_table)
    (message : string) : Prop :=
  let text := lower message in
  let tier := detect_crisis_level kw mc message in
  let critical := occurs (tier_phrases kw CRITICAL) text in
  let high := occurs (tier_phrases kw HIGH) text in
  let medium := occurs (tier_phrases kw MEDIUM) text in
  let figurative := metaphorical mc text in
  (critical -> figurative -> tier = HIGH) /\
  (critical -> ~ figurative -> tier = CRITICAL) /\
  (~ critical -> high -> figurative -> tier = MEDIUM) /\
  (~ critical -> high -> ~ figurative -> tier = HIGH) /\
  (~ critical -> ~ high -> medium -> figurative -> tier = SAFE) /\
  (~ critical -> ~ high -> medium -> ~ figurative -> tier = MEDIUM) /\
  (~ critical -> ~ high -> ~ medium -> tier = SAFE).

(** The rows of the decision table of the fusion engine, for keyword
    tier [k] and the emotion read from the signal: primary emotion [p],
    confidence [c], urgency [u]. *)
Definition fusion_contract (k : RiskTier) (p : string) (c : Q) (u : string)
    (final : RiskTier) (conf : Q) : Prop :=
  let distressed := p = "fear" \/ p = "sadness" in
  ((k = HIGH \/ k = CRITICAL) -> distressed -> (6 # 10 < c)%Q ->
   final = k /\ (conf == 90 # 100)%Q) /\
  ((k = HIGH \/ k = CRITICAL) -> p = "anger" -> (7 # 10 < c)%Q ->
   final = k /\ (conf == 75 # 100)%Q) /\
  ((k = HIGH \/ k = CRITICAL) ->
   ~ (distressed /\ (6 # 10 < c)%Q) -> ~ (p = "anger" /\ (7 # 10 < c)%Q) ->
   final = k /\ (conf == 60 # 100)%Q) /\
  (k = MEDIUM -> u = "high" -> distressed ->
   final = HIGH /\ (conf == 70 # 100)%Q) /\
  (k = MEDIUM -> ~ (u = "high" /\ distressed) ->
   final = MEDIUM /\ (conf == 50 # 100)%Q) /\
  (k = SAFE -> u = "high" -> distressed ->
   final = MEDIUM /\ (conf == 40 # 100)%Q) /\
  (k = SAFE -> ~ (u = "high" /\ distressed) ->
   final = SAFE /\ (conf == 95 # 100)%Q).

(** ** Sample analyzers *)

(** An analyzer that lemmatizes two sentences the way the source
    documents for spaCy ("killing" to "kill", "am" to "be", "i" to "I")
    and raises on every other text. *)
Definition sample_nlp (text : string) : result (list string) :=
  if (text =? "i am killing myself")%string then
    Ok ["I"; "be"; "kill"; "myself"]
  else if (text =? "i hate myself and i am killing myself")%string then
    Ok ["I"; "hate"; "myself"; "and"; "I"; "be"; "kill"; "myself"]
  else Raised "unknown text".

(** An analyzer that always raises. *)
Definition failing_nlp (text : string) : result (list string) :=
  Raised "analyzer unavailable".

Definition fearful : EmotionData :=
  {| ed_primary_emotion := Some "fear";
     ed_confidence := Some (78 # 100)%Q;
     ed_urgency := Some "high" |}.

(** ** Auxiliary notions for the further properties *)

(** The table without the phrases that hold a cased capital. *)
Definition drop_cased (kw : keyword_table) : keyword_table :=
  fun tier dialect => filter (fun phrase => (phrase =? lower phrase)%string) (kw tier dialect).

Definition drop_cased_contexts (mc : context_table) : context_table :=
  map (fun entry : string * list string =>
         (fst entry, filter (fun phrase => (phrase =? lower phrase)%string) (snd entry)))
      mc.

(** Every indicator of the context table is anchored. *)
Definition anchored_contexts (mc : context_table) : bool :=
  forallb (fun entry : string * list string => forallb anchored (snd entry)) mc.

(** The tier a metaphorical message is lowered to. *)
Definition downgrade (tier : RiskTier) : RiskTier :=
  match tier with
  | CRITICAL => HIGH
  | HIGH => MEDIUM
  | MEDIUM => SAFE
  | SAFE => SAFE
  end.

(** ** Numbers of the emotion engine

    The emotion scores are Python floats, and a missing score defaults
    to the integer 0.  Their arithmetic is kept abstract: the functions
    below are written over any type of numbers with the operations they
    use, so what is proved holds for IEEE doubles as for any other
    reading.  [value] is the rational a number denotes; the fusion
    engine, which only compares the confidence with 0.6 and 0.7, reads
    the confidence through it. *)
Record Arithmetic : Type := {
  num : Type;
  int_zero : num;                              (* [0] *)
  float_zero : num;                            (* [0.0] *)
  float_one : num;                             (* [1.0] *)
  lit_0_4 : num;
  lit_0_5 : num;
  lit_0_6 : num;
  lit_0_7 : num;
  num_add : num -> num -> num;
  num_sub : num -> num -> num;
  num_div : num -> num -> num;
  num_gt : num -> num -> bool;
  num_lt : num -> num -> bool;
  py_round : num -> nat -> num;                (* [round(x, n)] *)
  py_sum : list num -> num;                    (* [sum(xs)] *)
  sorted_by_score_desc :                       (* [sorted(xs, key=score, reverse=True)] *)
    list (string * num) -> list (string * num);
  value : num -> Q
}.

(** ** The emotion dict

    The dict [analyze_emotion] returns and the view passes on.  Each key
    may be missing; [emotion_scores] is ordered as inserted. *)
Record EmotionDict (A : Arithmetic) : Type := {
  d_primary_emotion : option string;
  d_emotion_scores : option (list (string * num A));
  d_sentiment_score : option (num A);
  d_confidence : option (num A);
  d_confidence_score : option (num A);
  d_urgency : option string;
  d_all_emotions : option (list (string * num A));
  d_error : option string
}.
Arguments d_primary_emotion {A} _.
Arguments d_emotion_scores {A} _.
Arguments d_sentiment_score {A} _.
Arguments d_confidence {A} _.
Arguments d_confidence_score {A} _.
Arguments d_urgency {A} _.
Arguments d_all_emotions {A} _.
Arguments d_error {A} _.

(** The three keys [detect_crisis_with_emotion] reads with [.get]. *)
Definition signal_of {A : Arithmetic} (d : EmotionDict A) : EmotionData :=
  {| ed_primary_emotion := d_primary_emotion d;
     ed_confidence := option_map (value A) (d_confidence d);
     ed_urgency := d_urgency d |}.

(** [d[key]]: [KeyError] when the key is missing. *)
Definition getitem {V} (field : option V) (key : string) : result V :=
  match field with
  | Some v => Ok v
  | None => Raised ("KeyError: " ++ key)%string
  end.

(** ** The emotion engine (backend/apps/chat/ai_engine.py) *)

(** [d[k] = v] on a dict kept as an association list: an existing key
    keeps its place. *)
Fixpoint dict_set {V} (d : list (string * V)) (k : string) (v : V) : list (string * V) :=
  match d with
  | [] => [(k, v)]
  | (k', v') :: rest =>
      if (k' =? k)%string then (k, v) :: rest else (k', v') :: dict_set rest k v
  end.

(** [d.get(k)] *)
Fixpoint dict_get {V} (d : list (string * V)) (k : string) : option V :=
  match d with
  | [] => None
  | (k', v) :: rest => if (k' =? k)%string then Some v else dict_get rest k
  end.

Section EmotionEngine.

Variable A : Arithmetic.

(** [emotional_classifier(text)[0]] as (label, score) pairs, or the
    exception raised on the way. *)
Variable emotional_classifier : string -> result (list (string * num A)).

Definition calculate_urgency (primary_emotion : string) (confidence : num A)
    (emotion_scores : list (string * num A)) : string :=
  if fear_or_sadness primary_emotion && num_gt A confidence (lit_0_6 A) then "high"
  else if ((primary_emotion =? "anger")%string || (primary_emotion =? "disgust")%string)
          && num_gt A confidence (lit_0_5 A) then "medium"
  else
    let negative_emotions := ["anger"; "disgust"; "fear"; "sadness"] in
    let negative_total :=
      py_sum A (map (fun e => get (dict_get emotion_scores e) (int_zero A))
                    negative_emotions) in
    if num_gt A negative_total (lit_0_7 A) then "high"
    else if num_lt A negative_total (lit_0_4 A) then "medium"
    else "low".

(** [max(d, key=d.get)]: the first key whose value no later value
    exceeds; [ValueError] on an empty dict. *)
Definition max_key (d : list (string * num A)) : result string :=
  match d with
  | [] => Raised "ValueError"
  | (k, v) :: rest =>
      Ok (fst (fold_left (fun best item =>
                            if num_gt A (snd item) (snd best) then item else best)
                         rest (k, v)))
  end.

(** [sum([a, b, c, d])] where [b] may be [None]: [TypeError]. *)
Definition sum_with_none (a : num A) (b : option (num A)) (c d : num A) : result (num A) :=
  match b with
  | Some b => Ok (py_sum A [a; b; c; d])
  | None => Raised "TypeError"
  end.

Definition analyze_emotion (text : string) : EmotionDict A :=
  if (text =? "")%string && (length (strip text) <? 3) then
    {| d_primary_emotion := Some "neutral";
       d_emotion_scores := Some [("neutral", float_one A)];
       d_sentiment_score := Some (float_zero A);
       d_confidence := None;
       d_confidence_score := Some (float_zero A);
       d_urgency := Some "low";
       d_all_emotions := Some [];
       d_error := None |}
  else
    match
      (results <- emotional_classifier text ;;
       let emotion_scores :=
         fold_left (fun d item => dict_set d (fst item) (py_round A (snd item) 4))
                   results [] in
       primary_emotion <- max_key emotion_scores ;;
       confidence <- getitem (dict_get emotion_scores primary_emotion) primary_emotion ;;
       let positive_score := get (dict_get emotion_scores "joy") (int_zero A) in
       negative_score <-
         sum_with_none (get (dict_get emotion_scores "anger") (int_zero A))
                       (dict_get emotion_scores "disgust")
                       (get (dict_get emotion_scores "fear") (int_zero A))
                       (get (dict_get emotion_scores "sadness") (int_zero A)) ;;
       let sentiment_score :=
         if num_gt A (num_add A positive_score negative_score) (int_zero A)
         then num_div A (num_sub A positive_score negative_score)
                        (num_add A positive_score negative_score)
         else float_zero A in
       let urgency := calculate_urgency primary_emotion confidence emotion_scores in
       let all_emotions := sorted_by_score_desc A emotion_scores in
       Ok {| d_primary_emotion := Some primary_emotion;
             d_emotion_scores := Some emotion_scores;
             d_sentiment_score := Some (py_round A sentiment_score 3);
             d_confidence := Some (py_round A confidence 3);
             d_confidence_score := None;
             d_urgency := Some urgency;
             d_all_emotions := Some all_emotions;
             d_error := None |})
    with
    | Ok d => d
    | Raised e =>
        {| d_primary_emotion := Some "neutral";
           d_emotion_scores := Some [("neutral", float_one A)];
           d_sentiment_score := Some (float_zero A);
           d_confidence := Some (float_zero A);
           d_confidence_score := None;
           d_urgency := Some "low";
           d_all_emotions := Some [];
           d_error := Some e |}
    end.

End EmotionEngine.

(** ** Prompt adaptation (backend/apps/chat/ai_engine.py) *)

(** Double quote. *)
Definition dq : string := String "034"%char "".
Definition utf8_226_154_160 : string := String "226"%char (String "154"%char (String "160"%char (""))).
Definition utf8_239_184_143 : string := String "239"%char (String "184"%char (String "143"%char (""))).

Definition fear_adaptation : string :=
  join nl
  [ "";
    "DETECTED EMOTION: FEAR/ANXIETY";
    "";
    "ADAPTED RESPONSE STRATEGY:";
    "- Prioritize grounding and safety";
    "- Use calming, reassuring language";
    "- Offer immediate anxiety-reduction techniques";
    "- Avoid overwhelming with too many questions";
    "- Create sense of control";
    "";
    "Recommended interventions: Breathing exercises, grounding (5-4-3-2-1), progressive muscle relaxation";
    "";
    ("Example opening: " ++ dq ++ "I hear how anxious you're feeling. Let's take this one step at a time. First, let's try something to help calm your nervous system." ++ dq)%string;
    "        " ].

Definition sadness_adaptation : string :=
  join nl
  [ "";
    "DETECTED EMOTION: SADNESS/DEPRESSION";
    "";
    "ADAPTED RESPONSE STRATEGY:";
    "- Lead with deep validation and empathy";
    "- Acknowledge the pain without rushing to fix";
    "- Use gentle, warm language";
    "- Normalize the feeling of sadness";
    "- Explore underlying causes slowly";
    "- Offer hope without dismissing pain";
    "";
    "Recommended interventions: Gratitude journaling, behavioral activation, self-compassion";
    "";
    ("Example opening: " ++ dq ++ "I hear the sadness in your message. It's okay to feel this way, and you're not alone. Can you share what's been weighing most heavily on your heart?" ++ dq)%string;
    "        " ].

Definition anger_adaptation : string :=
  join nl
  [ "";
    "DETECTED EMOTION: ANGER/FRUSTRATION";
    "";
    "ADAPTED RESPONSE STRATEGY:";
    "- Validate the anger as legitimate";
    "- Help identify what's underneath (often hurt, fear, or unmet needs)";
    "- Offer healthy expression outlets";
    "- Avoid dismissing or minimizing";
    "- Help channel anger constructively";
    "";
    "Recommended interventions: Anger diary, physical activity, assertiveness training";
    "";
    ("Example opening: " ++ dq ++ "I hear your frustration, and it sounds like you have good reasons to feel angry. What's at the core of what's upsetting you?" ++ dq)%string;
    "        " ].

Definition joy_adaptation : string :=
  join nl
  [ "";
    "DETECTED EMOTION: JOY/HAPPINESS";
    "";
    "ADAPTED RESPONSE STRATEGY:";
    "- Celebrate the positive moment genuinely";
    "- Explore what contributed to this feeling";
    "- Reinforce healthy patterns and coping strategies";
    "- Build on momentum";
    "- Help them savor the positive";
    "";
    ("Example opening: " ++ dq ++ "It's wonderful to hear you're feeling good! What's been going well for you?" ++ dq)%string;
    "        " ].

Definition disgust_adaptation : string :=
  join nl
  [ "";
    "DETECTED EMOTION: DISGUST";
    "";
    "ADAPTED RESPONSE STRATEGY:";
    "- Explore what's triggering this strong reaction";
    "- Often relates to violation of values or boundaries";
    "- Validate their standards while exploring flexibility";
    "- Help process the strong reaction";
    "";
    ("Example opening: " ++ dq ++ "It sounds like something has really bothered you. What happened that triggered such a strong reaction?" ++ dq)%string;
    "        " ].

Definition surprise_adaptation : string :=
  join nl
  [ "";
    "DETECTED EMOTION: SURPRISE";
    "";
    "ADAPTED RESPONSE STRATEGY:";
    "- Help process the unexpected event";
    "- Explore whether surprise is positive or negative";
    "- Support adjustment to new information";
    "";
    ("Example opening: " ++ dq ++ "It sounds like something unexpected happened. Tell me more about what surprised you." ++ dq)%string;
    "        " ].

Definition neutral_adaptation : string :=
  join nl
  [ "";
    "DETECTED EMOTION: NEUTRAL or UNCLEAR";
    "";
    "ADAPTED RESPONSE STRATEGY:";
    "- Standard therapeutic approach";
    "- Ask open-ended questions to understand more";
    "- Let the conversation develop naturally";
    "- Stay warm and supportive";
    "        " ].

Definition high_urgency_note : string :=
  join nl
  [ "";
    (utf8_226_154_160 ++ utf8_239_184_143 ++ " HIGH URGENCY DETECTED")%string;
    "- User may be in significant distress";
    "- Prioritize immediate support and safety";
    "- Consider crisis resources if appropriate";
    "- Be especially gentle and validating";
    "        " ].

Definition fallback_response_text : string :=
  join nl
  [ "I apologize, but I'm having trouble connecting right now. Please try again in a moment.";
    "";
    "If you're in crisis and need immediate help, please reach out to:";
    "- National Emergency: 112 or 767";
    "- Mentally Aware Nigeria: +234 809 210 6493 (24/7)";
    "- LUTH Psychiatry: +234 1 593 6394";
    "";
    "If this is not urgent, please try sending your message again, and I'll do my best to support you." ].

(** [list.append] *)
Definition append {X} (l : list X) (x : X) : list X := l ++ [x].

Definition adapt_prompt_to_emotion {A : Arithmetic} (base_prompt : string)
    (emotion_data : EmotionDict A) : result string :=
  primary_emotion <- getitem (d_primary_emotion emotion_data) "primary_emotion" ;;
  confidence <- getitem (d_confidence emotion_data) "confidence" ;;
  urgency <- getitem (d_urgency emotion_data) "urgency" ;;
  let adaptations := [] in
  let adaptations :=
    if (primary_emotion =? "fear")%string then append adaptations fear_adaptation
    else if (primary_emotion =? "sadness")%string then append adaptations sadness_adaptation
    else if (primary_emotion =? "anger")%string then append adaptations anger_adaptation
    else if (primary_emotion =? "joy")%string then append adaptations joy_adaptation
    else if (primary_emotion =? "disgust")%string then append adaptations disgust_adaptation
    else if (primary_emotion =? "surprise")%string then append adaptations surprise_adaptation
    else append adaptations neutral_adaptation in
  let adaptations :=
    if (urgency =? "high")%string then append adaptations high_urgency_note
    else adaptations in
  Ok (base_prompt ++ nl ++ nl ++ join nl adaptations)%string.

(** ** Reply generation (backend/apps/chat/ai_response.py) *)

(** One entry of the message array sent to the language model. *)
Record ChatTurn : Type := {
  role : string;
  content : string
}.

(** The fields of a stored [ChatMessage] that [format_chat_history]
    reads. *)
Record Exchange : Type := {
  ex_message : string;
  ex_response : string
}.

Definition format_chat_history (messages_queryset : list Exchange) : list ChatTurn :=
  fold_left (fun formatted_messages msg =>
               append (append formatted_messages
                         {| role := "user"; content := ex_message msg |})
                      {| role := "assistant"; content := ex_response msg |})
            messages_queryset [].

Definition get_fallback_response : string := fallback_response_text.

(** A completion of the language model: the [message.content] of each
    of its [choices], [None] when the content is null. *)
Definition Completion : Type := list (option string).

Section ReplyGeneration.

Variable A : Arithmetic.

(** [FULL_THERAPIST_PROMPT], read when [get_ai_response] is called. *)
Variable FULL_THERAPIST_PROMPT : string.

(** Whether [groq_client] is not [None]. *)
Variable groq_client_initialized : bool.

(** [groq_client.chat.completions.create(...)]: the outcome of the
    call number [n] (counted from 0) on the given message array. *)
Variable chat_completions_create : nat -> list ChatTurn -> result Completion.

(** The [try] block of [get_ai_response], started after [calls] calls
    of the language model: its outcome and the number of calls made by
    then. *)
Definition attempt_reply (calls : nat) (user_message : string)
    (conversation_history : list ChatTurn) (emotion_data : EmotionDict A)
  : result string * nat :=
  match adapt_prompt_to_emotion FULL_THERAPIST_PROMPT emotion_data with
  | Raised e => (Raised e, calls)
  | Ok adapted_prompt =>
      let messages := [ {| role := "system"; content := adapted_prompt |} ] in
      let messages := messages ++ conversation_history in
      let messages := append messages {| role := "user"; content := user_message |} in
      (completion <- chat_completions_create calls messages ;;
       choice <- match completion with
                 | [] => Raised "IndexError"
                 | first :: _ => Ok first
                 end ;;
       text <- match choice with
               | None => Raised "AttributeError"
               | Some text => Ok text
               end ;;
       let ai_response := strip text in
       if (ai_response =? "")%string || (length ai_response <? 10)
       then Ok get_fallback_response
       else Ok ai_response,
       S calls)
  end.

(** [get_ai_response] with [retries] retries left ([max_retries] when
    it is positive, 0 otherwise), after [calls] calls of the language
    model: the reply and the number of calls made in all. *)
Fixpoint get_ai_response_from (retries calls : nat) (user_message : string)
    (conversation_history : list ChatTurn) (emotion_data : EmotionDict A)
  : string * nat :=
  if negb groq_client_initialized then (get_fallback_response, calls)
  else
    match attempt_reply calls user_message conversation_history emotion_data with
    | (Ok reply, calls') => (reply, calls')
    | (Raised e, calls') =>
        match retries with
        | S retries' =>
            get_ai_response_from retries' calls' user_message
              conversation_history emotion_data
        | O => (get_fallback_response, calls')
        end
    end.

Definition get_ai_response (user_message : string)
    (conversation_history : list ChatTurn) (emotion_data : EmotionDict A)
    (max_retries : Z) : string * nat :=
  get_ai_response_from (Z.to_nat max_retries) 0 user_message
    conversation_history emotion_data.

End ReplyGeneration.

(** ** The chat endpoint (backend/apps/chat/views.py)

    [send_message] after authentication.  The database, the analyzer,
    the classifier and the language model are parameters; log calls are
    dropped, but the dict look-ups made to build a log line are kept,
    since they can raise. *)

(** A value of the request body: a string, or some other JSON value. *)
Inductive JsonValue : Type :=
| json_string (text : string)
| json_other.

(** [request.data], as far as the view reads it: a mapping (a JSON
    object or form data) with its 'message' entry, [None] when the key
    is missing, or a parsed body of another kind (a JSON array or
    scalar). *)
Inductive RequestData : Type :=
| data_mapping (message : option JsonValue)
| data_other.

(** [data.get('message', '')]: only a mapping has the method. *)
Definition data_get_message (data : RequestData) : result JsonValue :=
  match data with
  | data_mapping message => Ok (get message (json_string ""))
  | data_other => Raised "AttributeError"
  end.

(** [v.strip()]: only a string has the method. *)
Definition str_strip (v : JsonValue) : result string :=
  match v with
  | json_string text => Ok (strip text)
  | json_other => Raised "AttributeError"
  end.

Inductive HttpStatus : Type :=
| HTTP_201_CREATED
| HTTP_400_BAD_REQUEST
| HTTP_503_SERVICE_UNAVAILABLE.

Section View.

Variable A : Arithmetic.
Variable Account : Type.
Variable Timestamp : Type.

Variable CRISIS_KEYWORDS : keyword_table.
Variable METAPHORICAL_CONTEXTS : context_table.
Variable nlp : string -> result (list string).
Variable emotional_classifier : string -> result (list (string * num A)).
Variable FULL_THERAPIST_PROMPT : string.
Variable groq_client_initialized : bool.
Variable chat_completions_create : nat -> list ChatTurn -> result Completion.

(** [request.user] and [request.data]; the body is parsed when
    [request.data] is first read, which raises for a body that cannot
    be parsed. *)
Record Request : Type := {
  req_user : Account;
  req_data : result RequestData
}.

(** The keyword arguments of [ChatMessage.objects.create]. *)
Record NewChatMessage : Type := {
  new_user : Account;
  new_message : string;
  new_response : string;
  new_risk_level : RiskTier;
  new_primary_emotion : option string;
  new_sentiment_score : option (num A);
  new_emotion_confidence : option (num A)
}.

(** What the view reads of the created row. *)
Record SavedChatMessage : Type := {
  saved_id : nat;
  saved_created_at : Timestamp
}.

(** [ChatMessage.objects.create(...)] *)
Variable objects_create : NewChatMessage -> result SavedChatMessage.

(** [ChatMessage.get_user_history(user, limit=...)] *)
Variable get_user_history : Account -> nat -> result (list Exchange).

(** The ['emotion'] entry of the ordinary reply. *)
Record EmotionSummary : Type := {
  sum_primary_emotion : option string;
  sum_sentiment_score : option (num A);
  sum_confidence : option (num A);
  sum_urgency : option string;
  sum_all_emotions : list (string * num A)
}.

(** The five shapes of a response body. *)
Inductive Body : Type :=
| error_body (error : string)
| crisis_body (reply : string) (support : list Resource) (tier : RiskTier)
    (is_crisis : bool) (immediate : bool) (emotion : EmotionDict A)
    (timestamp : Timestamp) (message_id : nat)
| unavailable_body (error : string) (fallback : bool)
| unsaved_body (reply : string) (emotion : EmotionDict A) (tier : RiskTier)
    (is_crisis : bool) (warning : string)
| reply_body (reply : string) (emotion : EmotionSummary) (tier : RiskTier)
    (is_crisis : bool) (timestamp : Timestamp) (message_id : nat).

Record Response : Type := {
  body : Body;
  status : HttpStatus
}.

(** The emotion dict the view falls back on. *)
Definition view_fallback_emotion : EmotionDict A :=
  {| d_primary_emotion := Some "neutral";
     d_emotion_scores := None;
     d_sentiment_score := Some (float_zero A);
     d_confidence := Some (float_zero A);
     d_confidence_score := None;
     d_urgency := Some "low";
     d_all_emotions := None;
     d_error := None |}.

(** The block run when the risk level is CRITICAL or HIGH. *)
Definition crisis_reply (user : Account) (user_message : string)
    (emotion_data : EmotionDict A) (risk_level : RiskTier) : result Response :=
  crisis_response <-
    match get_crisis_response risk_level with
    | Some bundle => Ok bundle
    | None => Raised "TypeError"
    end ;;
  chat_message <-
    objects_create
      {| new_user := user;
         new_message := user_message;
         new_response := response crisis_response;
         new_risk_level := risk_level;
         new_primary_emotion := d_primary_emotion emotion_data;
         new_sentiment_score := d_sentiment_score emotion_data;
         new_emotion_confidence := d_confidence emotion_data |} ;;
  Ok {| body := crisis_body (response crisis_response) (resources crisis_response)
                  risk_level true (immediate_action_required crisis_response)
                  emotion_data (saved_created_at chat_message)
                  (saved_id chat_message);
        status := HTTP_201_CREATED |}.

(** Steps 5 to 8: history, reply of the language model, saving, and the
    ordinary response. *)
Definition ordinary_reply (user : Account) (user_message : string)
    (emotion_data : EmotionDict A) (risk_level : RiskTier) : result Response :=
  conversation_history <-
    try_except
      (history_queryset <- get_user_history user 10 ;;
       Ok (format_chat_history history_queryset))
      (fun e => Ok []) ;;
  match
    try_except
      (Ok (inl (fst (get_ai_response A FULL_THERAPIST_PROMPT
                       groq_client_initialized chat_completions_create
                       user_message conversation_history emotion_data 2))))
      (fun e => Ok (inr tt))
  with
  | Raised e => Raised e
  | Ok (inr _) =>
      Ok {| body := unavailable_body
                      "AI service temporarily unavailable. Please try again in a moment."
                      true;
            status := HTTP_503_SERVICE_UNAVAILABLE |}
  | Ok (inl ai_response) =>
      match
        objects_create
          {| new_user := user;
             new_message := user_message;
             new_response := ai_response;
             new_risk_level := risk_level;
             new_primary_emotion := d_primary_emotion emotion_data;
             new_sentiment_score := d_sentiment_score emotion_data;
             new_emotion_confidence := d_confidence emotion_data |}
      with
      | Raised e =>
          Ok {| body := unsaved_body ai_response emotion_data risk_level false
                          "Message not saved to history";
                status := HTTP_201_CREATED |}
      | Ok chat_message =>
          Ok {| body := reply_body ai_response
                          {| sum_primary_emotion := d_primary_emotion emotion_data;
                             sum_sentiment_score := d_sentiment_score emotion_data;
                             sum_confidence := d_confidence emotion_data;
                             sum_urgency := d_urgency emotion_data;
                             sum_all_emotions :=
                               firstn 3 (get (d_all_emotions emotion_data) []) |}
                          risk_level false (saved_created_at chat_message)
                          (saved_id chat_message);
                status := HTTP_201_CREATED |}
      end
  end.

Definition send_message (request : Request) : result Response :=
  let user := req_user request in
  data <- req_data request ;;
  value <- data_get_message data ;;
  user_message <- str_strip value ;;
  if (user_message =? "")%string then
    Ok {| body := error_body "Message cannot be empty";
          status := HTTP_400_BAD_REQUEST |}
  else if 2000 <? length user_message then
    Ok {| body := error_body
                    "Message too long. Please keep messages under 2000 characters.";
          status := HTTP_400_BAD_REQUEST |}
  else if length user_message <? 3 then
    Ok {| body := error_body
                    "Message too short. Please share more about what you're feeling.";
          status := HTTP_400_BAD_REQUEST |}
  else
    emotion_data <-
      try_except
        (let emotion_data := analyze_emotion A emotional_classifier user_message in
         _ <- getitem (d_primary_emotion emotion_data) "primary_emotion" ;;
         _ <- getitem (d_confidence emotion_data) "confidence" ;;
         Ok emotion_data)
        (fun e => Ok view_fallback_emotion) ;;
    risk_level <-
      try_except
        (crisis_data <- detect_crisis_with_emotion CRISIS_KEYWORDS
                          METAPHORICAL_CONTEXTS nlp user_message
                          (signal_of emotion_data) ;;
         Ok (risk_level crisis_data))
        (fun e => Ok SAFE) ;;
    if existsb (RiskTier_eqb risk_level) [CRITICAL; HIGH] then
      crisis_reply user user_message emotion_data risk_level
    else
      ordinary_reply user user_message emotion_data risk_level.

(** The tier a response carries, if any. *)
Definition body_tier (b : Body) : option RiskTier :=
  match b with
  | crisis_body _ _ tier _ _ _ _ _ => Some tier
  | unsaved_body _ _ tier _ _ => Some tier
  | reply_body _ _ tier _ _ _ => Some tier
  | error_body _ => None
  | unavailable_body _ _ => None
  end.

End View.

Arguments req_user {Account} _.
Arguments req_data {Account} _.
Arguments new_user {A Account} _.
Arguments new_message {A Account} _.
Arguments new_response {A Account} _.
Arguments new_risk_level {A Account} _.
Arguments new_primary_emotion {A Account} _.
Arguments new_sentiment_score {A Account} _.
Arguments new_emotion_confidence {A Account} _.
Arguments saved_id {Timestamp} _.
Arguments saved_created_at {Timestamp} _.
Arguments body {A Timestamp} _.
Arguments status {A Timestamp} _.
Arguments error_body {A Timestamp} _.
Arguments crisis_body {A Timestamp} _ _ _ _ _ _ _ _.
Arguments unavailable_body {A Timestamp} _ _.
Arguments unsaved_body {A Timestamp} _ _ _ _ _.
Arguments reply_body {A Timestamp} _ _ _ _ _ _.
Arguments body_tier {A Timestamp} _.

(** The message the view works on. *)
Definition trimmed {Account : Type} (request : Request Account) : string :=
  match req_data request with
  | Ok (data_mapping message) =>
      match get message (json_string "") with
      | json_string text => strip text
      | json_other => ""
      end
  | _ => ""
  end.

(** The body of the request is a mapping whose message is a string, or
    is missing. *)
Definition textual {Account : Type} (request : Request Account) : Prop :=
  match req_data request with
  | Ok (data_mapping message) => get message (json_string "") <> json_other
  | _ => False
  end.

(** ** Sample collaborators *)

(** Exact rational arithmetic, used to run the functions on examples. *)
Definition round_decimals (q : Q) (n : nat) : Q :=
  Qred (Qmake (round_half_even (q * inject_Z (10 ^ Z.of_nat n))) (Pos.pow 10 (Pos.of_nat n))).

Fixpoint insert_desc (item : string * Q) (l : list (string * Q)) : list (string * Q) :=
  match l with
  | [] => [item]
  | x :: rest =>
      if Qgtb (snd item) (snd x) then item :: l else x :: insert_desc item rest
  end.

Definition exact_arithmetic : Arithmetic :=
  {| num := Q;
     int_zero := 0%Q;
     float_zero := 0%Q;
     float_one := 1%Q;
     lit_0_4 := (4 # 10)%Q;
     lit_0_5 := (5 # 10)%Q;
     lit_0_6 := (6 # 10)%Q;
     lit_0_7 := (7 # 10)%Q;
     num_add := Qplus;
     num_sub := Qminus;
     num_div := Qdiv;
     num_gt := Qgtb;
     num_lt := fun a b => Qgtb b a;
     py_round := round_decimals;
     py_sum := fun l => fold_left Qplus l 0%Q;
     sorted_by_score_desc := fun l => fold_right insert_desc [] l;
     value := fun q => q |}.

(** A classifier that finds fear in every text. *)
Definition fearful_classifier (text : string) : result (list (string * Q)) :=
  Ok [ ("fear", (7812 # 10000)%Q); ("sadness", (1501 # 10000)%Q);
       ("neutral", (400 # 10000)%Q); ("anger", (100 # 10000)%Q);
       ("disgust", (87 # 10000)%Q); ("surprise", (60 # 10000)%Q);
       ("joy", (40 # 10000)%Q) ].

(** A classifier that raises. *)
Definition failing_classifier (text : string) : result (list (string * Q)) :=
  Raised "model unavailable".

(** A language model whose first call times out and whose second call
    answers. *)
Definition flaky_model (n : nat) (messages : list ChatTurn) : result Completion :=
  match n with
  | O => Raised "timeout"
  | _ => Ok [ Some "  I hear you. Tell me more about today.  " ]
  end.

(** A database that stores every row. *)
Definition storing_database {A : Arithmetic} {Account : Type}
    (row : NewChatMessage A Account) : result (SavedChatMessage nat) :=
  Ok {| saved_id := 1; saved_created_at := 0 |}.

(** A database that is down. *)
Definition failing_database {A : Arithmetic} {Account : Type}
    (row : NewChatMessage A Account) : result (SavedChatMessage nat) :=
  Raised "database unavailable".

Definition empty_history (user : string) (limit : nat) : result (list Exchange) :=
  Ok [].

(** A dict with the three keys the prompt adaptation reads. *)
Definition sad_emotion : EmotionDict exact_arithmetic :=
  Build_EmotionDict exact_arithmetic
    (Some "sadness") None None (Some (8 # 10)%Q) None (Some "high") None None.

(** A reply the view may show: the fallback text, or the stripped
    content of a completion, at least ten characters long. *)
Definition acceptable_reply (reply : string) : Prop :=
  reply = get_fallback_response \/
  exists text, reply = strip text /\ 10 <= length reply.

(** An outcome of the language model that makes the attempt fail: an
    exception, no choice, or a null content. *)
Definition unusable (outcome : result Completion) : bool :=
  match outcome with
  | Raised _ => true
  | Ok [] => true
  | Ok (None :: _) => true
  | Ok (Some _ :: _) => false
  end.

(** The message array of an attempt. *)
Definition message_array (adapted_prompt user_message : string)
    (conversation_history : list ChatTurn) : list ChatTurn :=
  ({| role := "system"; content := adapted_prompt |} :: conversation_history)
  ++ [ {| role := "user"; content := user_message |} ].

(** A reply taken from the language model after [calls] calls on the
    message array [messages]: the last call returned a completion whose
    first choice has the content [text], every call before it was
    unusable, and the reply is [text] stripped, at least ten characters
    long. *)
Definition model_reply (api : nat -> list ChatTurn -> result Completion)
    (messages : list ChatTurn) (reply : string) (calls : nat) : Prop :=
  exists text rest,
    0 < calls /\
    api (calls - 1) messages = Ok (Some text :: rest) /\
    (forall j, j < calls - 1 -> unusable (api j messages) = true) /\
    reply = strip text /\
    10 <= length reply.

(** The dict comprehension of [analyze_emotion], started from [acc]. *)
Definition scores_of (A : Arithmetic) (results acc : list (string * num A))
  : list (string * num A) :=
  fold_left (fun d item => dict_set d (fst item) (py_round A (snd item) 4)) results acc.

(** * Properties *)

(** ** Strings *)

Lemma append_assoc_s (a b c : string) : ((a ++ b) ++ c = a ++ (b ++ c))%string.
Proof. induction a as [|x a IH]; simpl; [reflexivity | now rewrite IH]. Qed.

Lemma length_append_s (a b : string) :
  length (a ++ b)%string = length a + length b.
Proof. induction a as [|x a IH]; simpl; [reflexivity | now rewrite IH]. Qed.

Lemma isspace_lower_char (c : ascii) : isspace (lower_char c) = isspace c.
Proof. destruct c as [[] [] [] [] [] [] [] []]; reflexivity. Qed.

Lemma lower_char_idem (c : ascii) : lower_char (lower_char c) = lower_char c.
Proof. destruct c as [[] [] [] [] [] [] [] []]; reflexivity. Qed.

Lemma lower_idem (s : string) : lower (lower s) = lower s.
Proof.
  induction s as [|c s IH]; simpl; [reflexivity|].
  now rewrite lower_char_idem, IH.
Qed.

Lemma length_lower (s : string) : length (lower s) = length s.
Proof. induction s as [|c s IH]; simpl; [reflexivity | now rewrite IH]. Qed.

Lemma lower_empty (s : string) : (lower s =? "")%string = (s =? "")%string.
Proof. destruct s; reflexivity. Qed.

Lemma lstrip_lower (s : string) : lstrip (lower s) = lower (lstrip s).
Proof.
  induction s as [|c s IH]; simpl; [reflexivity|].
  rewrite isspace_lower_char. destruct (isspace c); [exact IH | reflexivity].
Qed.

Lemma rstrip_lower (s : string) : rstrip (lower s) = lower (rstrip s).
Proof.
  induction s as [|c s IH]; simpl; [reflexivity|].
  rewrite IH, isspace_lower_char.
  destruct (rstrip s); simpl; [destruct (isspace c)|]; reflexivity.
Qed.

Lemma strip_lower (s : string) : strip (lower s) = lower (strip s).
Proof. unfold strip. now rewrite lstrip_lower, rstrip_lower. Qed.

Lemma startswith_split (p s : string) :
  startswith p s = true -> exists b, s = (p ++ b)%string.
Proof.
  revert s. induction p as [|a p IH]; intros s H.
  - now exists s.
  - destruct s as [|b s]; simpl in H; [discriminate|].
    apply andb_true_iff in H as [Hab Hps].
    apply Ascii.eqb_eq in Hab. subst b.
    destruct (IH _ Hps) as [t ->]. now exists t.
Qed.

Lemma contains_split (p s : string) :
  contains p s = true -> exists a b, s = (a ++ p ++ b)%string.
Proof.
  induction s as [|c s IH]; simpl; intros H.
  - rewrite orb_false_r in H. apply startswith_split in H as [b Hb].
    now exists ""%string, b.
  - apply orb_true_iff in H as [H | H].
    + apply startswith_split in H as [b Hb]. now exists ""%string, b.
    + destruct (IH H) as (a & b & ->). now exists (String c a), b.
Qed.

Lemma last_char_split (r : string) (c : ascii) :
  exists q, String c r = (q ++ String (last_char r c) "")%string.
Proof.
  revert c. induction r as [|d r IH]; intros c; simpl.
  - now exists ""%string.
  - destruct (IH d) as [q Hq]. exists (String c q). simpl. now rewrite <- Hq.
Qed.

Lemma lstrip_keeps (a r : string) (c : ascii) :
  isspace c = false ->
  exists a', lstrip (a ++ String c r)%string = (a' ++ String c r)%string.
Proof.
  intros Hc. induction a as [|x a IH]; simpl.
  - rewrite Hc. now exists ""%string.
  - destruct (isspace x); [exact IH|]. now exists (String x a).
Qed.

Lemma rstrip_keeps (q b : string) (d : ascii) :
  isspace d = false ->
  exists b', rstrip (q ++ String d b)%string = (q ++ String d b')%string.
Proof.
  intros Hd. induction q as [|x q IH]; simpl.
  - exists (rstrip b). destruct (rstrip b); [now rewrite Hd | reflexivity].
  - destruct IH as [b' ->]. exists b'.
    destruct q; reflexivity.
Qed.

(** An anchored phrase that occurs in a text lies inside the stripped
    text. *)
Lemma contains_length_strip (p s : string) :
  anchored p = true -> contains p s = true -> length p <= length (strip s).
Proof.
  intros Hp Hc. destruct p as [|c r]; [discriminate|].
  simpl in Hp. apply andb_true_iff in Hp as [Hfirst Hlast].
  apply negb_true_iff in Hfirst, Hlast.
  apply contains_split in Hc as (a & b & ->).
  unfold strip. simpl.
  destruct (lstrip_keeps a (r ++ b)%string c Hfirst) as [a' ->].
  destruct (last_char_split r c) as [q Hq].
  change (String c (r ++ b))%string with (String c r ++ b)%string.
  rewrite Hq, append_assoc_s, <- append_assoc_s. simpl.
  destruct (rstrip_keeps (a' ++ q)%string b _ Hlast) as [b' ->].
  apply (f_equal length) in Hq.
  rewrite !length_append_s in *. simpl in *. lia.
Qed.

Lemma length_strip_lower (s : string) :
  length (strip (lower s)) = length (strip s).
Proof. now rewrite strip_lower, length_lower. Qed.

(** ** The keyword risk scorer *)

Section ScorerFacts.

Variable kw : keyword_table.
Variable mc : context_table.

Lemma occurs_existsb (phrases : list string) (text : string) :
  existsb (fun keyword => contains keyword text) phrases = true <->
  occurs phrases text.
Proof. unfold occurs. apply existsb_exists. Qed.

Lemma metaphorical_check (text : string) :
  check_metaphorical_context mc text = true <-> metaphorical mc text.
Proof.
  unfold check_metaphorical_context, metaphorical. rewrite existsb_exists. split.
  - intros ([category indicators] & Hin & Hex). simpl in Hex.
    apply existsb_exists in Hex as (indicator & Hi & Hc).
    now exists category, indicators, indicator.
  - intros (category & indicators & indicator & Hin & Hi & Hc).
    exists (category, indicators). split; [exact Hin|].
    apply existsb_exists. now exists indicator.
Qed.

Lemma in_lexicon_order (tier : RiskTier) (dialect : Dialect) (phrase : string) :
  In tier tier_keys -> In phrase (kw tier dialect) ->
  In (tier, phrase) (lexicon_order kw).
Proof.
  intros Ht Hp. unfold lexicon_order.
  apply in_flat_map. exists tier. split; [exact Ht|].
  apply in_flat_map. exists dialect. split.
  - destruct dialect; simpl; auto.
  - now apply in_map.
Qed.

Lemma in_tier_phrases (tier : RiskTier) (phrase : string) :
  In tier tier_keys -> In phrase (tier_phrases kw tier) ->
  In (tier, phrase) (lexicon_order kw).
Proof.
  intros Ht Hp. apply in_app_or in Hp as [Hp | Hp];
    eapply in_lexicon_order; eauto.
Qed.

(** In a lexicon of long anchored phrases, a phrase that occurs in a
    message has more than three characters inside the stripped
    message. *)
Lemma lexicon_match_length (message : string) (tier : RiskTier) (phrase : string) :
  long_anchored kw = true ->
  In (tier, phrase) (lexicon_order kw) ->
  contains phrase (lower message) = true ->
  3 < length (strip message).
Proof.
  intros Hkw Hin Hc. unfold long_anchored in Hkw.
  rewrite forallb_forall in Hkw. specialize (Hkw _ Hin). simpl in Hkw.
  apply andb_true_iff in Hkw as [Ha Hlen]. apply Nat.ltb_lt in Hlen.
  pose proof (contains_length_strip _ _ Ha Hc) as Hle.
  rewrite length_strip_lower in Hle. lia.
Qed.

Lemma short_no_occurrence (message : string) (tier : RiskTier) :
  long_anchored kw = true -> In tier tier_keys ->
  length (strip message) <= 3 ->
  ~ occurs (tier_phrases kw tier) (lower message).
Proof.
  intros Hkw Ht Hlen (phrase & Hin & Hc).
  apply (in_tier_phrases _ _ Ht) in Hin.
  pose proof (lexicon_match_length _ _ _ Hkw Hin Hc). lia.
Qed.

(** The scorer meets its contract on every message, whenever no phrase
    of the lexicon can fit in three characters. *)
Lemma detect_crisis_level_contract (message : string) :
  long_anchored kw = true -> scorer_contract kw mc message.
Proof.
  intros Hkw. unfold scorer_contract, detect_crisis_level. cbv zeta.
  fold (tier_phrases kw CRITICAL) (tier_phrases kw HIGH) (tier_phrases kw MEDIUM).
  destruct ((message =? "")%string || (length (strip message) <=? 3)) eqn:Hguard.
  - assert (Hshort : length (strip message) <= 3).
    { apply orb_true_iff in Hguard as [He | Hl].
      - apply String.eqb_eq in He. subst message. simpl. lia.
      - now apply Nat.leb_le. }
    assert (Hc := short_no_occurrence message CRITICAL Hkw ltac:(simpl; auto) Hshort).
    assert (Hh := short_no_occurrence message HIGH Hkw ltac:(simpl; auto) Hshort).
    assert (Hm := short_no_occurrence message MEDIUM Hkw ltac:(simpl; auto) Hshort).
    repeat split; intros; try reflexivity; contradiction.
  - rewrite <- !occurs_existsb, <- metaphorical_check.
    destruct (existsb _ (tier_phrases kw CRITICAL));
    destruct (existsb _ (tier_phrases kw HIGH));
    destruct (existsb _ (tier_phrases kw MEDIUM));
    destruct (check_metaphorical_context mc (lower message));
    repeat split; intros; try reflexivity; try congruence;
    exfalso; auto.
Qed.

End ScorerFacts.

(** ** The dual-pass reconciler *)

Section ReconcilerFacts.

Variable kw : keyword_table.
Variable mc : context_table.
Variable nlp : string -> result (list string).

Lemma lemmatize_text_returns (text : string) :
  exists lemmatized, lemmatize_text nlp text = Ok lemmatized.
Proof.
  unfold lemmatize_text. destruct (nlp (lower text)) as [lemmas | e]; simpl; eauto.
Qed.

Lemma lemmatize_text_fallback (text : string) (e : exn) :
  nlp (lower text) = Raised e -> lemmatize_text nlp text = Ok text.
Proof. intros H. unfold lemmatize_text. now rewrite H. Qed.

Lemma index_risk_levels (t : RiskTier) : index risk_levels t = Ok (severity t).
Proof. destruct t; reflexivity. Qed.

Lemma with_fallback_swallows (risk_original : RiskTier) (e : exn) :
  with_fallback risk_original (Raised e) = Ok risk_original.
Proof. reflexivity. Qed.

(** Lower-casing a message first does not change its score. *)
Lemma detect_crisis_level_lower (message : string) :
  detect_crisis_level kw mc (lower message) = detect_crisis_level kw mc message.
Proof.
  unfold detect_crisis_level.
  now rewrite lower_empty, length_strip_lower, lower_idem.
Qed.

(** A message that the reconciler rejects as too short scores SAFE. *)
Lemma short_scores_safe (message : string) :
  (message =? "")%string || (length (strip message) <? 3) = true ->
  detect_crisis_level kw mc message = SAFE.
Proof.
  intros H. unfold detect_crisis_level.
  replace ((message =? "")%string || (length (strip message) <=? 3)) with true;
    [reflexivity|].
  symmetry. apply orb_true_iff. apply orb_true_iff in H as [H | H]; [now left|].
  right. apply Nat.ltb_lt in H. apply Nat.leb_le. lia.
Qed.

(** What the second pass yields once the text is lemmatized. *)
Lemma second_pass_value (message lemmatized : string) (risk_original : RiskTier) :
  lemmatize_text nlp message = Ok lemmatized ->
  second_pass kw mc nlp message risk_original =
  Ok (if negb (lemmatized =? lower message)%string
         && (severity risk_original
             <? severity (detect_crisis_level kw mc lemmatized))
      then Some (detect_crisis_level kw mc lemmatized)
      else None).
Proof.
  intros H. unfold second_pass. rewrite H. cbn [bind].
  destruct (lemmatized =? lower message)%string; cbn [negb andb]; [reflexivity|].
  rewrite !index_risk_levels. cbn [bind].
  now destruct (severity risk_original <? _).
Qed.

(** Past the length guard and the fast path, the reconciler keeps the
    more severe of the two scores. *)
Lemma detect_crisis_enhanced_slow_path (message lemmatized : string) :
  (message =? "")%string || (length (strip message) <? 3) = false ->
  severity (detect_crisis_level kw mc message) <= 1 ->
  lemmatize_text nlp message = Ok lemmatized ->
  detect_crisis_enhanced kw mc nlp message =
  Ok (tier_max (detect_crisis_level kw mc message)
               (detect_crisis_level kw mc lemmatized)).
Proof.
  intros Hguard Hraw Hlem. unfold detect_crisis_enhanced. rewrite Hguard.
  cbv zeta.
  replace (existsb _ [CRITICAL; HIGH]) with false
    by (destruct (detect_crisis_level kw mc message); simpl in *; (reflexivity || lia)).
  rewrite (second_pass_value _ _ _ Hlem). unfold with_fallback, tier_max. simpl.
  destruct (lemmatized =? lower message)%string eqn:Heq; simpl.
  - apply String.eqb_eq in Heq. subst lemmatized.
    rewrite detect_crisis_level_lower, Nat.ltb_irrefl. reflexivity.
  - now destruct (severity _ <? severity _).
Qed.

Lemma detect_crisis_enhanced_fast_path (message : string) :
  (message =? "")%string || (length (strip message) <? 3) = false ->
  1 < severity (detect_crisis_level kw mc message) ->
  detect_crisis_enhanced kw mc nlp message = Ok (detect_crisis_level kw mc message).
Proof.
  intros Hguard Hraw. unfold detect_crisis_enhanced. rewrite Hguard. cbv zeta.
  destruct (detect_crisis_level kw mc message); simpl in *; (reflexivity || lia).
Qed.

Lemma detect_crisis_enhanced_short (message : string) :
  (message =? "")%string || (length (strip message) <? 3) = true ->
  detect_crisis_enhanced kw mc nlp message = Ok SAFE.
Proof. intros H. unfold detect_crisis_enhanced. now rewrite H. Qed.

Lemma tier_max_ge_l (a b : RiskTier) : tier_le a (tier_max a b).
Proof.
  unfold tier_le, tier_max. destruct (severity a <? severity b) eqn:H.
  - apply Nat.ltb_lt in H. lia.
  - lia.
Qed.

Lemma tier_max_ge_r (a b : RiskTier) : tier_le b (tier_max a b).
Proof.
  unfold tier_le, tier_max. destruct (severity a <? severity b) eqn:H.
  - lia.
  - apply Nat.ltb_ge in H. lia.
Qed.

(** The reconciler always returns, and never below the raw score. *)
Lemma detect_crisis_enhanced_returns (message : string) :
  exists tier,
    detect_crisis_enhanced kw mc nlp message = Ok tier /\
    tier_le (detect_crisis_level kw mc message) tier.
Proof.
  destruct ((message =? "")%string || (length (strip message) <? 3)) eqn:Hguard.
  - exists SAFE. split; [now apply detect_crisis_enhanced_short|].
    rewrite (short_scores_safe _ Hguard). unfold tier_le. lia.
  - destruct (le_lt_dec (severity (detect_crisis_level kw mc message)) 1) as [Hraw | Hraw].
    + destruct (lemmatize_text_returns message) as [lemmatized Hlem].
      eexists. split; [exact (detect_crisis_enhanced_slow_path _ _ Hguard Hraw Hlem)|].
      apply tier_max_ge_l.
    + eexists. split; [now apply detect_crisis_enhanced_fast_path|].
      unfold tier_le. lia.
Qed.

(** When the analyzer raises, the reconciler returns the raw score. *)
Lemma detect_crisis_enhanced_analyzer_failure (message : string) (e : exn) :
  nlp (lower message) = Raised e ->
  detect_crisis_enhanced kw mc nlp message = Ok (detect_crisis_level kw mc message).
Proof.
  intros Hfail.
  destruct ((message =? "")%string || (length (strip message) <? 3)) eqn:Hguard.
  - rewrite (short_scores_safe _ Hguard). now apply detect_crisis_enhanced_short.
  - destruct (le_lt_dec (severity (detect_crisis_level kw mc message)) 1) as [Hraw | Hraw].
    + rewrite (detect_crisis_enhanced_slow_path _ _ Hguard Hraw
                 (lemmatize_text_fallback _ _ Hfail)).
      unfold tier_max. now rewrite Nat.ltb_irrefl.
    + now apply detect_crisis_enhanced_fast_path.
Qed.

End ReconcilerFacts.

(** ** The trigger extractor *)

Section TriggerFacts.

Variable kw : keyword_table.

(** Appending the formatted matches one by one collects the filtered
    list. *)
Lemma fold_left_collect {A B} (f : A -> bool) (g : A -> B) (l : list A) (acc : list B) :
  fold_left (fun acc x => if f x then acc ++ [g x] else acc) l acc =
  acc ++ map g (filter f l).
Proof.
  revert acc. induction l as [|x l IH]; intros acc; simpl.
  - now rewrite app_nil_r.
  - rewrite IH. destruct (f x); simpl; [now rewrite <- app_assoc | reflexivity].
Qed.

Lemma matches_of_dialect (text : string) (tier : RiskTier) (phrases : list string) :
  map (fun entry : RiskTier * string => format_trigger (fst entry) (snd entry))
      (filter (fun entry => contains (snd entry) text) (map (pair tier) phrases)) =
  map (format_trigger tier) (filter (fun keyword => contains keyword text) phrases).
Proof.
  induction phrases as [|p l IH]; simpl; [reflexivity|].
  destruct (contains p text); simpl; now rewrite IH.
Qed.

(** The extractor returns the first five matches in lexicon order. *)
Lemma identify_triggers_matches (message : string) :
  identify_triggers kw message =
  firstn 5 (map (fun entry => format_trigger (fst entry) (snd entry))
                (matches kw message)).
Proof.
  unfold identify_triggers, matches, lexicon_order, tier_keys, dialect_keys.
  cbn [fold_left flat_map]. f_equal.
  rewrite !fold_left_collect, !app_nil_r, !filter_app, !map_app,
          !matches_of_dialect, <- !app_assoc.
  reflexivity.
Qed.

Lemma identify_triggers_length (message : string) :
  List.length (identify_triggers kw message) <= 5.
Proof. unfold identify_triggers. apply firstn_le_length. Qed.

Lemma in_firstn_in {A} (n : nat) (l : list A) (x : A) :
  In x (firstn n l) -> In x l.
Proof.
  revert l. induction n as [|n IH]; intros [|y l]; simpl; try tauto.
  intros [H | H]; [now left | right; now apply IH].
Qed.

Lemma identify_triggers_format (message trigger : string) :
  In trigger (identify_triggers kw message) ->
  exists tier phrase,
    In (tier, phrase) (lexicon_order kw) /\
    contains phrase (lower message) = true /\
    trigger = (tier_name tier ++ ": '" ++ phrase ++ "'")%string.
Proof.
  rewrite identify_triggers_matches. intros H.
  apply in_firstn_in in H. apply in_map_iff in H as ([tier phrase] & <- & Hin).
  unfold matches in Hin. apply filter_In in Hin as [Hin Hc].
  now exists tier, phrase.
Qed.

(** No phrase of a lexicon of long anchored phrases fits in a message
    of at most three trimmed characters. *)
Lemma identify_triggers_short (message : string) :
  long_anchored kw = true -> length (strip message) <= 3 ->
  identify_triggers kw message = [].
Proof.
  intros Hkw Hlen. rewrite identify_triggers_matches.
  assert (Hnone : matches kw message = []).
  { unfold matches.
    destruct (filter _ (lexicon_order kw)) as [|[tier phrase] rest] eqn:Hf;
      [reflexivity|].
    assert (Hin : In (tier, phrase)
                     (filter (fun entry => contains (snd entry) (lower message))
                             (lexicon_order kw)))
      by (rewrite Hf; now left).
    apply filter_In in Hin as [Hin Hc].
    pose proof (lexicon_match_length kw message tier phrase Hkw Hin Hc). lia. }
  now rewrite Hnone.
Qed.

End TriggerFacts.

(** ** Emotion fusion *)

Section FusionFacts.

Variable kw : keyword_table.
Variable mc : context_table.
Variable nlp : string -> result (list string).

(** The assessment built from the keyword tier [keyword_tier]. *)
Lemma detect_crisis_with_emotion_value (message : string) (e : EmotionData)
    (keyword_tier : RiskTier) :
  detect_crisis_enhanced kw mc nlp message = Ok keyword_tier ->
  exists a,
    detect_crisis_with_emotion kw mc nlp message e = Ok a /\
    risk_level a =
      fst (fusion_table keyword_tier (get (ed_primary_emotion e) "neutral")
             (get (ed_confidence e) 0%Q) (get (ed_urgency e) "low")) /\
    (confidence a ==
      snd (fusion_table keyword_tier (get (ed_primary_emotion e) "neutral")
             (get (ed_confidence e) 0%Q) (get (ed_urgency e) "low")))%Q /\
    triggers a = identify_triggers kw message.
Proof.
  intros Hk. unfold detect_crisis_with_emotion. rewrite Hk. cbn [bind].
  unfold fusion_table.
  destruct keyword_tier; cbn [existsb RiskTier_eqb orb];
    repeat match goal with
           | |- context [if ?b then _ else _] => destruct b
           end;
    eexists; (split; [reflexivity|]); cbn; repeat split; reflexivity.
Qed.

End FusionFacts.

Lemma fear_or_sadness_spec (p : string) :
  reflect (p = "fear" \/ p = "sadness") (fear_or_sadness p).
Proof.
  unfold fear_or_sadness.
  destruct (String.eqb_spec p "fear"), (String.eqb_spec p "sadness");
    constructor; tauto.
Qed.

Lemma Qgtb_spec (a b : Q) : reflect (b < a)%Q (Qgtb a b).
Proof.
  unfold Qgtb. destruct (Qle_bool a b) eqn:H; constructor.
  - apply Qle_bool_iff in H. now apply Qle_not_lt.
  - apply Qnot_le_lt. intros Hle. apply Qle_bool_iff in Hle. congruence.
Qed.

Lemma fusion_table_contract (k : RiskTier) (p : string) (c : Q) (u : string)
    (final : RiskTier) (conf : Q) :
  final = fst (fusion_table k p c u) ->
  (conf == snd (fusion_table k p c u))%Q ->
  fusion_contract k p c u final conf.
Proof.
  intros -> Hconf. unfold fusion_contract. revert Hconf. unfold fusion_table.
  destruct (fear_or_sadness_spec p) as [Hd | Hd];
  destruct (Qgtb_spec c (6 # 10)) as [H6 | H6];
  destruct (Qgtb_spec c (7 # 10)) as [H7 | H7];
  destruct (String.eqb_spec p "anger") as [Ha | Ha];
  destruct (String.eqb_spec u "high") as [Hu | Hu];
  destruct k; cbn [andb fst snd]; intros Hconf;
  repeat split; intros;
  try reflexivity; try assumption; try discriminate; try tauto;
  try (exfalso; subst p; destruct Hd; discriminate);
  try (exfalso; match goal with H : _ \/ _ |- _ => destruct H; discriminate end).
Qed.

(** The final tier is the keyword tier or the one just above it. *)
Lemma fusion_table_tier (k : RiskTier) (p : string) (c : Q) (u : string) :
  severity k <= severity (fst (fusion_table k p c u)) <= severity k + 1 /\
  (k = SAFE -> fst (fusion_table k p c u) <> HIGH /\
               fst (fusion_table k p c u) <> CRITICAL).
Proof.
  unfold fusion_table.
  destruct k;
    repeat match goal with
           | |- context [if ?b then _ else _] => destruct b
           end;
    cbn; repeat split; try lia; try discriminate.
Qed.

(** * The claims, on the tables of the repository *)

Import Lexicon.

Lemma lexicon_long_anchored : long_anchored CRISIS_KEYWORDS = true.
Proof. vm_compute. reflexivity. Qed.

(** The examples of the docstring of [detect_crisis_level]. *)
Example detect_crisis_level_docstring :
  detect_crisis_level CRISIS_KEYWORDS METAPHORICAL_CONTEXTS "I want to kill myself" = CRITICAL /\
  detect_crisis_level CRISIS_KEYWORDS METAPHORICAL_CONTEXTS "This exam is killing me" = SAFE.
Proof. split; vm_compute; reflexivity. Qed.

(** A CRITICAL phrase in a metaphorical message scores HIGH, a MEDIUM
    phrase in a metaphorical message scores SAFE. *)
Example detect_crisis_level_downgrade :
  detect_crisis_level CRISIS_KEYWORDS METAPHORICAL_CONTEXTS "Studying is making me want to die lol" = HIGH /\
  detect_crisis_level CRISIS_KEYWORDS METAPHORICAL_CONTEXTS "this game makes me feel hopeless" = SAFE.
Proof. split; vm_compute; reflexivity. Qed.

(** C1. On every message of at least three trimmed characters the
    keyword risk scorer returns the tier found by trying CRITICAL, then
    HIGH, then MEDIUM: a CRITICAL phrase gives HIGH when the message is
    metaphorical and CRITICAL otherwise, a HIGH phrase gives MEDIUM or
    HIGH, a MEDIUM phrase gives SAFE or MEDIUM, and no phrase at all
    gives SAFE. *)
Theorem keyword_scorer_contract (message : string) :
  3 <= length (strip message) -> scorer_contract CRISIS_KEYWORDS METAPHORICAL_CONTEXTS message.
Proof.
  intros _. apply detect_crisis_level_contract. exact lexicon_long_anchored.
Qed.

Lemma keyword_scorer_contract_witness :
  3 <= length (strip "I want to kill myself") /\
  scorer_contract CRISIS_KEYWORDS METAPHORICAL_CONTEXTS "I want to kill myself".
Proof.
  split.
  - vm_compute. lia.
  - apply (keyword_scorer_contract "I want to kill myself"). vm_compute. lia.
Defined.

(** C2. The fusion engine returns, for the keyword tier of the message
    and the emotion signal (missing fields read as neutral, 0 and low),
    the tier and confidence of the decision table. *)
Theorem emotion_fusion_decision_table
    (nlp : string -> result (list string)) (message : string) (e : EmotionData) :
  exists keyword_tier a,
    detect_crisis_enhanced CRISIS_KEYWORDS METAPHORICAL_CONTEXTS nlp message = Ok keyword_tier /\
    detect_crisis_with_emotion CRISIS_KEYWORDS METAPHORICAL_CONTEXTS nlp message e = Ok a /\
    fusion_contract keyword_tier
      (get (ed_primary_emotion e) "neutral") (get (ed_confidence e) 0%Q)
      (get (ed_urgency e) "low")
      (risk_level a) (confidence a).
Proof.
  destruct (detect_crisis_enhanced_returns CRISIS_KEYWORDS METAPHORICAL_CONTEXTS nlp message) as (k & Hk & _).
  destruct (detect_crisis_with_emotion_value CRISIS_KEYWORDS METAPHORICAL_CONTEXTS nlp message e k Hk)
    as (a & Ha & Hrisk & Hconf & _).
  exists k, a. split; [exact Hk|]. split; [exact Ha|].
  now apply fusion_table_contract.
Qed.

(** The two fusion scenarios of the specification, run on the code. *)
Example fusion_scenarios :
  (exists a,
     detect_crisis_with_emotion CRISIS_KEYWORDS METAPHORICAL_CONTEXTS failing_nlp
       "I feel hopeless" fearful = Ok a /\
     risk_level a = HIGH /\ confidence a = (7 # 10)%Q) /\
  (exists a,
     detect_crisis_with_emotion CRISIS_KEYWORDS METAPHORICAL_CONTEXTS failing_nlp
       "Having a good day today"
       {| ed_primary_emotion := None; ed_confidence := None; ed_urgency := None |}
     = Ok a /\
     risk_level a = SAFE /\ confidence a = (19 # 20)%Q).
Proof. split; eexists; (split; [vm_compute; reflexivity|]); split; reflexivity. Qed.

(** The reconciler never returns less than the raw pass.  On the path
    that runs the second pass (a message of at least three trimmed
    characters whose raw score is not HIGH) it returns the higher of the
    two scores, so never less than the lemmatized pass either. *)
Lemma reconciler_monotone
    (nlp : string -> result (list string)) (message : string) :
  exists tier lemmatized,
    detect_crisis_enhanced CRISIS_KEYWORDS METAPHORICAL_CONTEXTS nlp message = Ok tier /\
    lemmatize_text nlp message = Ok lemmatized /\
    tier_le (detect_crisis_level CRISIS_KEYWORDS METAPHORICAL_CONTEXTS message) tier /\
    (3 <= length (strip message) ->
     detect_crisis_level CRISIS_KEYWORDS METAPHORICAL_CONTEXTS message <> HIGH ->
     tier_le (detect_crisis_level CRISIS_KEYWORDS METAPHORICAL_CONTEXTS lemmatized) tier).
Proof.
  destruct (lemmatize_text_returns nlp message) as [lemmatized Hlem].
  destruct (detect_crisis_enhanced_returns CRISIS_KEYWORDS METAPHORICAL_CONTEXTS nlp message) as (tier & Ht & Hraw).
  exists tier, lemmatized. repeat split; try assumption.
  intros Hlen Hhigh.
  destruct ((message =? "")%string || (length (strip message) <? 3)) eqn:Hguard.
  - exfalso. apply orb_true_iff in Hguard as [He | Hl].
    + apply String.eqb_eq in He. subst message. simpl in Hlen. lia.
    + apply Nat.ltb_lt in Hl. lia.
  - destruct (le_lt_dec (severity (detect_crisis_level CRISIS_KEYWORDS METAPHORICAL_CONTEXTS message)) 1) as [Hs | Hs].
    + rewrite (detect_crisis_enhanced_slow_path CRISIS_KEYWORDS METAPHORICAL_CONTEXTS nlp _ _ Hguard Hs Hlem) in Ht.
      injection Ht as <-. apply tier_max_ge_r.
    + rewrite (detect_crisis_enhanced_fast_path CRISIS_KEYWORDS METAPHORICAL_CONTEXTS nlp _ Hguard Hs) in Ht.
      injection Ht as <-. unfold tier_le.
      destruct (detect_crisis_level CRISIS_KEYWORDS METAPHORICAL_CONTEXTS message); simpl in *;
        try lia; try congruence.
      destruct (detect_crisis_level CRISIS_KEYWORDS METAPHORICAL_CONTEXTS lemmatized); simpl; lia.
Qed.

Lemma reconciler_monotone_witness :
  exists tier lemmatized,
    detect_crisis_enhanced CRISIS_KEYWORDS METAPHORICAL_CONTEXTS sample_nlp "I am killing myself" = Ok tier /\
    lemmatize_text sample_nlp "I am killing myself" = Ok lemmatized /\
    tier_le (detect_crisis_level CRISIS_KEYWORDS METAPHORICAL_CONTEXTS "I am killing myself") tier /\
    tier_le (detect_crisis_level CRISIS_KEYWORDS METAPHORICAL_CONTEXTS lemmatized) tier.
Proof.
  destruct (reconciler_monotone sample_nlp "I am killing myself")
    as (tier & lemmatized & Ht & Hl & Hraw & Hlem).
  exists tier, lemmatized. repeat split; try assumption.
  apply Hlem.
  - vm_compute. lia.
  - vm_compute. discriminate.
Defined.

(** C3. The fast path of the reconciler hides a CRITICAL score of the
    lemmatized pass.  On "I hate myself and I am killing myself", with
    an analyzer that lemmatizes "am" to "be" and "killing" to "kill",
    the raw pass finds the HIGH phrase "hate myself" and the reconciler
    returns HIGH at once; the lemmatized text holds the CRITICAL phrase
    "kill myself" and scores CRITICAL, but is never scored.  The
    reconciler so returns less than one of its two passes. *)
Theorem reconciler_fast_path_misses_critical
    (nlp : string -> result (list string)) :
  nlp "i hate myself and i am killing myself"
  = Ok ["I"; "hate"; "myself"; "and"; "I"; "be"; "kill"; "myself"] ->
  detect_crisis_level CRISIS_KEYWORDS METAPHORICAL_CONTEXTS
    "I hate myself and I am killing myself" = HIGH /\
  lemmatize_text nlp "I hate myself and I am killing myself"
  = Ok "I hate myself and I be kill myself" /\
  detect_crisis_level CRISIS_KEYWORDS METAPHORICAL_CONTEXTS
    "I hate myself and I be kill myself" = CRITICAL /\
  detect_crisis_enhanced CRISIS_KEYWORDS METAPHORICAL_CONTEXTS nlp
    "I hate myself and I am killing myself" = Ok HIGH /\
  ~ tier_le (detect_crisis_level CRISIS_KEYWORDS METAPHORICAL_CONTEXTS
               "I hate myself and I be kill myself") HIGH.
Proof.
  intros Hnlp.
  split; [vm_compute; reflexivity|].
  split.
  { unfold lemmatize_text.
    change (lower "I hate myself and I am killing myself")
      with "i hate myself and i am killing myself".
    rewrite Hnlp. reflexivity. }
  split; [vm_compute; reflexivity|].
  split; [vm_compute; reflexivity|].
  vm_compute. lia.
Qed.

Lemma reconciler_fast_path_misses_critical_witness :
  detect_crisis_level CRISIS_KEYWORDS METAPHORICAL_CONTEXTS
    "I hate myself and I am killing myself" = HIGH /\
  lemmatize_text sample_nlp "I hate myself and I am killing myself"
  = Ok "I hate myself and I be kill myself" /\
  detect_crisis_level CRISIS_KEYWORDS METAPHORICAL_CONTEXTS
    "I hate myself and I be kill myself" = CRITICAL /\
  detect_crisis_enhanced CRISIS_KEYWORDS METAPHORICAL_CONTEXTS sample_nlp
    "I hate myself and I am killing myself" = Ok HIGH /\
  ~ tier_le (detect_crisis_level CRISIS_KEYWORDS METAPHORICAL_CONTEXTS
               "I hate myself and I be kill myself") HIGH.
Proof.
  apply (reconciler_fast_path_misses_critical sample_nlp).
  reflexivity.
Defined.

(** C4. The final tier of the fusion engine is at most one step away
    from the keyword tier; a SAFE keyword tier never becomes HIGH or
    CRITICAL. *)
Theorem fusion_moves_one_step
    (nlp : string -> result (list string)) (message : string) (e : EmotionData) :
  exists keyword_tier a,
    detect_crisis_enhanced CRISIS_KEYWORDS METAPHORICAL_CONTEXTS nlp message
      = Ok keyword_tier /\
    detect_crisis_with_emotion CRISIS_KEYWORDS METAPHORICAL_CONTEXTS nlp message e
      = Ok a /\
    severity (risk_level a) - severity keyword_tier <= 1 /\
    severity keyword_tier - severity (risk_level a) <= 1 /\
    (keyword_tier = SAFE -> risk_level a <> HIGH /\ risk_level a <> CRITICAL).
Proof.
  destruct (detect_crisis_enhanced_returns CRISIS_KEYWORDS METAPHORICAL_CONTEXTS
              nlp message) as (k & Hk & _).
  destruct (detect_crisis_with_emotion_value CRISIS_KEYWORDS METAPHORICAL_CONTEXTS
              nlp message e k Hk) as (a & Ha & Hrisk & _).
  exists k, a. split; [exact Hk|]. split; [exact Ha|].
  rewrite Hrisk.
  destruct (fusion_table_tier k (get (ed_primary_emotion e) "neutral")
              (get (ed_confidence e) 0%Q) (get (ed_urgency e) "low"))
    as [Hstep Hsafe].
  split; [lia|]. split; [lia|]. exact Hsafe.
Qed.

(** C5. A message of fewer than three trimmed characters is assessed
    SAFE whatever the tables hold and whatever the analyzer does, so no
    phrase is looked at; and no trigger is reported for it. *)
Theorem short_message_is_safe (message : string) :
  length (strip message) < 3 ->
  (forall kw mc nlp, detect_crisis_enhanced kw mc nlp message = Ok SAFE) /\
  identify_triggers CRISIS_KEYWORDS message = [].
Proof.
  intros Hlen. split.
  - intros kw mc nlp. apply detect_crisis_enhanced_short.
    apply orb_true_iff. right. now apply Nat.ltb_lt.
  - apply identify_triggers_short; [exact lexicon_long_anchored | lia].
Qed.

Lemma short_message_is_safe_witness :
  length (strip " ok ") < 3 /\
  (forall kw mc nlp, detect_crisis_enhanced kw mc nlp " ok " = Ok SAFE) /\
  identify_triggers CRISIS_KEYWORDS " ok " = [].
Proof.
  split.
  - vm_compute. lia.
  - apply (short_message_is_safe " ok "). vm_compute. lia.
Defined.

(** C6. The trigger extractor returns at most five strings, each of the
    form [<tier>: '<phrase>'] for a phrase of the lexicon that occurs in
    the lower-cased message, and they are the first matches of the whole
    lexicon in the order CRITICAL, HIGH, MEDIUM, english before pidgin. *)
Theorem trigger_extractor_contract (message : string) :
  List.length (identify_triggers CRISIS_KEYWORDS message) <= 5 /\
  (forall trigger,
      In trigger (identify_triggers CRISIS_KEYWORDS message) ->
      exists tier phrase,
        In (tier, phrase) (lexicon_order CRISIS_KEYWORDS) /\
        contains phrase (lower message) = true /\
        trigger = (tier_name tier ++ ": '" ++ phrase ++ "'")%string) /\
  identify_triggers CRISIS_KEYWORDS message =
  firstn 5 (map (fun entry => format_trigger (fst entry) (snd entry))
                (matches CRISIS_KEYWORDS message)).
Proof.
  split; [apply identify_triggers_length|].
  split; [intro trigger; apply identify_triggers_format|].
  apply identify_triggers_matches.
Qed.

(** The scan goes on after the first match and across tiers, and stops
    reporting at five. *)
Example identify_triggers_sample :
  identify_triggers CRISIS_KEYWORDS "I wan die, I want to hurt myself, can't cope" =
  [ "CRITICAL: 'i wan die'"; "HIGH: 'hurt myself'"; "HIGH: 'want to hurt'";
    "HIGH: 'hurt myself'"; "MEDIUM: 'can't cope'" ].
Proof. vm_compute. reflexivity. Qed.

(** C7. The resolver returns nothing for SAFE and a fixed bundle for
    each other tier; [escalate] holds exactly for CRITICAL and HIGH,
    [immediate_action_required] exactly for CRITICAL. *)
Theorem crisis_response_resolver :
  get_crisis_response SAFE = None /\
  (exists b, get_crisis_response CRITICAL = Some b /\
             response b = critical_response /\ List.length (resources b) = 4 /\
             escalate b = true /\ immediate_action_required b = true) /\
  (exists b, get_crisis_response HIGH = Some b /\
             response b = high_response /\ List.length (resources b) = 3 /\
             escalate b = true /\ immediate_action_required b = false) /\
  (exists b, get_crisis_response MEDIUM = Some b /\
             response b = medium_response /\ List.length (resources b) = 1 /\
             escalate b = false /\ immediate_action_required b = false) /\
  (forall tier b,
      get_crisis_response tier = Some b ->
      (escalate b = true <-> tier = CRITICAL \/ tier = HIGH) /\
      (immediate_action_required b = true <-> tier = CRITICAL)).
Proof.
  split; [reflexivity|].
  split; [eexists; repeat split; reflexivity|].
  split; [eexists; repeat split; reflexivity|].
  split; [eexists; repeat split; reflexivity|].
  intros tier b H.
  destruct tier; simpl in H; try discriminate; injection H as <-; simpl;
    repeat split; intros; try reflexivity; try discriminate; try tauto;
    match goal with H : _ \/ _ |- _ => destruct H; discriminate end.
Qed.

(** C8. Normalization failure is never fatal.  When the analyzer raises,
    [lemmatize_text] returns the text it was given and the reconciler
    returns the raw score; an exception out of the second pass is
    swallowed in favour of the raw score; and whatever the analyzer
    does, the reconciler and the whole assessment return. *)
Theorem normalization_failure_not_fatal
    (nlp : string -> result (list string)) (message : string) :
  (forall e, nlp (lower message) = Raised e ->
     lemmatize_text nlp message = Ok message /\
     detect_crisis_enhanced CRISIS_KEYWORDS METAPHORICAL_CONTEXTS nlp message
       = Ok (detect_crisis_level CRISIS_KEYWORDS METAPHORICAL_CONTEXTS message)) /\
  (forall risk_original e, with_fallback risk_original (Raised e) = Ok risk_original) /\
  (exists tier,
     detect_crisis_enhanced CRISIS_KEYWORDS METAPHORICAL_CONTEXTS nlp message
       = Ok tier) /\
  (forall emotion_data, exists a,
     detect_crisis_with_emotion CRISIS_KEYWORDS METAPHORICAL_CONTEXTS nlp message
       emotion_data = Ok a).
Proof.
  split; [|split; [|split]].
  - intros e He. split.
    + now apply lemmatize_text_fallback with e.
    + now apply detect_crisis_enhanced_analyzer_failure with e.
  - intros risk_original e. apply with_fallback_swallows.
  - destruct (detect_crisis_enhanced_returns CRISIS_KEYWORDS METAPHORICAL_CONTEXTS
                nlp message) as (tier & Ht & _).
    now exists tier.
  - intros emotion_data.
    destruct (detect_crisis_enhanced_returns CRISIS_KEYWORDS METAPHORICAL_CONTEXTS
                nlp message) as (tier & Ht & _).
    destruct (detect_crisis_with_emotion_value CRISIS_KEYWORDS METAPHORICAL_CONTEXTS
                nlp message emotion_data tier Ht) as (a & Ha & _).
    now exists a.
Qed.

Lemma normalization_failure_not_fatal_witness :
  lemmatize_text failing_nlp "I was feeling Hopeless" = Ok "I was feeling Hopeless" /\
  detect_crisis_enhanced CRISIS_KEYWORDS METAPHORICAL_CONTEXTS failing_nlp
    "I was feeling Hopeless"
  = Ok (detect_crisis_level CRISIS_KEYWORDS METAPHORICAL_CONTEXTS
          "I was feeling Hopeless").
Proof.
  destruct (normalization_failure_not_fatal failing_nlp "I was feeling Hopeless")
    as [Hfail _].
  apply (Hfail "analyzer unavailable"). reflexivity.
Defined.

(** C9. The final tier of the fusion engine is never below the keyword
    tier. *)
Theorem fusion_never_downgrades
    (nlp : string -> result (list string)) (message : string) (e : EmotionData) :
  exists keyword_tier a,
    detect_crisis_enhanced CRISIS_KEYWORDS METAPHORICAL_CONTEXTS nlp message
      = Ok keyword_tier /\
    detect_crisis_with_emotion CRISIS_KEYWORDS METAPHORICAL_CONTEXTS nlp message e
      = Ok a /\
    tier_le keyword_tier (risk_level a).
Proof.
  destruct (detect_crisis_enhanced_returns CRISIS_KEYWORDS METAPHORICAL_CONTEXTS
              nlp message) as (k & Hk & _).
  destruct (detect_crisis_with_emotion_value CRISIS_KEYWORDS METAPHORICAL_CONTEXTS
              nlp message e k Hk) as (a & Ha & Hrisk & _).
  exists k, a. split; [exact Hk|]. split; [exact Ha|].
  unfold tier_le. rewrite Hrisk.
  apply (fusion_table_tier k (get (ed_primary_emotion e) "neutral")
           (get (ed_confidence e) 0%Q) (get (ed_urgency e) "low")).
Qed.

(** C10. The trigger extractor reads the raw message only.  With an
    analyzer that lemmatizes "i am killing myself" as the source
    documents, "I am killing myself" is assessed CRITICAL, through the
    lemmatized pass, with an empty trigger list. *)
Theorem critical_without_triggers
    (nlp : string -> result (list string)) (e : EmotionData) :
  nlp "i am killing myself" = Ok ["I"; "be"; "kill"; "myself"] ->
  exists a,
    detect_crisis_with_emotion CRISIS_KEYWORDS METAPHORICAL_CONTEXTS nlp
      "I am killing myself" e = Ok a /\
    risk_level a = CRITICAL /\ triggers a = [].
Proof.
  intros Hnlp.
  assert (Hlem : lemmatize_text nlp "I am killing myself" = Ok "I be kill myself").
  { unfold lemmatize_text.
    change (lower "I am killing myself") with "i am killing myself".
    now rewrite Hnlp. }
  assert (Hk : detect_crisis_enhanced CRISIS_KEYWORDS METAPHORICAL_CONTEXTS nlp
                 "I am killing myself" = Ok CRITICAL).
  { assert (Hguard : ("I am killing myself" =? "")%string
                      || (length (strip "I am killing myself") <? 3) = false)
      by (vm_compute; reflexivity).
    assert (Hraw : severity (detect_crisis_level CRISIS_KEYWORDS
                               METAPHORICAL_CONTEXTS "I am killing myself") <= 1)
      by (vm_compute; lia).
    rewrite (detect_crisis_enhanced_slow_path CRISIS_KEYWORDS METAPHORICAL_CONTEXTS
               nlp _ _ Hguard Hraw Hlem).
    vm_compute. reflexivity. }
  destruct (detect_crisis_with_emotion_value CRISIS_KEYWORDS METAPHORICAL_CONTEXTS
              nlp _ e _ Hk) as (a & Ha & Hrisk & _ & Htrig).
  exists a. split; [exact Ha|]. split.
  - rewrite Hrisk. unfold fusion_table.
    repeat match goal with
           | |- context [if ?b then _ else _] => destruct b
           end; reflexivity.
  - rewrite Htrig. vm_compute. reflexivity.
Qed.

Lemma critical_without_triggers_witness :
  sample_nlp "i am killing myself" = Ok ["I"; "be"; "kill"; "myself"] /\
  exists a,
    detect_crisis_with_emotion CRISIS_KEYWORDS METAPHORICAL_CONTEXTS sample_nlp
      "I am killing myself" fearful = Ok a /\
    risk_level a = CRITICAL /\ triggers a = [].
Proof.
  split.
  - reflexivity.
  - apply (critical_without_triggers sample_nlp fearful). reflexivity.
Defined.

(** * Further properties of the detector *)

(** ** More on strings *)

Lemma lower_append (a b : string) : lower (a ++ b) = (lower a ++ lower b)%string.
Proof. induction a as [|c a IH]; simpl; [reflexivity | now rewrite IH]. Qed.

Lemma startswith_refl_app (p b : string) : startswith p (p ++ b) = true.
Proof.
  induction p as [|c p IH]; simpl; [reflexivity|].
  now rewrite Ascii.eqb_refl, IH.
Qed.

Lemma contains_app_l (p a s : string) :
  contains p s = true -> contains p (a ++ s) = true.
Proof.
  intros H. induction a as [|c a IH]; simpl; [exact H|].
  rewrite IH. apply orb_true_r.
Qed.

Lemma contains_of_startswith (p s : string) :
  startswith p s = true -> contains p s = true.
Proof. intros H. destruct s; simpl; now rewrite H. Qed.

Lemma contains_intro (p a b : string) : contains p (a ++ p ++ b) = true.
Proof.
  apply contains_app_l, contains_of_startswith, startswith_refl_app.
Qed.

Lemma contains_mono (p a s b : string) :
  contains p s = true -> contains p (a ++ s ++ b) = true.
Proof.
  intros H. apply contains_split in H as (x & y & ->).
  rewrite !append_assoc_s, <- (append_assoc_s a x).
  apply contains_intro.
Qed.

(** A phrase found in lower-cased text is itself in lower case. *)
Lemma startswith_lower_fixed (p m : string) :
  startswith p (lower m) = true -> lower p = p.
Proof.
  revert m. induction p as [|a p IH]; intros [|c m] H; simpl in *;
    try reflexivity; try discriminate.
  apply andb_true_iff in H as [Hac Hp].
  apply Ascii.eqb_eq in Hac. subst a.
  now rewrite lower_char_idem, (IH _ Hp).
Qed.

Lemma contains_lower_fixed (p m : string) :
  contains p (lower m) = true -> lower p = p.
Proof.
  induction m as [|c m IH]; simpl; intros H.
  - rewrite orb_false_r in H. now apply (startswith_lower_fixed p "").
  - apply orb_true_iff in H as [H | H]; [|now apply IH].
    now apply (startswith_lower_fixed p (String c m)).
Qed.

Lemma lstrip_split (s : string) : exists a, s = (a ++ lstrip s)%string.
Proof.
  induction s as [|c s [a IH]]; simpl.
  - now exists ""%string.
  - destruct (isspace c).
    + exists (String c a). simpl. now rewrite <- IH.
    + now exists ""%string.
Qed.

Lemma rstrip_split (s : string) : exists b, s = (rstrip s ++ b)%string.
Proof.
  induction s as [|c s [b IH]]; simpl.
  - now exists ""%string.
  - destruct (rstrip s) as [|d r] eqn:Hr.
    + destruct (isspace c).
      * now exists (String c s).
      * exists b. simpl in *. now rewrite <- IH.
    + exists b. simpl in *. now rewrite <- IH.
Qed.

Lemma strip_split (s : string) : exists a b, s = (a ++ strip s ++ b)%string.
Proof.
  destruct (lstrip_split s) as [a Ha].
  destruct (rstrip_split (lstrip s)) as [b Hb].
  exists a, b. unfold strip. now rewrite <- Hb.
Qed.

Lemma rstrip_nonspace (c : ascii) (r : string) :
  isspace c = false -> rstrip (String c r) = String c (rstrip r).
Proof. intros H. simpl. destruct (rstrip r); [now rewrite H | reflexivity]. Qed.

Lemma rstrip_idem (s : string) : rstrip (rstrip s) = rstrip s.
Proof.
  induction s as [|c s IH]; simpl; [reflexivity|].
  destruct (rstrip s) as [|d r] eqn:Hr.
  - destruct (isspace c) eqn:Hc; simpl; [reflexivity | now rewrite Hc].
  - change (rstrip (String c (String d r))) with
      (match rstrip (String d r) with
       | EmptyString => if isspace c then EmptyString else String c EmptyString
       | String x y => String c (String x y)
       end).
    now rewrite IH.
Qed.

Lemma lstrip_head (s : string) :
  lstrip s = ""%string \/ exists c r, lstrip s = String c r /\ isspace c = false.
Proof.
  induction s as [|c s IH]; simpl; [now left|].
  destruct (isspace c) eqn:Hc; [exact IH|]. right. now exists c, s.
Qed.

Lemma strip_idem (s : string) : strip (strip s) = strip s.
Proof.
  unfold strip. destruct (lstrip_head s) as [-> | (c & r & -> & Hc)].
  - reflexivity.
  - rewrite (rstrip_nonspace c r Hc). cbn [lstrip]. rewrite Hc.
    now rewrite (rstrip_nonspace c (rstrip r) Hc), rstrip_idem.
Qed.

(** An anchored phrase of a text is a phrase of the stripped text. *)
Lemma anchored_strip_split (p s : string) :
  anchored p = true -> contains p s = true ->
  exists a b, strip s = (a ++ p ++ b)%string.
Proof.
  intros Hp Hc. destruct p as [|c r]; [discriminate|].
  simpl in Hp. apply andb_true_iff in Hp as [Hfirst Hlast].
  apply negb_true_iff in Hfirst, Hlast.
  apply contains_split in Hc as (a & b & ->).
  unfold strip. simpl.
  destruct (lstrip_keeps a (r ++ b)%string c Hfirst) as [a' ->].
  destruct (last_char_split r c) as [q Hq].
  change (String c (r ++ b))%string with (String c r ++ b)%string.
  rewrite Hq, append_assoc_s, <- append_assoc_s. simpl.
  destruct (rstrip_keeps (a' ++ q)%string b _ Hlast) as [b' ->].
  exists a', b'.
  change (String c (r ++ b'))%string with (String c r ++ b')%string.
  now rewrite Hq, !append_assoc_s.
Qed.

Lemma contains_strip (p s : string) :
  anchored p = true -> contains p (strip s) = contains p s.
Proof.
  intros Hp. destruct (contains p s) eqn:Hc.
  - destruct (anchored_strip_split p s Hp Hc) as (a & b & ->).
    apply contains_intro.
  - destruct (contains p (strip s)) eqn:Hs; [|reflexivity].
    destruct (strip_split s) as (a & b & Hsplit).
    rewrite Hsplit, (contains_mono p a (strip s) b Hs) in Hc. discriminate.
Qed.

(** The guard of the scorer only looks at the stripped length. *)
Lemma scorer_guard (message : string) :
  (message =? "")%string || (length (strip message) <=? 3)
  = (length (strip message) <=? 3).
Proof. destruct message; reflexivity. Qed.

Lemma existsb_filter_implied {A} (f g : A -> bool) (l : list A) :
  (forall x, f x = true -> g x = true) ->
  existsb f (filter g l) = existsb f l.
Proof.
  intros H. induction l as [|x l IH]; simpl; [reflexivity|].
  destruct (g x) eqn:Hg; simpl; rewrite IH; [reflexivity|].
  destruct (f x) eqn:Hf; [|reflexivity].
  rewrite (H _ Hf) in Hg. discriminate.
Qed.

Lemma filter_filter_implied {A} (f g : A -> bool) (l : list A) :
  (forall x, f x = true -> g x = true) ->
  filter f (filter g l) = filter f l.
Proof.
  intros H. induction l as [|x l IH]; simpl; [reflexivity|].
  destruct (g x) eqn:Hg; simpl; rewrite IH; [reflexivity|].
  destruct (f x) eqn:Hf; [|reflexivity].
  rewrite (H _ Hf) in Hg. discriminate.
Qed.

Lemma existsb_ext_in {A} (f g : A -> bool) (l : list A) :
  (forall x, In x l -> f x = g x) -> existsb f l = existsb g l.
Proof.
  induction l as [|x l IH]; intros H; simpl; [reflexivity|].
  rewrite (H x (or_introl eq_refl)), IH; [reflexivity|].
  intros y Hy. apply H. now right.
Qed.

Lemma filter_nonempty_existsb {A} (f : A -> bool) (l : list A) :
  existsb f l = true -> exists x rest, filter f l = x :: rest /\ In x l /\ f x = true.
Proof.
  induction l as [|y l IH]; simpl; [discriminate|].
  destruct (f y) eqn:Hy; simpl.
  - intros _. exists y, (filter f l). auto.
  - intros H. destruct (IH H) as (x & rest & Hf & Hin & Hx).
    exists x, rest. auto.
Qed.

Lemma filter_empty_existsb {A} (f : A -> bool) (l : list A) :
  existsb f l = false -> filter f l = [].
Proof.
  induction l as [|y l IH]; simpl; [reflexivity|].
  destruct (f y); simpl; [discriminate | exact IH].
Qed.

(** ** Case, capitals and white space *)

Section CaseFacts.

Variable kw : keyword_table.
Variable mc : context_table.
Variable nlp : string -> result (list string).

Lemma identify_triggers_lower (message : string) :
  identify_triggers kw (lower message) = identify_triggers kw message.
Proof. unfold identify_triggers. now rewrite lower_idem. Qed.

Lemma detect_crisis_enhanced_lower (message : string) :
  detect_crisis_enhanced kw mc nlp (lower message)
  = detect_crisis_enhanced kw mc nlp message.
Proof.
  unfold detect_crisis_enhanced.
  rewrite lower_empty, length_strip_lower, detect_crisis_level_lower.
  destruct ((message =? "")%string || (length (strip message) <? 3)); [reflexivity|].
  cbv zeta.
  destruct (existsb (RiskTier_eqb (detect_crisis_level kw mc message)) [CRITICAL; HIGH]);
    [reflexivity|].
  f_equal. unfold second_pass, lemmatize_text. rewrite lower_idem.
  destruct (nlp (lower message)) as [lemmas | e]; cbn [try_except bind];
    [reflexivity|].
  rewrite String.eqb_refl. cbn [negb].
  destruct (message =? lower message)%string; cbn [negb]; [reflexivity|].
  rewrite !index_risk_levels. cbn [bind]. now rewrite Nat.ltb_irrefl.
Qed.

Lemma detect_crisis_with_emotion_lower (message : string) (e : EmotionData) :
  detect_crisis_with_emotion kw mc nlp (lower message) e
  = detect_crisis_with_emotion kw mc nlp message e.
Proof.
  unfold detect_crisis_with_emotion.
  now rewrite detect_crisis_enhanced_lower, identify_triggers_lower.
Qed.

Lemma cased_phrase_absent (phrase text : string) :
  contains phrase (lower text) = true -> (phrase =? lower phrase)%string = true.
Proof.
  intros H. apply String.eqb_eq. symmetry. now apply contains_lower_fixed with text.
Qed.

Lemma existsb_drop_cased (phrases : list string) (text : string) :
  existsb (fun keyword => contains keyword (lower text))
          (filter (fun phrase => (phrase =? lower phrase)%string) phrases)
  = existsb (fun keyword => contains keyword (lower text)) phrases.
Proof.
  apply existsb_filter_implied. intros x. apply cased_phrase_absent.
Qed.

Lemma check_metaphorical_context_drop_cased (text : string) :
  check_metaphorical_context (drop_cased_contexts mc) (lower text)
  = check_metaphorical_context mc (lower text).
Proof.
  unfold check_metaphorical_context, drop_cased_contexts.
  induction mc as [|[category indicators] rest IH]; simpl; [reflexivity|].
  now rewrite existsb_drop_cased, IH.
Qed.

Lemma detect_crisis_level_drop_cased (message : string) :
  detect_crisis_level (drop_cased kw) (drop_cased_contexts mc) message
  = detect_crisis_level kw mc message.
Proof.
  unfold detect_crisis_level, drop_cased.
  rewrite check_metaphorical_context_drop_cased.
  rewrite <- !filter_app, !existsb_drop_cased. reflexivity.
Qed.

Lemma identify_triggers_drop_cased (message : string) :
  identify_triggers (drop_cased kw) message = identify_triggers kw message.
Proof.
  unfold identify_triggers, drop_cased, tier_keys, dialect_keys.
  cbn [fold_left]. f_equal.
  rewrite !fold_left_collect.
  rewrite !(filter_filter_implied
              (fun keyword => contains keyword (lower message))
              (fun phrase => (phrase =? lower phrase)%string))
    by (intros x; apply cased_phrase_absent).
  reflexivity.
Qed.

(** Two messages with the same lower-cased form are both empty or
    both non-empty. *)
Lemma lower_eq_empty (message1 message2 : string) :
  lower message1 = lower message2 ->
  (message1 =? "")%string = (message2 =? "")%string.
Proof.
  destruct message1, message2; simpl; intros H; try reflexivity; discriminate.
Qed.

Lemma detect_crisis_level_same_reading (message1 message2 : string) :
  lower message1 = lower message2 ->
  length (strip message1) = length (strip message2) ->
  detect_crisis_level kw mc message1 = detect_crisis_level kw mc message2.
Proof.
  intros Hlower Hlen. unfold detect_crisis_level.
  now rewrite (lower_eq_empty _ _ Hlower), Hlen, Hlower.
Qed.

(** The second pass on a message whose lemmatization fails scores the
    message itself again, and so returns nothing. *)
Lemma second_pass_analyzer_failure (message : string) (e : exn) :
  nlp (lower message) = Raised e ->
  with_fallback (detect_crisis_level kw mc message)
    (second_pass kw mc nlp message (detect_crisis_level kw mc message))
  = Ok (detect_crisis_level kw mc message).
Proof.
  intros Hnlp. unfold second_pass, lemmatize_text. rewrite Hnlp.
  cbn [try_except bind].
  destruct (message =? lower message)%string; cbn [negb]; [reflexivity|].
  rewrite !index_risk_levels. cbn [bind]. now rewrite Nat.ltb_irrefl.
Qed.

Lemma detect_crisis_enhanced_same_reading (message1 message2 : string) :
  lower message1 = lower message2 ->
  length (strip message1) = length (strip message2) ->
  detect_crisis_enhanced kw mc nlp message1 = detect_crisis_enhanced kw mc nlp message2.
Proof.
  intros Hlower Hlen. unfold detect_crisis_enhanced.
  rewrite (lower_eq_empty _ _ Hlower), Hlen.
  destruct ((message2 =? "")%string || (length (strip message2) <? 3)); [reflexivity|].
  cbv zeta.
  pose proof (detect_crisis_level_same_reading _ _ Hlower Hlen) as Hlevel.
  destruct (nlp (lower message1)) as [lemmas | e] eqn:Hnlp.
  - rewrite Hlevel.
    destruct (existsb (RiskTier_eqb (detect_crisis_level kw mc message2))
                [CRITICAL; HIGH]); [reflexivity|].
    f_equal. unfold second_pass, lemmatize_text.
    rewrite <- Hlower, Hnlp. reflexivity.
  - rewrite (second_pass_analyzer_failure message1 e Hnlp).
    rewrite Hlower in Hnlp.
    rewrite (second_pass_analyzer_failure message2 e Hnlp).
    now rewrite Hlevel.
Qed.

Lemma identify_triggers_same_reading (message1 message2 : string) :
  lower message1 = lower message2 ->
  identify_triggers kw message1 = identify_triggers kw message2.
Proof. intros Hlower. unfold identify_triggers. now rewrite Hlower. Qed.

End CaseFacts.

Section StripFacts.

Variable kw : keyword_table.
Variable mc : context_table.

Hypothesis kw_anchored : long_anchored kw = true.
Hypothesis mc_anchored : anchored_contexts mc = true.

Lemma phrase_anchored (tier : RiskTier) (phrase : string) :
  In tier tier_keys -> In phrase (tier_phrases kw tier) -> anchored phrase = true.
Proof.
  intros Ht Hp. apply (in_tier_phrases kw _ _ Ht) in Hp.
  unfold long_anchored in kw_anchored. rewrite forallb_forall in kw_anchored.
  specialize (kw_anchored _ Hp). simpl in kw_anchored.
  now apply andb_true_iff in kw_anchored as [Ha _].
Qed.

Lemma existsb_phrases_strip (tier : RiskTier) (message : string) :
  In tier tier_keys ->
  existsb (fun keyword => contains keyword (lower (strip message))) (tier_phrases kw tier)
  = existsb (fun keyword => contains keyword (lower message)) (tier_phrases kw tier).
Proof.
  intros Ht. apply existsb_ext_in. intros phrase Hp.
  rewrite <- strip_lower. apply contains_strip. now apply phrase_anchored with tier.
Qed.

Lemma check_metaphorical_context_strip (message : string) :
  check_metaphorical_context mc (lower (strip message))
  = check_metaphorical_context mc (lower message).
Proof.
  unfold check_metaphorical_context. apply existsb_ext_in.
  intros [category indicators] Hin. simpl. apply existsb_ext_in.
  intros indicator Hi. rewrite <- strip_lower. apply contains_strip.
  unfold anchored_contexts in mc_anchored. rewrite forallb_forall in mc_anchored.
  specialize (mc_anchored _ Hin). simpl in mc_anchored.
  rewrite forallb_forall in mc_anchored. now apply mc_anchored.
Qed.

Lemma detect_crisis_level_strip (message : string) :
  detect_crisis_level kw mc (strip message) = detect_crisis_level kw mc message.
Proof.
  unfold detect_crisis_level.
  rewrite !scorer_guard, strip_idem, check_metaphorical_context_strip.
  fold (tier_phrases kw CRITICAL) (tier_phrases kw HIGH) (tier_phrases kw MEDIUM).
  rewrite !existsb_phrases_strip by (simpl; auto).
  reflexivity.
Qed.

Lemma identify_triggers_strip (message : string) :
  identify_triggers kw (strip message) = identify_triggers kw message.
Proof.
  rewrite !identify_triggers_matches. f_equal. f_equal.
  unfold matches. apply filter_ext_in. intros [tier phrase] Hin. simpl.
  rewrite <- strip_lower. apply contains_strip.
  unfold long_anchored in kw_anchored. rewrite forallb_forall in kw_anchored.
  specialize (kw_anchored _ Hin). simpl in kw_anchored.
  now apply andb_true_iff in kw_anchored as [Ha _].
Qed.

End StripFacts.

(** ** Scores and triggers *)

(** Case analysis on whether some phrase of a tier occurs. *)
Ltac case_tier table tier H :=
  match goal with
  | |- context [existsb ?f (tier_phrases table tier)] =>
      destruct (existsb f (tier_phrases table tier)) eqn:H
  end.

Section ScoreFacts.

Variable kw : keyword_table.
Variable mc : context_table.
Variable nlp : string -> result (list string).

(** A score other than SAFE needs a phrase of the lexicon in the text. *)
Lemma scored_phrase_occurs (message : string) :
  detect_crisis_level kw mc message <> SAFE ->
  exists tier, In tier tier_keys /\ occurs (tier_phrases kw tier) (lower message).
Proof.
  unfold detect_crisis_level. cbv zeta.
  fold (tier_phrases kw CRITICAL) (tier_phrases kw HIGH) (tier_phrases kw MEDIUM).
  destruct (orb _ _); [congruence|].
  case_tier kw CRITICAL Hc;
    [intros _; exists CRITICAL; split; [simpl; auto | now apply occurs_existsb]|].
  case_tier kw HIGH Hh;
    [intros _; exists HIGH; split; [simpl; auto | now apply occurs_existsb]|].
  case_tier kw MEDIUM Hm;
    [intros _; exists MEDIUM; split; [simpl; auto | now apply occurs_existsb]|].
  congruence.
Qed.

(** CRITICAL needs a CRITICAL phrase and no indicator. *)
Lemma critical_score_literal (message : string) :
  detect_crisis_level kw mc message = CRITICAL ->
  occurs (tier_phrases kw CRITICAL) (lower message) /\
  ~ metaphorical mc (lower message).
Proof.
  unfold detect_crisis_level. cbv zeta.
  fold (tier_phrases kw CRITICAL) (tier_phrases kw HIGH) (tier_phrases kw MEDIUM).
  rewrite <- metaphorical_check, <- occurs_existsb.
  destruct (orb _ _); [discriminate|].
  destruct (check_metaphorical_context mc (lower message));
    case_tier kw CRITICAL Hc; try discriminate;
    try (intros _; split; congruence);
    case_tier kw HIGH Hh; try discriminate;
    case_tier kw MEDIUM Hm; discriminate.
Qed.

Lemma occurs_matches (message : string) (tier : RiskTier) :
  In tier tier_keys -> occurs (tier_phrases kw tier) (lower message) ->
  matches kw message <> [].
Proof.
  intros Ht (phrase & Hin & Hc) Hnil.
  assert (Hm : In (tier, phrase) (matches kw message)).
  { unfold matches. apply filter_In. split; [|exact Hc].
    now apply in_tier_phrases. }
  rewrite Hnil in Hm. contradiction.
Qed.

Lemma identify_triggers_nil (message : string) :
  identify_triggers kw message = [] <-> matches kw message = [].
Proof.
  rewrite identify_triggers_matches.
  destruct (matches kw message); simpl; split; intros; congruence.
Qed.

(** The outcome of the reconciler is the raw score or the score of the
    lemmatized text, and the latter only when it differs from the
    lower-cased message. *)
Lemma detect_crisis_enhanced_origin (message : string) (tier : RiskTier) :
  detect_crisis_enhanced kw mc nlp message = Ok tier ->
  tier = detect_crisis_level kw mc message \/
  exists lemmatized,
    lemmatize_text nlp message = Ok lemmatized /\
    lemmatized <> lower message /\
    tier = detect_crisis_level kw mc lemmatized.
Proof.
  intros H.
  destruct ((message =? "")%string || (length (strip message) <? 3)) eqn:Hguard.
  - rewrite (detect_crisis_enhanced_short kw mc nlp _ Hguard) in H.
    injection H as <-. left. symmetry. now apply short_scores_safe.
  - destruct (le_lt_dec (severity (detect_crisis_level kw mc message)) 1) as [Hs | Hs].
    + destruct (lemmatize_text_returns nlp message) as [lemmatized Hlem].
      rewrite (detect_crisis_enhanced_slow_path kw mc nlp _ _ Hguard Hs Hlem) in H.
      injection H as <-. unfold tier_max.
      destruct (severity _ <? severity _) eqn:Hlt; [|now left].
      right. exists lemmatized. split; [exact Hlem|]. split; [|reflexivity].
      intros ->. rewrite detect_crisis_level_lower, Nat.ltb_irrefl in Hlt.
      discriminate.
    + rewrite (detect_crisis_enhanced_fast_path kw mc nlp _ Hguard Hs) in H.
      injection H as <-. now left.
Qed.

End ScoreFacts.

Section FirstTrigger.

Variable kw : keyword_table.
Variable mc : context_table.

Hypothesis kw_long_anchored : long_anchored kw = true.

Lemma filter_map_pair (text : string) (tier : RiskTier) (phrases : list string) :
  filter (fun entry : RiskTier * string => contains (snd entry) text)
         (map (pair tier) phrases)
  = map (pair tier) (filter (fun keyword => contains keyword text) phrases).
Proof.
  induction phrases as [|p l IH]; simpl; [reflexivity|].
  destruct (contains p text); simpl; now rewrite IH.
Qed.

Lemma matches_by_tier (message : string) :
  matches kw message =
  map (pair CRITICAL)
      (filter (fun keyword => contains keyword (lower message)) (tier_phrases kw CRITICAL))
  ++ map (pair HIGH)
      (filter (fun keyword => contains keyword (lower message)) (tier_phrases kw HIGH))
  ++ map (pair MEDIUM)
      (filter (fun keyword => contains keyword (lower message)) (tier_phrases kw MEDIUM)).
Proof.
  unfold matches, lexicon_order, tier_keys, dialect_keys, tier_phrases.
  cbn [flat_map].
  rewrite !app_nil_r, !filter_app, !filter_map_pair, !map_app.
  reflexivity.
Qed.

(** The first match belongs to the most severe tier that has one, and
    the raw score is that tier, lowered by one step for a metaphorical
    message. *)
Lemma first_match_scores (message : string) (tier : RiskTier) (phrase : string)
    (rest : list (RiskTier * string)) :
  matches kw message = (tier, phrase) :: rest ->
  In phrase (tier_phrases kw tier) /\
  contains phrase (lower message) = true /\
  detect_crisis_level kw mc message =
    if check_metaphorical_context mc (lower message) then downgrade tier else tier.
Proof.
  intros Hm.
  assert (Hin : In (tier, phrase) (matches kw message)) by (rewrite Hm; now left).
  unfold matches in Hin. apply filter_In in Hin as [Hin Hc]. simpl in Hc.
  pose proof (lexicon_match_length kw message tier phrase kw_long_anchored Hin Hc) as Hlen.
  rewrite matches_by_tier in Hm.
  unfold detect_crisis_level. cbv zeta.
  fold (tier_phrases kw CRITICAL) (tier_phrases kw HIGH) (tier_phrases kw MEDIUM).
  rewrite scorer_guard.
  replace (length (strip message) <=? 3) with false
    by (symmetry; apply Nat.leb_gt; lia).
  case_tier kw CRITICAL Ec.
  { destruct (filter_nonempty_existsb _ _ Ec) as (x & r & Hf & Hx & _).
    rewrite Hf in Hm. simpl in Hm. injection Hm as <- <- _.
    repeat split; try assumption. }
  rewrite (filter_empty_existsb _ _ Ec) in Hm. simpl in Hm.
  case_tier kw HIGH Eh.
  { destruct (filter_nonempty_existsb _ _ Eh) as (x & r & Hf & Hx & _).
    rewrite Hf in Hm. simpl in Hm. injection Hm as <- <- _.
    repeat split; try assumption. }
  rewrite (filter_empty_existsb _ _ Eh) in Hm. simpl in Hm.
  case_tier kw MEDIUM Em.
  { destruct (filter_nonempty_existsb _ _ Em) as (x & r & Hf & Hx & _).
    rewrite Hf in Hm. simpl in Hm. injection Hm as <- <- _.
    repeat split; try assumption. }
  rewrite (filter_empty_existsb _ _ Em) in Hm. discriminate.
Qed.

End FirstTrigger.

(** ** Adding text around a message *)

Section ExtensionFacts.

Variable kw : keyword_table.
Variable mc : context_table.

Hypothesis kw_long_anchored : long_anchored kw = true.

(** The score of a message without indicator. *)
Lemma plain_score (message : string) :
  check_metaphorical_context mc (lower message) = false ->
  detect_crisis_level kw mc message =
    if existsb (fun keyword => contains keyword (lower message)) (tier_phrases kw CRITICAL)
    then CRITICAL
    else if existsb (fun keyword => contains keyword (lower message)) (tier_phrases kw HIGH)
    then HIGH
    else if existsb (fun keyword => contains keyword (lower message)) (tier_phrases kw MEDIUM)
    then MEDIUM
    else SAFE.
Proof.
  intros Hplain. unfold detect_crisis_level. cbv zeta.
  fold (tier_phrases kw CRITICAL) (tier_phrases kw HIGH) (tier_phrases kw MEDIUM).
  rewrite Hplain, scorer_guard.
  destruct (length (strip message) <=? 3) eqn:Hguard; [|reflexivity].
  apply Nat.leb_le in Hguard.
  assert (Hnone : forall tier, In tier tier_keys ->
            existsb (fun keyword => contains keyword (lower message))
                    (tier_phrases kw tier) = false).
  { intros tier Ht. apply not_true_is_false. intros H.
    apply occurs_existsb in H.
    exact (short_no_occurrence kw message tier kw_long_anchored Ht Hguard H). }
  now rewrite !Hnone by (simpl; auto).
Qed.

Lemma existsb_contains_extension (phrases : list string) (a message b : string) :
  existsb (fun keyword => contains keyword (lower message)) phrases = true ->
  existsb (fun keyword => contains keyword (lower (a ++ message ++ b))) phrases = true.
Proof.
  rewrite !existsb_exists. intros (phrase & Hin & Hc).
  exists phrase. split; [exact Hin|].
  rewrite !lower_append. now apply contains_mono.
Qed.

Lemma check_metaphorical_context_extension (a message b : string) :
  check_metaphorical_context mc (lower message) = true ->
  check_metaphorical_context mc (lower (a ++ message ++ b)) = true.
Proof.
  unfold check_metaphorical_context. rewrite !existsb_exists.
  intros (entry & Hin & He). exists entry. split; [exact Hin|].
  now apply existsb_contains_extension.
Qed.

Lemma extension_score (a message b : string) :
  check_metaphorical_context mc (lower (a ++ message ++ b)) = false ->
  tier_le (detect_crisis_level kw mc message)
          (detect_crisis_level kw mc (a ++ message ++ b)).
Proof.
  intros Hplain.
  assert (Hplain' : check_metaphorical_context mc (lower message) = false).
  { apply not_true_is_false. intros H.
    apply (check_metaphorical_context_extension a message b) in H. congruence. }
  rewrite (plain_score _ Hplain), (plain_score _ Hplain').
  pose proof (existsb_contains_extension (tier_phrases kw CRITICAL) a message b) as Ec.
  pose proof (existsb_contains_extension (tier_phrases kw HIGH) a message b) as Eh.
  pose proof (existsb_contains_extension (tier_phrases kw MEDIUM) a message b) as Em.
  unfold tier_le.
  destruct (existsb _ (tier_phrases kw CRITICAL));
  destruct (existsb _ (tier_phrases kw HIGH));
  destruct (existsb _ (tier_phrases kw MEDIUM));
  try rewrite (Ec eq_refl); try rewrite (Eh eq_refl); try rewrite (Em eq_refl);
  repeat match goal with
         | |- context [if ?c then _ else _] => destruct c
         end;
  simpl; lia.
Qed.

End ExtensionFacts.

(** ** More on the fusion engine *)

Section FusionFieldFacts.

Variable kw : keyword_table.
Variable mc : context_table.
Variable nlp : string -> result (list string).

(** Every field of the assessment built from the keyword tier. *)
Lemma detect_crisis_with_emotion_fields (message : string) (e : EmotionData)
    (keyword_tier : RiskTier) :
  detect_crisis_enhanced kw mc nlp message = Ok keyword_tier ->
  exists a,
    detect_crisis_with_emotion kw mc nlp message e = Ok a /\
    risk_level a =
      fst (fusion_table keyword_tier (get (ed_primary_emotion e) "neutral")
             (get (ed_confidence e) 0%Q) (get (ed_urgency e) "low")) /\
    (confidence a ==
      snd (fusion_table keyword_tier (get (ed_primary_emotion e) "neutral")
             (get (ed_confidence e) 0%Q) (get (ed_urgency e) "low")))%Q /\
    triggers a = identify_triggers kw message /\
    recommendation a = get_risk_recommendation (risk_level a) e /\
    emotion_context a =
      {| primary_emotion := get (ed_primary_emotion e) "neutral";
         emotion_confidence := get (ed_confidence e) 0%Q;
         urgency := get (ed_urgency e) "low" |}.
Proof.
  intros Hk. unfold detect_crisis_with_emotion. rewrite Hk. cbn [bind].
  unfold fusion_table.
  destruct keyword_tier; cbn [existsb RiskTier_eqb orb];
    repeat match goal with
           | |- context [if ?b then _ else _] => destruct b
           end;
    eexists; (split; [reflexivity|]); cbn; repeat split; reflexivity.
Qed.

End FusionFieldFacts.

Lemma fusion_table_confidence (k : RiskTier) (p : string) (c : Q) (u : string) :
  (4 # 10 <= snd (fusion_table k p c u) <= 95 # 100)%Q /\
  ((snd (fusion_table k p c u) == 95 # 100)%Q <-> fst (fusion_table k p c u) = SAFE).
Proof.
  unfold fusion_table.
  destruct k;
    repeat match goal with
           | |- context [if ?b then _ else _] => destruct b
           end;
    cbn [fst snd]; (split; [split; discriminate|]);
    split; intros H; try reflexivity; try discriminate.
Qed.

Lemma fusion_table_changes (k : RiskTier) (p : string) (c : Q) (u : string) :
  fst (fusion_table k p c u) <> k <->
  u = "high" /\ (p = "fear" \/ p = "sadness") /\ (k = SAFE \/ k = MEDIUM).
Proof.
  unfold fusion_table.
  destruct (fear_or_sadness_spec p) as [Hd | Hd];
  destruct (String.eqb_spec u "high") as [Hu | Hu];
  destruct k; cbn [andb fst];
  repeat match goal with
         | |- context [if ?b then _ else _] => destruct b
         end;
  cbn [fst]; split; intros H;
  try congruence; try tauto;
  try (repeat split; auto; fail);
  try (destruct H as (_ & _ & [H | H]); discriminate).
Qed.

Lemma get_risk_recommendation_injective (a b : RiskTier) (e e' : EmotionData) :
  get_risk_recommendation a e = get_risk_recommendation b e' -> a = b.
Proof. destruct a, b; simpl; intros H; try reflexivity; discriminate. Qed.

(** * Further properties, on the tables of the repository *)

Lemma contexts_anchored : anchored_contexts METAPHORICAL_CONTEXTS = true.
Proof. vm_compute. reflexivity. Qed.

(** X1. The assessment reads the message through its lower-cased
    form and the length of its trimmed form only: two messages that
    agree on both get the same assessment, whatever the tables and the
    analyzer.  The second condition is the one the two length guards
    read; they are taken on the message as typed, before it is
    lower-cased. *)
Theorem assessment_ignores_case
    (kw : keyword_table) (mc : context_table)
    (nlp : string -> result (list string))
    (message1 message2 : string) (e : EmotionData) :
  lower message1 = lower message2 ->
  length (strip message1) = length (strip message2) ->
  detect_crisis_with_emotion kw mc nlp message1 e
  = detect_crisis_with_emotion kw mc nlp message2 e.
Proof.
  intros Hlower Hlen. unfold detect_crisis_with_emotion.
  rewrite (detect_crisis_enhanced_same_reading kw mc nlp _ _ Hlower Hlen).
  now rewrite (identify_triggers_same_reading kw _ _ Hlower).
Qed.

Lemma assessment_ignores_case_witness :
  detect_crisis_with_emotion CRISIS_KEYWORDS METAPHORICAL_CONTEXTS sample_nlp
    "I AM KILLING MYSELF" fearful
  = detect_crisis_with_emotion CRISIS_KEYWORDS METAPHORICAL_CONTEXTS sample_nlp
    "i am Killing myself" fearful.
Proof.
  apply (assessment_ignores_case CRISIS_KEYWORDS METAPHORICAL_CONTEXTS sample_nlp
           "I AM KILLING MYSELF" "i am Killing myself" fearful).
  - reflexivity.
  - reflexivity.
Defined.

(** X2. A phrase or indicator that holds a cased capital letter is
    never found, because only lower-cased text is searched: removing
    such entries from the tables changes neither the score nor the
    triggers of any message.  In the repository these are the four
    phrases and the one indicator that end in a capital I. *)
Theorem cased_entries_never_match
    (kw : keyword_table) (mc : context_table) (message : string) :
  detect_crisis_level (drop_cased kw) (drop_cased_contexts mc) message
  = detect_crisis_level kw mc message /\
  identify_triggers (drop_cased kw) message = identify_triggers kw message /\
  filter (fun entry => negb (snd entry =? lower (snd entry))%string)
         (lexicon_order CRISIS_KEYWORDS)
  = [ (CRITICAL, "world without I"); (HIGH, "everyone hate I");
      (HIGH, "world hate I"); (HIGH, "everybody good without I") ] /\
  flat_map (fun entry : string * list string =>
              filter (fun indicator => negb (indicator =? lower indicator)%string)
                     (snd entry))
           METAPHORICAL_CONTEXTS
  = [ "kill I" ].
Proof.
  split; [apply detect_crisis_level_drop_cased|].
  split; [apply identify_triggers_drop_cased|].
  split; vm_compute; reflexivity.
Qed.

(** X3. A raw score other than SAFE always comes with a trigger: the
    trigger list is empty exactly when no phrase of the lexicon occurs
    in the lower-cased message. *)
Theorem raw_score_has_trigger
    (kw : keyword_table) (mc : context_table) (message : string) :
  (detect_crisis_level kw mc message <> SAFE -> identify_triggers kw message <> []) /\
  (identify_triggers kw message = [] <->
   forall tier phrase,
     In (tier, phrase) (lexicon_order kw) -> contains phrase (lower message) = false).
Proof.
  split.
  - intros Hscore Hnil. apply identify_triggers_nil in Hnil.
    destruct (scored_phrase_occurs kw mc message Hscore) as (tier & Ht & Hocc).
    exact (occurs_matches kw message tier Ht Hocc Hnil).
  - rewrite identify_triggers_nil. unfold matches. split.
    + intros Hnil tier phrase Hin.
      destruct (contains phrase (lower message)) eqn:Hc; [|reflexivity].
      assert (Hm : In (tier, phrase)
                      (filter (fun entry => contains (snd entry) (lower message))
                              (lexicon_order kw)))
        by (apply filter_In; now split).
      rewrite Hnil in Hm. contradiction.
    + intros Hnone.
      destruct (filter _ (lexicon_order kw)) as [|[tier phrase] rest] eqn:Hf;
        [reflexivity|].
      assert (Hm : In (tier, phrase)
                      (filter (fun entry => contains (snd entry) (lower message))
                              (lexicon_order kw)))
        by (rewrite Hf; now left).
      apply filter_In in Hm as [Hin Hc]. simpl in Hc.
      rewrite (Hnone _ _ Hin) in Hc. discriminate.
Qed.

Lemma raw_score_has_trigger_witness :
  identify_triggers CRISIS_KEYWORDS "I feel hopeless" <> [].
Proof.
  apply (raw_score_has_trigger CRISIS_KEYWORDS METAPHORICAL_CONTEXTS "I feel hopeless").
  vm_compute. discriminate.
Defined.

(** X4. When the reconciler returns a tier other than SAFE and no
    trigger is reported, the tier is the score of the lemmatized text
    and that text differs from the lower-cased message. *)
Theorem untriggered_tier_is_lemmatized
    (kw : keyword_table) (mc : context_table)
    (nlp : string -> result (list string)) (message : string) (tier : RiskTier) :
  detect_crisis_enhanced kw mc nlp message = Ok tier ->
  tier <> SAFE ->
  identify_triggers kw message = [] ->
  exists lemmatized,
    lemmatize_text nlp message = Ok lemmatized /\
    lemmatized <> lower message /\
    detect_crisis_level kw mc lemmatized = tier.
Proof.
  intros Ht Hsafe Hnil.
  destruct (detect_crisis_enhanced_origin kw mc nlp message tier Ht)
    as [Hraw | (lemmatized & Hlem & Hneq & Hscore)].
  - exfalso. subst tier.
    destruct (scored_phrase_occurs kw mc message Hsafe) as (t & Hin & Hocc).
    apply identify_triggers_nil in Hnil.
    exact (occurs_matches kw message t Hin Hocc Hnil).
  - exists lemmatized. now repeat split.
Qed.

Lemma untriggered_tier_is_lemmatized_witness :
  exists lemmatized,
    lemmatize_text sample_nlp "I am killing myself" = Ok lemmatized /\
    lemmatized <> "i am killing myself" /\
    detect_crisis_level CRISIS_KEYWORDS METAPHORICAL_CONTEXTS lemmatized = CRITICAL.
Proof.
  apply (untriggered_tier_is_lemmatized CRISIS_KEYWORDS METAPHORICAL_CONTEXTS
           sample_nlp "I am killing myself" CRITICAL).
  - vm_compute. reflexivity.
  - discriminate.
  - vm_compute. reflexivity.
Defined.

(** X5. The reconciler answers CRITICAL only when the message, or its
    lemmatized text, holds a CRITICAL phrase and no metaphor
    indicator. *)
Theorem critical_needs_literal_phrase
    (kw : keyword_table) (mc : context_table)
    (nlp : string -> result (list string)) (message : string) :
  detect_crisis_enhanced kw mc nlp message = Ok CRITICAL ->
  exists text,
    (text = message \/ lemmatize_text nlp message = Ok text) /\
    occurs (tier_phrases kw CRITICAL) (lower text) /\
    ~ metaphorical mc (lower text).
Proof.
  intros H.
  destruct (detect_crisis_enhanced_origin kw mc nlp message CRITICAL H)
    as [Hraw | (lemmatized & Hlem & _ & Hscore)].
  - exists message. split; [now left|].
    apply critical_score_literal. now symmetry.
  - exists lemmatized. split; [now right|].
    apply critical_score_literal. now symmetry.
Qed.

Lemma critical_needs_literal_phrase_witness :
  exists text,
    (text = "I want to kill myself"
     \/ lemmatize_text failing_nlp "I want to kill myself" = Ok text) /\
    occurs (tier_phrases CRISIS_KEYWORDS CRITICAL) (lower text) /\
    ~ metaphorical METAPHORICAL_CONTEXTS (lower text).
Proof.
  apply (critical_needs_literal_phrase CRISIS_KEYWORDS METAPHORICAL_CONTEXTS
           failing_nlp "I want to kill myself").
  vm_compute. reflexivity.
Defined.

(** X6. The first trigger names the most severe tier with a match, and
    the raw score is that tier, or the tier below it when the message is
    metaphorical. *)
Theorem first_trigger_names_raw_score
    (message trigger : string) (rest : list string) :
  identify_triggers CRISIS_KEYWORDS message = trigger :: rest ->
  exists tier phrase,
    trigger = format_trigger tier phrase /\
    In phrase (tier_phrases CRISIS_KEYWORDS tier) /\
    detect_crisis_level CRISIS_KEYWORDS METAPHORICAL_CONTEXTS message =
      if check_metaphorical_context METAPHORICAL_CONTEXTS (lower message)
      then downgrade tier else tier.
Proof.
  rewrite identify_triggers_matches.
  destruct (matches CRISIS_KEYWORDS message) as [|[tier phrase] others] eqn:Hm;
    [discriminate|].
  simpl. intros H. injection H as <- _.
  destruct (first_match_scores CRISIS_KEYWORDS METAPHORICAL_CONTEXTS
              lexicon_long_anchored message tier phrase others Hm)
    as (Hin & _ & Hscore).
  now exists tier, phrase.
Qed.

Lemma first_trigger_names_raw_score_witness :
  exists tier phrase,
    "CRITICAL: 'want to die'" = format_trigger tier phrase /\
    In phrase (tier_phrases CRISIS_KEYWORDS tier) /\
    detect_crisis_level CRISIS_KEYWORDS METAPHORICAL_CONTEXTS
      "Studying is making me want to die lol" =
      if check_metaphorical_context METAPHORICAL_CONTEXTS
           (lower "Studying is making me want to die lol")
      then downgrade tier else tier.
Proof.
  apply (first_trigger_names_raw_score "Studying is making me want to die lol"
           "CRITICAL: 'want to die'" []).
  vm_compute. reflexivity.
Defined.

(** X7. White space around a message changes neither its raw score nor
    its triggers. *)
Theorem strip_keeps_score_and_triggers (message : string) :
  detect_crisis_level CRISIS_KEYWORDS METAPHORICAL_CONTEXTS (strip message)
  = detect_crisis_level CRISIS_KEYWORDS METAPHORICAL_CONTEXTS message /\
  identify_triggers CRISIS_KEYWORDS (strip message)
  = identify_triggers CRISIS_KEYWORDS message.
Proof.
  split.
  - apply detect_crisis_level_strip;
      [exact lexicon_long_anchored | exact contexts_anchored].
  - apply identify_triggers_strip. exact lexicon_long_anchored.
Qed.

(** X8. Text added before or after a message never lowers its raw
    score, unless the longer text holds a metaphor indicator. *)
Theorem added_text_keeps_score (before message after : string) :
  ~ metaphorical METAPHORICAL_CONTEXTS (lower (before ++ message ++ after)) ->
  tier_le (detect_crisis_level CRISIS_KEYWORDS METAPHORICAL_CONTEXTS message)
          (detect_crisis_level CRISIS_KEYWORDS METAPHORICAL_CONTEXTS
             (before ++ message ++ after)).
Proof.
  intros H. apply extension_score; [exact lexicon_long_anchored|].
  apply not_true_is_false. intros Hm. apply H. now apply metaphorical_check.
Qed.

Lemma added_text_keeps_score_witness :
  tier_le (detect_crisis_level CRISIS_KEYWORDS METAPHORICAL_CONTEXTS "i feel hopeless")
          (detect_crisis_level CRISIS_KEYWORDS METAPHORICAL_CONTEXTS
             ("Honestly " ++ "i feel hopeless" ++ " and i want to die")).
Proof.
  apply (added_text_keeps_score "Honestly " "i feel hopeless" " and i want to die").
  intros H. apply metaphorical_check in H. vm_compute in H. discriminate.
Defined.

(** X9. The recommendation of an assessment is the one of its final
    tier (after any upgrade), so the two fields never disagree, and a
    response bundle exists exactly when the recommendation is not the
    standard one. *)
Theorem recommendation_follows_final_tier
    (kw : keyword_table) (mc : context_table)
    (nlp : string -> result (list string)) (message : string) (e : EmotionData) :
  exists a,
    detect_crisis_with_emotion kw mc nlp message e = Ok a /\
    (recommendation a = "IMMEDIATE_CRISIS_RESPONSE" <-> risk_level a = CRITICAL) /\
    (recommendation a = "URGENT_SUPPORT_NEEDED" <-> risk_level a = HIGH) /\
    (recommendation a = "ELEVATED_CONCERN" <-> risk_level a = MEDIUM) /\
    (recommendation a = "STANDARD_THERAPEUTIC_RESPONSE" <-> risk_level a = SAFE) /\
    (get_crisis_response (risk_level a) = None <->
     recommendation a = "STANDARD_THERAPEUTIC_RESPONSE").
Proof.
  destruct (detect_crisis_enhanced_returns kw mc nlp message) as (k & Hk & _).
  destruct (detect_crisis_with_emotion_fields kw mc nlp message e k Hk)
    as (a & Ha & _ & _ & _ & Hrec & _).
  exists a. split; [exact Ha|]. rewrite Hrec.
  destruct (risk_level a); simpl;
    repeat split; intros; try reflexivity; discriminate.
Qed.

(** X10. The confidence of an assessment lies between 0.4 and 0.95, and
    it is 0.95 exactly when the final tier is SAFE. *)
Theorem confidence_bounds
    (kw : keyword_table) (mc : context_table)
    (nlp : string -> result (list string)) (message : string) (e : EmotionData) :
  exists a,
    detect_crisis_with_emotion kw mc nlp message e = Ok a /\
    (4 # 10 <= confidence a <= 95 # 100)%Q /\
    ((confidence a == 95 # 100)%Q <-> risk_level a = SAFE).
Proof.
  destruct (detect_crisis_enhanced_returns kw mc nlp message) as (k & Hk & _).
  destruct (detect_crisis_with_emotion_fields kw mc nlp message e k Hk)
    as (a & Ha & Hrisk & Hconf & _).
  exists a. split; [exact Ha|]. rewrite Hrisk, Hconf.
  apply fusion_table_confidence.
Qed.

(** X11. The fusion engine changes the keyword tier exactly when the
    urgency is "high", the primary emotion is fear or sadness and the
    keyword tier is SAFE or MEDIUM.  With the urgency key missing, or
    the primary emotion key missing, the tier is never changed. *)
Theorem fusion_changes_tier_iff
    (kw : keyword_table) (mc : context_table)
    (nlp : string -> result (list string)) (message : string) (e : EmotionData) :
  exists keyword_tier a,
    detect_crisis_enhanced kw mc nlp message = Ok keyword_tier /\
    detect_crisis_with_emotion kw mc nlp message e = Ok a /\
    (risk_level a <> keyword_tier <->
     get (ed_urgency e) "low" = "high" /\
     (get (ed_primary_emotion e) "neutral" = "fear"
      \/ get (ed_primary_emotion e) "neutral" = "sadness") /\
     (keyword_tier = SAFE \/ keyword_tier = MEDIUM)) /\
    (ed_urgency e = None \/ ed_primary_emotion e = None ->
     risk_level a = keyword_tier).
Proof.
  destruct (detect_crisis_enhanced_returns kw mc nlp message) as (k & Hk & _).
  destruct (detect_crisis_with_emotion_fields kw mc nlp message e k Hk)
    as (a & Ha & Hrisk & _).
  exists k, a. split; [exact Hk|]. split; [exact Ha|].
  rewrite Hrisk.
  pose proof (fusion_table_changes k (get (ed_primary_emotion e) "neutral")
                (get (ed_confidence e) 0%Q) (get (ed_urgency e) "low")) as Hiff.
  split; [exact Hiff|].
  intros Hmissing.
  destruct (RiskTier_eqb
              (fst (fusion_table k (get (ed_primary_emotion e) "neutral")
                      (get (ed_confidence e) 0%Q) (get (ed_urgency e) "low"))) k)
    eqn:Heq.
  - destruct (fst _), k; simpl in Heq; try discriminate; reflexivity.
  - exfalso.
    assert (Hne : fst (fusion_table k (get (ed_primary_emotion e) "neutral")
                         (get (ed_confidence e) 0%Q) (get (ed_urgency e) "low")) <> k)
      by (intros Hk'; rewrite Hk' in Heq; destruct k; discriminate).
    apply Hiff in Hne as (Hu & Hp & _).
    destruct Hmissing as [Hm | Hm]; rewrite Hm in *; simpl in *.
    + discriminate.
    + destruct Hp; discriminate.
Qed.

(** * Reply generation and the chat endpoint *)

(** ** History formatting *)

Lemma format_chat_history_fold (l : list Exchange) (acc : list ChatTurn) :
  fold_left (fun formatted_messages msg =>
               append (append formatted_messages
                         {| role := "user"; content := ex_message msg |})
                      {| role := "assistant"; content := ex_response msg |})
            l acc
  = acc ++ flat_map (fun msg => [ {| role := "user"; content := ex_message msg |};
                                  {| role := "assistant"; content := ex_response msg |} ])
                    l.
Proof.
  revert acc. induction l as [|msg l IH]; intros acc; simpl.
  - now rewrite app_nil_r.
  - rewrite IH. unfold append. now rewrite <- !app_assoc.
Qed.

(** X12. The formatted history has two entries per stored exchange, in
    order: entry 2i is the user's message i and entry 2i+1 the reply to
    it. *)
Theorem format_chat_history_layout (history : list Exchange) :
  List.length (format_chat_history history) = 2 * List.length history /\
  forall i msg,
    nth_error history i = Some msg ->
    nth_error (format_chat_history history) (2 * i)
      = Some {| role := "user"; content := ex_message msg |} /\
    nth_error (format_chat_history history) (2 * i + 1)
      = Some {| role := "assistant"; content := ex_response msg |}.
Proof.
  unfold format_chat_history. rewrite format_chat_history_fold.
  cbn [app]. split.
  - induction history as [|m l IH]; cbn [flat_map app List.length]; [reflexivity|].
    rewrite IH. lia.
  - induction history as [|m l IH]; intros [|i] msg H; cbn [nth_error] in H;
      try discriminate.
    + injection H as <-. split; reflexivity.
    + destruct (IH i msg H) as [Hu Ha].
      replace (2 * S i + 1) with (S (S (2 * i + 1))) by lia.
      replace (2 * S i) with (S (S (2 * i))) by lia.
      cbn [flat_map app nth_error]. split; assumption.
Qed.

Lemma format_chat_history_layout_witness :
  nth_error (format_chat_history
               [ {| ex_message := "I failed my exam"; ex_response := "I hear you." |};
                 {| ex_message := "What now?"; ex_response := "One step at a time." |} ])
            (2 * 1)
  = Some {| role := "user"; content := "What now?" |}.
Proof.
  destruct (format_chat_history_layout
              [ {| ex_message := "I failed my exam"; ex_response := "I hear you." |};
                {| ex_message := "What now?"; ex_response := "One step at a time." |} ])
    as [_ Hnth].
  apply (Hnth 1 {| ex_message := "What now?"; ex_response := "One step at a time." |}).
  reflexivity.
Defined.

(** ** Prompt adaptation *)

Lemma adapt_prompt_keys {A : Arithmetic} (base_prompt : string) (d : EmotionDict A) :
  (exists prompt, adapt_prompt_to_emotion base_prompt d = Ok prompt) <->
  d_primary_emotion d <> None /\ d_confidence d <> None /\ d_urgency d <> None.
Proof.
  unfold adapt_prompt_to_emotion.
  destruct (d_primary_emotion d), (d_confidence d), (d_urgency d); cbn [getitem bind];
    split;
    try (intros [prompt H]; discriminate);
    try (intros (H1 & H2 & H3); congruence);
    try (intros _; repeat split; discriminate);
    intros _; eexists; reflexivity.
Qed.

Lemma append_empty_r (s : string) : (s ++ "")%string = s.
Proof. induction s as [|c s IH]; simpl; [reflexivity | now rewrite IH]. Qed.

Lemma join_one (sep x : string) : join sep [x] = x.
Proof. reflexivity. Qed.

Lemma join_two (sep x y : string) : join sep [x; y] = (x ++ sep ++ y)%string.
Proof. reflexivity. Qed.

(** Membership by position, without unfolding the elements. *)
Ltac in_list :=
  match goal with
  | |- In ?x (?x :: _) => left; reflexivity
  | |- In _ (_ :: _) => right; in_list
  end.

(** X13. The prompt adaptation raises [KeyError] exactly when the key
    primary_emotion, confidence (which it reads but does not use) or
    urgency is missing.  Otherwise the result is the base prompt, two
    line feeds and one of the seven emotion blocks, followed by the
    high-urgency note exactly when the urgency is "high". *)
Theorem adapt_prompt_to_emotion_contract {A : Arithmetic}
    (base_prompt : string) (d : EmotionDict A) :
  ((exists e, adapt_prompt_to_emotion base_prompt d = Raised e) <->
   d_primary_emotion d = None \/ d_confidence d = None \/ d_urgency d = None) /\
  (forall prompt,
      adapt_prompt_to_emotion base_prompt d = Ok prompt ->
      exists block,
        In block [ fear_adaptation; sadness_adaptation; anger_adaptation;
                   joy_adaptation; disgust_adaptation; surprise_adaptation;
                   neutral_adaptation ] /\
        prompt = (base_prompt ++ nl ++ nl ++ block
                  ++ (if (get (d_urgency d) "" =? "high")%string
                      then nl ++ high_urgency_note else ""))%string).
Proof.
  unfold adapt_prompt_to_emotion. split.
  - destruct (d_primary_emotion d), (d_confidence d), (d_urgency d);
      cbn [getitem bind]; split;
      try (intros [e H]; discriminate);
      try (intros [H | [H | H]]; discriminate);
      try (intros _; eexists; reflexivity);
      intros _; auto.
  - intros prompt.
    destruct (d_primary_emotion d) as [p|], (d_confidence d), (d_urgency d) as [u|];
      cbn [getitem bind]; try discriminate.
    intros H. injection H as <-. cbn [get]. unfold append. cbn [app].
    repeat match goal with
           | |- context [if (p =? ?x)%string then _ else _] =>
               destruct (p =? x)%string
           end;
      destruct (u =? "high")%string; cbn [app];
      rewrite ?join_one, ?join_two;
      match goal with
      | |- exists block, _ /\ (_ ++ String _ (String _ (?b ++ _)))%string = _ =>
          exists b
      | |- exists block, _ /\ (_ ++ String _ (String _ ?b))%string = _ =>
          exists b
      end;
      (split; [in_list | rewrite ?append_empty_r; reflexivity]).
Qed.

(** ** Reply generation *)

Lemma adapt_prompt_to_emotion_keys_raise {A : Arithmetic}
    (base_prompt : string) (d : EmotionDict A) :
  d_primary_emotion d = None \/ d_confidence d = None \/ d_urgency d = None ->
  exists e, adapt_prompt_to_emotion base_prompt d = Raised e.
Proof.
  unfold adapt_prompt_to_emotion.
  destruct (d_primary_emotion d), (d_confidence d), (d_urgency d);
    cbn [getitem bind];
    try (intros [H | [H | H]]; discriminate);
    intros _; eexists; reflexivity.
Qed.

Section ReplyFacts.

Variable A : Arithmetic.
Variable prompt : string.
Variable initialized : bool.
Variable api : nat -> list ChatTurn -> result Completion.

Variable user_message : string.
Variable history : list ChatTurn.
Variable d : EmotionDict A.

Lemma attempt_reply_calls (calls : nat) :
  calls <= snd (attempt_reply A prompt api calls user_message history d) <= S calls.
Proof.
  unfold attempt_reply.
  destruct (adapt_prompt_to_emotion prompt d); simpl; lia.
Qed.

Lemma attempt_reply_acceptable (calls : nat) (reply : string) :
  fst (attempt_reply A prompt api calls user_message history d) = Ok reply ->
  acceptable_reply reply.
Proof.
  unfold attempt_reply.
  destruct (adapt_prompt_to_emotion prompt d) as [adapted|e]; cbn [fst]; [|discriminate].
  destruct (api calls _) as [[|[text|] rest]|e]; cbn [bind]; try discriminate.
  destruct (orb _ _) eqn:Hshort; intros H; injection H as <-.
  - now left.
  - right. exists text. split; [reflexivity|].
    apply orb_false_iff in Hshort as [_ Hlen]. apply Nat.ltb_ge in Hlen. exact Hlen.
Qed.

Lemma get_ai_response_from_invariant (retries calls : nat) :
  acceptable_reply
    (fst (get_ai_response_from A prompt initialized api retries calls
            user_message history d)) /\
  calls <= snd (get_ai_response_from A prompt initialized api retries calls
                  user_message history d)
        <= calls + retries + 1.
Proof.
  revert calls. induction retries as [|r IH]; intros calls; cbn [get_ai_response_from];
    destruct initialized; cbn [negb];
    try (split; [now left | simpl; lia]);
    pose proof (attempt_reply_calls calls) as Hc;
    pose proof (attempt_reply_acceptable calls) as Ha;
    destruct (attempt_reply A prompt api calls user_message history d)
      as [[reply|e] calls'];
    cbn [fst snd] in *.
  - split; [now apply Ha | lia].
  - split; [now left | lia].
  - split; [now apply Ha | lia].
  - destruct (IH calls') as [Hr Hn]. split; [exact Hr | lia].
Qed.

Lemma get_ai_response_from_uninitialized (retries calls : nat) :
  initialized = false ->
  get_ai_response_from A prompt initialized api retries calls user_message history d
  = (get_fallback_response, calls).
Proof. intros ->. destruct retries; reflexivity. Qed.

Lemma get_ai_response_from_missing_key (retries calls : nat) :
  d_primary_emotion d = None \/ d_confidence d = None \/ d_urgency d = None ->
  get_ai_response_from A prompt initialized api retries calls user_message history d
  = (get_fallback_response, calls).
Proof.
  intros Hkey.
  assert (Hraise : exists e, adapt_prompt_to_emotion prompt d = Raised e)
    by (now apply adapt_prompt_to_emotion_keys_raise).
  destruct Hraise as [e He].
  induction retries as [|r IH]; cbn [get_ai_response_from];
    destruct initialized; cbn [negb]; try reflexivity;
    unfold attempt_reply; rewrite He; [reflexivity|].
  unfold attempt_reply in IH. exact IH.
Qed.

Lemma attempt_reply_adapted (adapted : string) (calls : nat) :
  adapt_prompt_to_emotion prompt d = Ok adapted ->
  attempt_reply A prompt api calls user_message history d =
  (completion <- api calls (message_array adapted user_message history) ;;
   choice <- match completion with
             | [] => Raised "IndexError"
             | first :: _ => Ok first
             end ;;
   text <- match choice with
           | None => Raised "AttributeError"
           | Some text => Ok text
           end ;;
   if (strip text =? "")%string || (length (strip text) <? 10)
   then Ok get_fallback_response
   else Ok (strip text),
   S calls).
Proof. intros H. unfold attempt_reply. now rewrite H. Qed.

(** The retry loop: when the calls before number [k] are unusable and
    call number [k] answers, the reply comes from that call. *)
Lemma get_ai_response_from_first_answer
    (adapted text : string) (rest : Completion) (k retries calls : nat) :
  adapt_prompt_to_emotion prompt d = Ok adapted ->
  (forall j, j < k ->
     unusable (api (calls + j) (message_array adapted user_message history)) = true) ->
  api (calls + k) (message_array adapted user_message history) = Ok (Some text :: rest) ->
  k <= retries ->
  get_ai_response_from A prompt true api retries calls user_message history d
  = (if (strip text =? "")%string || (length (strip text) <? 10)
     then get_fallback_response else strip text,
     calls + k + 1).
Proof.
  intros Hadapt. revert retries calls.
  induction k as [|k IH]; intros retries calls Hbad Hgood Hle.
  - rewrite Nat.add_0_r in Hgood.
    destruct retries; cbn [get_ai_response_from negb];
      rewrite (attempt_reply_adapted adapted calls Hadapt), Hgood; cbn [bind];
      destruct (orb _ _); f_equal; lia.
  - destruct retries as [|r]; [lia|].
    cbn [get_ai_response_from negb].
    pose proof (Hbad 0 ltac:(lia)) as H0. rewrite Nat.add_0_r in H0.
    rewrite (attempt_reply_adapted adapted calls Hadapt).
    destruct (api calls _) as [[|[t|] rs]|e]; cbn [bind]; try discriminate;
      (rewrite (IH r (S calls));
       [f_equal; lia
       | intros j Hj; replace (S calls + j) with (calls + S j) by lia;
         apply Hbad; lia
       | replace (S calls + k) with (calls + S k) by lia; exact Hgood
       | lia]).
Qed.

Lemma get_ai_response_from_no_prompt (e : exn) (retries calls : nat) :
  adapt_prompt_to_emotion prompt d = Raised e ->
  get_ai_response_from A prompt initialized api retries calls user_message history d
  = (get_fallback_response, calls).
Proof.
  intros He.
  induction retries as [|r IH]; cbn [get_ai_response_from];
    destruct initialized; cbn [negb]; try reflexivity;
    unfold attempt_reply; rewrite He; [reflexivity|].
  unfold attempt_reply in IH. exact IH.
Qed.

(** Where a reply other than the fallback text comes from: the call
    made last, every call from number [calls] on before it being
    unusable. *)
Lemma get_ai_response_from_answer (adapted : string) (retries calls : nat) :
  adapt_prompt_to_emotion prompt d = Ok adapted ->
  fst (get_ai_response_from A prompt initialized api retries calls
         user_message history d) = get_fallback_response \/
  (initialized = true /\
   exists text rest,
     calls < snd (get_ai_response_from A prompt initialized api retries calls
                    user_message history d) /\
     api (snd (get_ai_response_from A prompt initialized api retries calls
                 user_message history d) - 1)
         (message_array adapted user_message history) = Ok (Some text :: rest) /\
     (forall j,
        calls <= j < snd (get_ai_response_from A prompt initialized api retries calls
                            user_message history d) - 1 ->
        unusable (api j (message_array adapted user_message history)) = true) /\
     fst (get_ai_response_from A prompt initialized api retries calls
            user_message history d) = strip text /\
     10 <= length (fst (get_ai_response_from A prompt initialized api retries calls
                          user_message history d))).
Proof.
  intros Hadapt. revert calls.
  induction retries as [|r IH]; intros calls; cbn [get_ai_response_from];
    destruct initialized; cbn [negb]; try (left; reflexivity);
    rewrite (attempt_reply_adapted adapted calls Hadapt);
    destruct (api calls (message_array adapted user_message history))
      as [[|[text|] rest]|e] eqn:Hcall; cbn [bind];
    try (left; reflexivity);
    try (destruct (orb _ _) eqn:Hshort; [left; reflexivity|];
         cbn [fst snd]; right; split; [reflexivity|];
         exists text, rest;
         replace (S calls - 1) with calls by lia;
         apply orb_false_iff in Hshort as [_ Hlen]; apply Nat.ltb_ge in Hlen;
         repeat split; [lia | exact Hcall | intros j Hj; lia | exact Hlen]);
    (destruct (IH (S calls))
       as [Hf | (_ & text' & rest' & Hlt & Hapi & Hbad & Hreply & Hlen)];
     [left; exact Hf|];
     right; split; [reflexivity|];
     exists text', rest';
     repeat split; [lia | exact Hapi | | exact Hreply | exact Hlen];
     intros j Hj; destruct (Nat.eq_dec j calls) as [-> | Hne];
     [rewrite Hcall; reflexivity | apply Hbad; lia]).
Qed.

End ReplyFacts.

(** X14. [get_ai_response] returns the fallback text or a reply taken
    from the language model: the client was initialized, the prompt was
    adapted for the emotion dict, and the reply is the stripped content,
    at least ten characters long, of the first choice of the completion
    that the last call returned on the message array built from the
    adapted prompt, the history and the user message, every earlier
    call having been unusable.  It calls the language model at most
    [max_retries + 1] times, and not at all when the client was not
    initialized. *)
Theorem get_ai_response_reply
    (A : Arithmetic) (prompt : string) (initialized : bool)
    (api : nat -> list ChatTurn -> result Completion)
    (user_message : string) (history : list ChatTurn) (d : EmotionDict A)
    (max_retries : Z) :
  (fst (get_ai_response A prompt initialized api user_message history d max_retries)
   = get_fallback_response \/
   (initialized = true /\
    exists adapted,
      adapt_prompt_to_emotion prompt d = Ok adapted /\
      model_reply api (message_array adapted user_message history)
        (fst (get_ai_response A prompt initialized api user_message history d
                max_retries))
        (snd (get_ai_response A prompt initialized api user_message history d
                max_retries)))) /\
  snd (get_ai_response A prompt initialized api user_message history d max_retries)
    <= Z.to_nat max_retries + 1 /\
  (initialized = false ->
   get_ai_response A prompt initialized api user_message history d max_retries
   = (get_fallback_response, 0)).
Proof.
  unfold get_ai_response.
  destruct (get_ai_response_from_invariant A prompt initialized api user_message
              history d (Z.to_nat max_retries) 0) as [_ Hn].
  split; [|split; [lia | apply get_ai_response_from_uninitialized]].
  destruct (adapt_prompt_to_emotion prompt d) as [adapted|e] eqn:Hadapt.
  - destruct (get_ai_response_from_answer A prompt initialized api user_message
                history d adapted (Z.to_nat max_retries) 0 Hadapt)
      as [Hf | (Hinit & text & rest & Hlt & Hapi & Hbad & Hreply & Hlen)];
      [left; exact Hf|].
    right. split; [exact Hinit|]. exists adapted. split; [reflexivity|].
    exists text, rest.
    repeat split; [exact Hlt | exact Hapi | | exact Hreply | exact Hlen].
    intros j Hj. apply Hbad. lia.
  - left.
    now rewrite (get_ai_response_from_no_prompt A prompt initialized api user_message
                   history d e (Z.to_nat max_retries) 0 Hadapt).
Qed.

(** X15. When the emotion dict lacks the key primary_emotion,
    confidence or urgency, every attempt fails before the language
    model is called: the reply is the fallback text and no call is
    made, whatever the number of retries. *)
Theorem get_ai_response_missing_key
    (A : Arithmetic) (prompt : string) (initialized : bool)
    (api : nat -> list ChatTurn -> result Completion)
    (user_message : string) (history : list ChatTurn) (d : EmotionDict A)
    (max_retries : Z) :
  d_primary_emotion d = None \/ d_confidence d = None \/ d_urgency d = None ->
  get_ai_response A prompt initialized api user_message history d max_retries
  = (get_fallback_response, 0).
Proof. intros H. now apply get_ai_response_from_missing_key. Qed.

Lemma get_ai_response_missing_key_witness :
  get_ai_response exact_arithmetic "You are a counselor." true flaky_model
    "hello there" []
    (analyze_emotion exact_arithmetic fearful_classifier "") 2
  = (get_fallback_response, 0).
Proof.
  apply (get_ai_response_missing_key exact_arithmetic "You are a counselor." true
           flaky_model "hello there" []
           (analyze_emotion exact_arithmetic fearful_classifier "") 2).
  right. left. reflexivity.
Defined.

(** X16. The retry loop returns the answer of the first usable call:
    when the client is initialized, the dict has its keys, the calls
    number 0 to k-1 are unusable (exception, no choice or null content),
    call number k answers and k is at most [max_retries], the reply is
    the stripped content of that answer, or the fallback text when it is
    shorter than ten characters, after exactly k+1 calls.  A short
    answer is not retried. *)
Theorem get_ai_response_first_answer
    (A : Arithmetic) (prompt : string)
    (api : nat -> list ChatTurn -> result Completion)
    (user_message : string) (history : list ChatTurn) (d : EmotionDict A)
    (max_retries : Z) (adapted text : string) (rest : Completion) (k : nat) :
  adapt_prompt_to_emotion prompt d = Ok adapted ->
  (forall j, j < k ->
     unusable (api j (message_array adapted user_message history)) = true) ->
  api k (message_array adapted user_message history) = Ok (Some text :: rest) ->
  k <= Z.to_nat max_retries ->
  get_ai_response A prompt true api user_message history d max_retries
  = (if (strip text =? "")%string || (length (strip text) <? 10)
     then get_fallback_response else strip text,
     k + 1).
Proof.
  intros Hadapt Hbad Hgood Hle. unfold get_ai_response.
  rewrite (get_ai_response_from_first_answer A prompt api user_message history d
             adapted text rest k (Z.to_nat max_retries) 0 Hadapt);
    [reflexivity | exact Hbad | exact Hgood | exact Hle].
Qed.

Lemma get_ai_response_first_answer_witness :
  get_ai_response exact_arithmetic "You are a counselor." true flaky_model
    "hello there" [] sad_emotion 2
  = ("I hear you. Tell me more about today.", 2).
Proof.
  destruct (adapt_prompt_to_emotion "You are a counselor." sad_emotion)
    as [adapted|e] eqn:Hadapt; [|discriminate].
  apply (get_ai_response_first_answer exact_arithmetic "You are a counselor."
           flaky_model "hello there" [] sad_emotion 2 adapted
           "  I hear you. Tell me more about today.  " [] 1 Hadapt).
  - intros [|j] Hj; [reflexivity | lia].
  - reflexivity.
  - vm_compute. lia.
Defined.

(** ** The emotion engine *)

Lemma dict_get_set {V} (d : list (string * V)) (k k' : string) (v : V) :
  dict_get (dict_set d k v) k' = if (k =? k')%string then Some v else dict_get d k'.
Proof.
  induction d as [|[k0 v0] rest IH]; simpl.
  - reflexivity.
  - destruct (String.eqb_spec k0 k) as [-> | Hne]; simpl.
    + destruct (k =? k')%string; reflexivity.
    + rewrite IH. destruct (String.eqb_spec k0 k') as [-> | Hne'].
      * destruct (String.eqb_spec k k'); [congruence | reflexivity].
      * reflexivity.
Qed.

Lemma dict_set_keys {V} (d : list (string * V)) (k : string) (v : V) (k' : string) :
  In k' (map fst (dict_set d k v)) <-> k' = k \/ In k' (map fst d).
Proof.
  induction d as [|[k0 v0] rest IH]; simpl.
  - intuition.
  - destruct (String.eqb_spec k0 k) as [-> | Hne]; simpl.
    + intuition.
    + rewrite IH. intuition.
Qed.

Lemma dict_set_nodup {V} (d : list (string * V)) (k : string) (v : V) :
  NoDup (map fst d) -> NoDup (map fst (dict_set d k v)).
Proof.
  induction d as [|[k0 v0] rest IH]; simpl; intros H.
  - constructor; [intros [] | constructor].
  - inversion H as [|? ? Hnot Hrest]; subst.
    destruct (String.eqb_spec k0 k) as [-> | Hne]; simpl.
    + now constructor.
    + constructor; [|now apply IH].
      intros Hin. apply dict_set_keys in Hin as [-> | Hin]; [congruence | contradiction].
Qed.

Lemma dict_get_in {V} (d : list (string * V)) (k : string) (v : V) :
  NoDup (map fst d) -> In (k, v) d -> dict_get d k = Some v.
Proof.
  induction d as [|[k0 v0] rest IH]; simpl; intros Hnd Hin; [contradiction|].
  inversion Hnd as [|? ? Hnot Hrest]; subst.
  destruct Hin as [Heq | Hin].
  - injection Heq as -> ->. now rewrite String.eqb_refl.
  - destruct (String.eqb_spec k0 k) as [-> | Hne].
    + exfalso. apply Hnot. apply in_map_iff. now exists (k, v).
    + now apply IH.
Qed.

Section ScoreDict.

Variable A : Arithmetic.

Lemma scores_of_nodup (results acc : list (string * num A)) :
  NoDup (map fst acc) -> NoDup (map fst (scores_of A results acc)).
Proof.
  revert acc. induction results as [|item rest IH]; intros acc H; simpl; [exact H|].
  apply IH. now apply dict_set_nodup.
Qed.

Lemma scores_of_missing (results acc : list (string * num A)) (k : string) :
  (forall item, In item results -> fst item <> k) ->
  dict_get acc k = None ->
  dict_get (scores_of A results acc) k = None.
Proof.
  revert acc. induction results as [|item rest IH]; intros acc Hno Hacc; simpl;
    [exact Hacc|].
  apply IH.
  - intros x Hx. apply Hno. now right.
  - rewrite dict_get_set.
    destruct (String.eqb_spec (fst item) k) as [Heq | _]; [|exact Hacc].
    exfalso. apply (Hno item); [now left | exact Heq].
Qed.

Lemma scores_of_keys (results acc : list (string * num A)) (k : string) :
  In k (map fst (scores_of A results acc)) ->
  In k (map fst results) \/ In k (map fst acc).
Proof.
  revert acc. induction results as [|item rest IH]; intros acc H; simpl in *;
    [now right|].
  destruct (IH _ H) as [Hin | Hin]; [now left; right|].
  apply dict_set_keys in Hin as [-> | Hin]; [now left; left | now right].
Qed.

Hypothesis gt_irreflexive : forall x, num_gt A x x = false.
Hypothesis gt_transitive :
  forall x y z, num_gt A x y = true -> num_gt A y z = true -> num_gt A x z = true.

Lemma max_fold_spec (rest : list (string * num A)) (best : string * num A)
    (seen : list (string * num A)) :
  In best seen ->
  (forall item, In item seen -> num_gt A (snd item) (snd best) = false) ->
  let final := fold_left (fun best item =>
                            if num_gt A (snd item) (snd best) then item else best)
                         rest best in
  In final (seen ++ rest) /\
  forall item, In item (seen ++ rest) -> num_gt A (snd item) (snd final) = false.
Proof.
  revert best seen. induction rest as [|y rest IH]; intros best seen Hin Hmax; simpl.
  - rewrite app_nil_r. now split.
  - replace (seen ++ y :: rest) with ((seen ++ [y]) ++ rest)
      by (rewrite <- app_assoc; reflexivity).
    destruct (num_gt A (snd y) (snd best)) eqn:Hy; apply IH.
    + apply in_or_app. right. now left.
    + intros item Hitem. apply in_app_or in Hitem as [Hitem | [<- | []]].
      * destruct (num_gt A (snd item) (snd y)) eqn:Hc; [|reflexivity].
        pose proof (gt_transitive _ _ _ Hc Hy) as Ht.
        rewrite (Hmax item Hitem) in Ht. discriminate.
      * apply gt_irreflexive.
    + apply in_or_app. now left.
    + intros item Hitem. apply in_app_or in Hitem as [Hitem | [<- | []]].
      * now apply Hmax.
      * exact Hy.
Qed.

Lemma max_key_spec (d : list (string * num A)) (k : string) :
  max_key A d = Ok k ->
  exists v, In (k, v) d /\
            forall item, In item d -> num_gt A (snd item) v = false.
Proof.
  destruct d as [|[k0 v0] rest]; simpl; [discriminate|].
  intros H. injection H as <-.
  destruct (max_fold_spec rest (k0, v0) [(k0, v0)]) as [Hin Hmax].
  - now left.
  - intros item [<- | []]. apply gt_irreflexive.
  - simpl in Hin, Hmax. 
    destruct (fold_left _ rest (k0, v0)) as [k v]. simpl in *.
    exists v. split; [exact Hin | exact Hmax].
Qed.

End ScoreDict.

Lemma nonempty_guard (text : string) :
  text <> ""%string -> (text =? "")%string && (length (strip text) <? 3) = false.
Proof.
  intros H. destruct (String.eqb_spec text ""); [contradiction | reflexivity].
Qed.

Lemma analysis_failure_neutral_fields
    (A : Arithmetic) (classifier : string -> result (list (string * num A)))
    (text : string) :
  text <> ""%string ->
  (exists e, classifier text = Raised e) \/
  (exists results, classifier text = Ok results /\
                   forall item, In item results -> fst item <> "disgust"%string) ->
  d_primary_emotion (analyze_emotion A classifier text) = Some "neutral"%string /\
  d_confidence (analyze_emotion A classifier text) = Some (float_zero A) /\
  d_urgency (analyze_emotion A classifier text) = Some "low"%string /\
  d_all_emotions (analyze_emotion A classifier text) = Some [] /\
  d_error (analyze_emotion A classifier text) <> None.
Proof.
  intros Htext Hfail. unfold analyze_emotion. rewrite (nonempty_guard _ Htext).
  destruct Hfail as [[e He] | (results & Hres & Hno)].
  - rewrite He. cbn [bind]. repeat split; discriminate.
  - rewrite Hres. cbn [bind].
    change (fold_left _ results []) with (scores_of A results []).
    destruct (max_key A (scores_of A results [])) as [primary|e]; cbn [bind];
      [|repeat split; discriminate].
    destruct (dict_get (scores_of A results []) primary) as [conf|]; cbn [getitem bind];
      [|repeat split; discriminate].
    rewrite (scores_of_missing A results [] "disgust" Hno eq_refl).
    cbn [sum_with_none bind]. repeat split; discriminate.
Qed.

(** X17. When the classifier raises, or when its output has no item
    labelled disgust (an empty output included), [analyze_emotion]
    returns the neutral fallback for a non-empty text: primary emotion
    neutral, confidence 0.0, urgency low, and the error recorded. *)
Theorem analysis_failure_is_neutral
    (A : Arithmetic) (classifier : string -> result (list (string * num A)))
    (text : string) :
  text <> ""%string ->
  (exists e, classifier text = Raised e) \/
  (exists results, classifier text = Ok results /\
                   forall item, In item results -> fst item <> "disgust"%string) ->
  d_primary_emotion (analyze_emotion A classifier text) = Some "neutral"%string /\
  d_confidence (analyze_emotion A classifier text) = Some (float_zero A) /\
  d_urgency (analyze_emotion A classifier text) = Some "low"%string /\
  d_all_emotions (analyze_emotion A classifier text) = Some [] /\
  d_error (analyze_emotion A classifier text) <> None.
Proof. apply analysis_failure_neutral_fields. Qed.

Lemma analysis_failure_is_neutral_witness :
  d_primary_emotion (analyze_emotion exact_arithmetic
                       (fun _ => Ok [ ("joy", (99 # 100)%Q); ("sadness", (1 # 100)%Q) ])
                       "What a great day")
  = Some "neutral"%string.
Proof.
  apply (analysis_failure_is_neutral exact_arithmetic
           (fun _ => Ok [ ("joy", (99 # 100)%Q); ("sadness", (1 # 100)%Q) ])
           "What a great day").
  - discriminate.
  - right. eexists. split; [reflexivity|].
    intros item [<- | [<- | []]]; discriminate.
Defined.

Lemma calculate_urgency_range (A : Arithmetic) (primary : string) (conf : num A)
    (scores : list (string * num A)) :
  In (calculate_urgency A primary conf scores) ["low"; "medium"; "high"]%string.
Proof.
  unfold calculate_urgency.
  repeat match goal with
         | |- context [if ?b then _ else _] => destruct b
         end; simpl; auto.
Qed.

Lemma analyze_emotion_nonempty_keys
    (A : Arithmetic) (classifier : string -> result (list (string * num A)))
    (text : string) :
  text <> ""%string ->
  exists primary conf urgency,
    d_primary_emotion (analyze_emotion A classifier text) = Some primary /\
    d_confidence (analyze_emotion A classifier text) = Some conf /\
    d_urgency (analyze_emotion A classifier text) = Some urgency /\
    In urgency ["low"; "medium"; "high"]%string.
Proof.
  intros Htext. unfold analyze_emotion. rewrite (nonempty_guard _ Htext).
  destruct (classifier text) as [results|e]; cbn [bind].
  2: { eexists _, _, _. repeat split. simpl. auto. }
  destruct (max_key A _) as [primary|e]; cbn [bind].
  2: { eexists _, _, _. repeat split. simpl. auto. }
  destruct (dict_get _ primary) as [conf|]; cbn [getitem bind].
  2: { eexists _, _, _. repeat split. simpl. auto. }
  destruct (dict_get _ "disgust"%string) as [disgust|]; cbn [sum_with_none bind].
  2: { eexists _, _, _. repeat split. simpl. auto. }
  eexists _, _, _. repeat split. apply calculate_urgency_range.
Qed.

(** X18. The guard of [analyze_emotion] is met by the empty text only.
    For the empty text the classifier is not consulted and the dict has
    no confidence key (it has confidence_score instead); for every other
    text, short ones included, the dict has the keys primary_emotion,
    confidence and urgency, and the urgency is low, medium or high. *)
Theorem analyze_emotion_keys
    (A : Arithmetic) (classifier : string -> result (list (string * num A)))
    (text : string) :
  (text = ""%string ->
   d_confidence (analyze_emotion A classifier text) = None /\
   d_confidence_score (analyze_emotion A classifier text) = Some (float_zero A) /\
   forall classifier',
     analyze_emotion A classifier' text = analyze_emotion A classifier text) /\
  (text <> ""%string ->
   exists primary conf urgency,
     d_primary_emotion (analyze_emotion A classifier text) = Some primary /\
     d_confidence (analyze_emotion A classifier text) = Some conf /\
     d_urgency (analyze_emotion A classifier text) = Some urgency /\
     In urgency ["low"; "medium"; "high"]%string).
Proof.
  split.
  - intros ->. repeat split.
  - apply analyze_emotion_nonempty_keys.
Qed.

Lemma analyze_emotion_keys_witness :
  exists primary conf urgency,
    d_primary_emotion (analyze_emotion exact_arithmetic fearful_classifier "ok")
      = Some primary /\
    d_confidence (analyze_emotion exact_arithmetic fearful_classifier "ok")
      = Some conf /\
    d_urgency (analyze_emotion exact_arithmetic fearful_classifier "ok")
      = Some urgency /\
    In urgency ["low"; "medium"; "high"]%string.
Proof.
  apply (analyze_emotion_keys exact_arithmetic fearful_classifier "ok").
  discriminate.
Defined.

(** X19. On success the primary emotion is a label of the classifier
    output whose rounded score no other rounded score exceeds, and the
    confidence is that score rounded to three places.  This holds for
    every comparison [>] that is irreflexive and transitive, as it is
    on floats. *)
Theorem primary_emotion_is_maximal
    (A : Arithmetic) (classifier : string -> result (list (string * num A)))
    (text : string) :
  (forall x, num_gt A x x = false) ->
  (forall x y z, num_gt A x y = true -> num_gt A y z = true -> num_gt A x z = true) ->
  text <> ""%string ->
  d_error (analyze_emotion A classifier text) = None ->
  exists results scores primary score,
    classifier text = Ok results /\
    d_emotion_scores (analyze_emotion A classifier text) = Some scores /\
    d_primary_emotion (analyze_emotion A classifier text) = Some primary /\
    In primary (map fst results) /\
    dict_get scores primary = Some score /\
    d_confidence (analyze_emotion A classifier text) = Some (py_round A score 3) /\
    forall label other, In (label, other) scores -> num_gt A other score = false.
Proof.
  intros Hirr Htrans Htext. unfold analyze_emotion. rewrite (nonempty_guard _ Htext).
  destruct (classifier text) as [results|e]; cbn [bind]; [|discriminate].
  change (fold_left _ results []) with (scores_of A results []).
  destruct (max_key A (scores_of A results [])) as [primary|e] eqn:Hmax; cbn [bind];
    [|discriminate].
  destruct (max_key_spec A Hirr Htrans _ _ Hmax) as (v & Hin & Hbest).
  assert (Hnd : NoDup (map fst (scores_of A results [])))
    by (apply scores_of_nodup; constructor).
  rewrite (dict_get_in _ _ _ Hnd Hin). cbn [getitem bind].
  destruct (dict_get _ "disgust"%string) as [disgust|]; cbn [sum_with_none bind];
    [|discriminate].
  intros _. exists results, (scores_of A results []), primary, v.
  repeat split.
  - assert (Hk : In primary (map fst (scores_of A results [])))
      by (apply in_map_iff; now exists (primary, v)).
    apply scores_of_keys in Hk as [Hk | []]. exact Hk.
  - now apply dict_get_in.
  - intros label other Hother. exact (Hbest _ Hother).
Qed.

Lemma Qgtb_irreflexive (x : Q) : Qgtb x x = false.
Proof.
  unfold Qgtb. apply negb_false_iff. apply Qle_bool_iff. apply Qle_refl.
Qed.

Lemma Qgtb_transitive (x y z : Q) :
  Qgtb x y = true -> Qgtb y z = true -> Qgtb x z = true.
Proof.
  intros Hxy Hyz.
  destruct (Qgtb_spec x y) as [Hxy'|]; [|discriminate].
  destruct (Qgtb_spec y z) as [Hyz'|]; [|discriminate].
  destruct (Qgtb_spec x z) as [|Hn]; [reflexivity|].
  exfalso. apply Hn. now apply Qlt_trans with y.
Qed.

Lemma primary_emotion_is_maximal_witness :
  exists results scores primary score,
    fearful_classifier "I am scared" = Ok results /\
    d_emotion_scores (analyze_emotion exact_arithmetic fearful_classifier "I am scared")
      = Some scores /\
    d_primary_emotion (analyze_emotion exact_arithmetic fearful_classifier "I am scared")
      = Some primary /\
    In primary (map fst results) /\
    dict_get scores primary = Some score /\
    d_confidence (analyze_emotion exact_arithmetic fearful_classifier "I am scared")
      = Some (round_decimals score 3) /\
    forall label other, In (label, other) scores -> Qgtb other score = false.
Proof.
  apply (primary_emotion_is_maximal exact_arithmetic fearful_classifier "I am scared").
  - exact Qgtb_irreflexive.
  - exact Qgtb_transitive.
  - discriminate.
  - vm_compute. reflexivity.
Defined.

(** ** The chat endpoint *)

Section ViewFacts.

Variable A : Arithmetic.
Variable Account : Type.
Variable Timestamp : Type.
Variable kw : keyword_table.
Variable mc : context_table.
Variable nlp : string -> result (list string).
Variable classifier : string -> result (list (string * num A)).
Variable prompt : string.
Variable initialized : bool.
Variable api : nat -> list ChatTurn -> result Completion.
Variable create : NewChatMessage A Account -> result (SavedChatMessage Timestamp).
Variable history : Account -> nat -> result (list Exchange).

Lemma view_emotion (text : string) :
  text <> ""%string ->
  try_except
    (let emotion_data := analyze_emotion A classifier text in
     _ <- getitem (d_primary_emotion emotion_data) "primary_emotion" ;;
     _ <- getitem (d_confidence emotion_data) "confidence" ;;
     Ok emotion_data)
    (fun e => Ok (view_fallback_emotion A))
  = Ok (analyze_emotion A classifier text).
Proof.
  intros Htext.
  destruct (analyze_emotion_nonempty_keys A classifier text Htext)
    as (p & c & u & Hp & Hc & _).
  cbv zeta. rewrite Hp, Hc. reflexivity.
Qed.

(** The first three steps of the view on a textual request. *)
Lemma textual_message (request : Request Account) :
  textual request ->
  exists message,
    req_data request = Ok (data_mapping message) /\
    str_strip (get message (json_string "")) = Ok (trimmed request).
Proof.
  unfold textual, trimmed.
  destruct (req_data request) as [[message|]|e]; try contradiction.
  intros Htext. exists message. split; [reflexivity|].
  destruct (get message (json_string "")); [reflexivity | contradiction].
Qed.

Lemma accepted_textual (request : Request Account) :
  3 <= length (trimmed request) -> textual request.
Proof.
  unfold textual, trimmed.
  destruct (req_data request) as [[message|]|e]; simpl; try lia.
  destruct (get message (json_string "")); simpl; [discriminate | lia].
Qed.

(** What the view does with an accepted message. *)
Lemma send_message_accepted (request : Request Account) :
  3 <= length (trimmed request) <= 2000 ->
  exists a,
    detect_crisis_with_emotion kw mc nlp (trimmed request)
      (signal_of (analyze_emotion A classifier (trimmed request))) = Ok a /\
    send_message A Account Timestamp kw mc nlp classifier prompt initialized api
      create history request
    = if existsb (RiskTier_eqb (risk_level a)) [CRITICAL; HIGH]
      then crisis_reply A Account Timestamp create (req_user request)
             (trimmed request) (analyze_emotion A classifier (trimmed request))
             (risk_level a)
      else ordinary_reply A Account Timestamp prompt initialized api create history
             (req_user request) (trimmed request)
             (analyze_emotion A classifier (trimmed request)) (risk_level a).
Proof.
  intros [Hmin Hmax].
  destruct (detect_crisis_enhanced_returns kw mc nlp (trimmed request)) as (k & Hk & _).
  destruct (detect_crisis_with_emotion_fields kw mc nlp (trimmed request)
              (signal_of (analyze_emotion A classifier (trimmed request))) k Hk)
    as (a & Ha & _).
  exists a. split; [exact Ha|].
  destruct (textual_message request (accepted_textual request Hmin))
    as (message & Hdata & Hstrip).
  unfold send_message. rewrite Hdata. cbn [bind data_get_message].
  rewrite Hstrip. cbn [bind].
  assert (Hne : trimmed request <> ""%string)
    by (intros He; rewrite He in Hmin; simpl in Hmin; lia).
  destruct (String.eqb_spec (trimmed request) ""); [contradiction|].
  replace (2000 <? length (trimmed request)) with false
    by (symmetry; apply Nat.ltb_ge; lia).
  replace (length (trimmed request) <? 3) with false
    by (symmetry; apply Nat.ltb_ge; lia).
  pose proof (view_emotion _ Hne) as He. cbv zeta in He. rewrite He.
  cbn [bind]. rewrite Ha. cbn [bind try_except]. reflexivity.
Qed.

Lemma crisis_bundle (tier : RiskTier) :
  existsb (RiskTier_eqb tier) [CRITICAL; HIGH] = true ->
  (tier = HIGH \/ tier = CRITICAL) /\
  exists bundle,
    get_crisis_response tier = Some bundle /\
    (immediate_action_required bundle = true <-> tier = CRITICAL).
Proof.
  destruct tier; simpl; intros H; try discriminate.
  - split; [now left|]. eexists. split; [reflexivity|]. simpl.
    split; intros; discriminate.
  - split; [now right|]. eexists. split; [reflexivity|]. simpl.
    split; intros; reflexivity.
Qed.

Lemma ordinary_tier (tier : RiskTier) :
  existsb (RiskTier_eqb tier) [CRITICAL; HIGH] = false ->
  tier = SAFE \/ tier = MEDIUM.
Proof. destruct tier; simpl; intros H; try discriminate; auto. Qed.

Lemma ordinary_reply_cases (user : Account) (text : string) (d : EmotionDict A)
    (tier : RiskTier) :
  exists reply,
    acceptable_reply reply /\
    ((exists e,
        create {| new_user := user; new_message := text; new_response := reply;
                  new_risk_level := tier;
                  new_primary_emotion := d_primary_emotion d;
                  new_sentiment_score := d_sentiment_score d;
                  new_emotion_confidence := d_confidence d |} = Raised e /\
        ordinary_reply A Account Timestamp prompt initialized api create history
          user text d tier
        = Ok {| body := unsaved_body reply d tier false "Message not saved to history";
                status := HTTP_201_CREATED |})
     \/
     (exists saved summary,
        ordinary_reply A Account Timestamp prompt initialized api create history
          user text d tier
        = Ok {| body := reply_body reply summary tier false
                          (saved_created_at saved) (saved_id saved);
                status := HTTP_201_CREATED |})).
Proof.
  unfold ordinary_reply.
  destruct (try_except _ _) as [conversation|e] eqn:Hh.
  2: { destruct (history user 10); discriminate. }
  cbn [bind try_except].
  destruct (get_ai_response_from_invariant A prompt initialized api text conversation
              d (Z.to_nat 2) 0) as [Hacc _].
  fold (get_ai_response A prompt initialized api text conversation d 2) in Hacc.
  eexists. split; [exact Hacc|].
  destruct (create _) as [saved|e] eqn:Hc.
  - right. eexists _, _. reflexivity.
  - left. exists e. split; reflexivity.
Qed.

End ViewFacts.

Section Endpoint.

Variable A : Arithmetic.
Variable Account : Type.
Variable Timestamp : Type.
Variable kw : keyword_table.
Variable mc : context_table.
Variable nlp : string -> result (list string).
Variable classifier : string -> result (list (string * num A)).
Variable prompt : string.
Variable initialized : bool.
Variable api : nat -> list ChatTurn -> result Completion.
Variable create : NewChatMessage A Account -> result (SavedChatMessage Timestamp).
Variable history : Account -> nat -> result (list Exchange).

Lemma crisis_reply_cases (user : Account) (text : string) (d : EmotionDict A)
    (tier : RiskTier) :
  existsb (RiskTier_eqb tier) [CRITICAL; HIGH] = true ->
  exists bundle,
    get_crisis_response tier = Some bundle /\
    ((exists e,
        create {| new_user := user; new_message := text;
                  new_response := response bundle; new_risk_level := tier;
                  new_primary_emotion := d_primary_emotion d;
                  new_sentiment_score := d_sentiment_score d;
                  new_emotion_confidence := d_confidence d |} = Raised e /\
        crisis_reply A Account Timestamp create user text d tier = Raised e)
     \/
     (exists saved,
        crisis_reply A Account Timestamp create user text d tier
        = Ok {| body := crisis_body (response bundle) (resources bundle) tier true
                          (immediate_action_required bundle) d
                          (saved_created_at saved) (saved_id saved);
                status := HTTP_201_CREATED |})).
Proof.
  intros Htier. destruct (crisis_bundle tier Htier) as (_ & bundle & Hb & _).
  exists bundle. split; [exact Hb|].
  unfold crisis_reply. rewrite Hb. cbn [bind].
  destruct (create _) as [saved|e]; cbn [bind].
  - right. now exists saved.
  - left. now exists e.
Qed.

Lemma send_message_rejects (request : Request Account) :
  textual request ->
  length (trimmed request) < 3 \/ 2000 < length (trimmed request) ->
  exists err,
    send_message A Account Timestamp kw mc nlp classifier prompt initialized api
      create history request
    = Ok {| body := error_body err; status := HTTP_400_BAD_REQUEST |}.
Proof.
  intros Htext Hbad.
  destruct (textual_message _ request Htext) as (message & Hdata & Hstrip).
  unfold send_message. rewrite Hdata. cbn [bind data_get_message].
  rewrite Hstrip. cbn [bind].
  destruct (trimmed request =? "")%string; [eexists; reflexivity|].
  destruct (2000 <? length (trimmed request)) eqn:Hlong; [eexists; reflexivity|].
  destruct (length (trimmed request) <? 3) eqn:Hshort; [eexists; reflexivity|].
  apply Nat.ltb_ge in Hlong, Hshort. lia.
Qed.

(** The outcomes of the view on an accepted message. *)
Lemma send_message_outcomes (request : Request Account) :
  3 <= length (trimmed request) <= 2000 ->
  exists a,
    detect_crisis_with_emotion kw mc nlp (trimmed request)
      (signal_of (analyze_emotion A classifier (trimmed request))) = Ok a /\
    ((existsb (RiskTier_eqb (risk_level a)) [CRITICAL; HIGH] = true /\
      exists bundle,
        get_crisis_response (risk_level a) = Some bundle /\
        ((exists e,
            create {| new_user := req_user request;
                      new_message := trimmed request;
                      new_response := response bundle;
                      new_risk_level := risk_level a;
                      new_primary_emotion :=
                        d_primary_emotion
                          (analyze_emotion A classifier (trimmed request));
                      new_sentiment_score :=
                        d_sentiment_score
                          (analyze_emotion A classifier (trimmed request));
                      new_emotion_confidence :=
                        d_confidence
                          (analyze_emotion A classifier (trimmed request)) |}
            = Raised e /\
            send_message A Account Timestamp kw mc nlp classifier prompt initialized
              api create history request = Raised e)
         \/
         (exists saved,
            send_message A Account Timestamp kw mc nlp classifier prompt initialized
              api create history request
            = Ok {| body := crisis_body (response bundle) (resources bundle)
                              (risk_level a) true
                              (immediate_action_required bundle)
                              (analyze_emotion A classifier (trimmed request))
                              (saved_created_at saved) (saved_id saved);
                    status := HTTP_201_CREATED |})))
     \/
     (existsb (RiskTier_eqb (risk_level a)) [CRITICAL; HIGH] = false /\
      exists reply,
        acceptable_reply reply /\
        ((send_message A Account Timestamp kw mc nlp classifier prompt initialized
            api create history request
          = Ok {| body := unsaved_body reply
                            (analyze_emotion A classifier (trimmed request))
                            (risk_level a) false "Message not saved to history";
                  status := HTTP_201_CREATED |})
         \/
         (exists saved summary,
            send_message A Account Timestamp kw mc nlp classifier prompt initialized
              api create history request
            = Ok {| body := reply_body reply summary (risk_level a) false
                              (saved_created_at saved) (saved_id saved);
                    status := HTTP_201_CREATED |})))).
Proof.
  intros Hlen.
  destruct (send_message_accepted A Account Timestamp kw mc nlp classifier prompt
              initialized api create history request Hlen)
    as (a & Ha & Hsend).
  exists a. split; [exact Ha|]. rewrite Hsend.
  destruct (existsb _ [CRITICAL; HIGH]) eqn:Htier.
  - left. split; [reflexivity|].
    destruct (crisis_reply_cases (req_user request) (trimmed request)
                (analyze_emotion A classifier (trimmed request)) _ Htier)
      as (bundle & Hb & Hcases).
    exists bundle. split; [exact Hb | exact Hcases].
  - right. split; [reflexivity|].
    destruct (ordinary_reply_cases A Account Timestamp prompt initialized api
                create history (req_user request) (trimmed request)
                (analyze_emotion A classifier (trimmed request)) (risk_level a))
      as (reply & Hacc & [(e & _ & Hr) | Hr]).
    + exists reply. split; [exact Hacc|]. now left.
    + exists reply. split; [exact Hacc|]. now right.
Qed.

Lemma length_cases (n : nat) : (n < 3 \/ 2000 < n) \/ 3 <= n <= 2000.
Proof. lia. Qed.

(** A request that is not textual ends the view with the exception of
    the first step that fails. *)
Lemma send_message_not_textual (request : Request Account) :
  ~ textual request ->
  send_message A Account Timestamp kw mc nlp classifier prompt initialized api
    create history request
  = match req_data request with
    | Raised e => Raised e
    | Ok _ => Raised "AttributeError"
    end.
Proof.
  intros Hnot. unfold send_message, textual in *.
  destruct (req_data request) as [[message|]|e]; cbn [bind data_get_message];
    try reflexivity.
  destruct (get message (json_string "")); cbn [bind str_strip].
  - exfalso. apply Hnot. discriminate.
  - reflexivity.
Qed.

Lemma textual_dec (request : Request Account) : textual request \/ ~ textual request.
Proof.
  unfold textual. destruct (req_data request) as [[message|]|e]; try (right; tauto).
  destruct (get message (json_string ""));
    [left; discriminate | right; intros H; now apply H].
Qed.

(** X20. For a request whose body is a mapping and whose message is a
    string or is missing (a missing key counts as the empty message),
    the view answers 400 exactly when the trimmed message is shorter
    than 3 or longer than 2000 characters, whatever the collaborators
    do. *)
Theorem send_message_validation (request : Request Account) :
  textual request ->
  ((length (trimmed request) < 3 \/ 2000 < length (trimmed request)) <->
   exists err,
     send_message A Account Timestamp kw mc nlp classifier prompt initialized api
       create history request
     = Ok {| body := error_body err; status := HTTP_400_BAD_REQUEST |}).
Proof.
  intros Htext. split; [now apply send_message_rejects|].
  intros [err Herr].
  destruct (length_cases (length (trimmed request))) as [Hbad | Hlen]; [exact Hbad|].
  exfalso.
  destruct (send_message_outcomes request Hlen)
    as (a & _ & [(_ & bundle & _ & [(e & _ & Hr) | (saved & Hr)])
                | (_ & reply & _ & [Hr | (saved & summary & Hr)])]);
    rewrite Hr in Herr; discriminate.
Qed.

(** X21. The view lets an exception escape in three cases only:
    reading [request.data] raises, and the exception is that one; the
    body is not a mapping or its message is not a string, and the
    exception is an AttributeError; or saving a crisis message fails.
    In the last case the row it tried to store has risk level HIGH or
    CRITICAL and holds the trimmed message and the canned response. *)
Theorem send_message_failure (request : Request Account) (e : exn) :
  send_message A Account Timestamp kw mc nlp classifier prompt initialized api
    create history request = Raised e ->
  req_data request = Raised e \/
  ((exists data, req_data request = Ok data) /\ ~ textual request /\
   e = "AttributeError"%string) \/
  exists row bundle,
    textual request /\
    create row = Raised e /\
    (new_risk_level row = HIGH \/ new_risk_level row = CRITICAL) /\
    new_message row = trimmed request /\
    get_crisis_response (new_risk_level row) = Some bundle /\
    new_response row = response bundle.
Proof.
  intros Hfail.
  destruct (textual_dec request) as [Htext | Hnot].
  2: { rewrite (send_message_not_textual request Hnot) in Hfail.
       destruct (req_data request) as [data|e'].
       - right. left. injection Hfail as <-. split; [now exists data|]. now split.
       - left. injection Hfail as <-. reflexivity. }
  right. right.
  destruct (length_cases (length (trimmed request))) as [Hbad | Hlen].
  { destruct (send_message_rejects request Htext Hbad) as [err Herr].
    rewrite Herr in Hfail. discriminate. }
  destruct (send_message_outcomes request Hlen)
    as (a & _ & [(Htier & bundle & Hb & [(e' & Hc & Hr) | (saved & Hr)])
                | (_ & reply & _ & [Hr | (saved & summary & Hr)])]);
    rewrite Hr in Hfail; try discriminate.
  injection Hfail as <-.
  destruct (crisis_bundle _ Htier) as (Hrisk & _).
  eexists _, bundle. split; [exact Htext|]. split; [exact Hc|]. cbn. auto.
Qed.

(** X22. Every response of the view is a 400 or a 201, never a 503.  A
    201 flagged as crisis carries a tier HIGH or CRITICAL with the canned
    text and resources of that tier, and asks for immediate action
    exactly for CRITICAL; a 201 not flagged as crisis carries a tier
    SAFE or MEDIUM and a reply that is the fallback text or at least ten
    characters long.  The MEDIUM bundle is never sent. *)
Theorem send_message_response (request : Request Account) (r : Response A Timestamp) :
  send_message A Account Timestamp kw mc nlp classifier prompt initialized api
    create history request = Ok r ->
  match body r with
  | error_body _ => status r = HTTP_400_BAD_REQUEST
  | crisis_body reply support tier is_crisis immediate _ _ _ =>
      status r = HTTP_201_CREATED /\
      (tier = HIGH \/ tier = CRITICAL) /\
      is_crisis = true /\
      (immediate = true <-> tier = CRITICAL) /\
      exists bundle,
        get_crisis_response tier = Some bundle /\
        reply = response bundle /\ support = resources bundle
  | unsaved_body reply _ tier is_crisis _
  | reply_body reply _ tier is_crisis _ _ =>
      status r = HTTP_201_CREATED /\
      (tier = SAFE \/ tier = MEDIUM) /\
      is_crisis = false /\
      acceptable_reply reply
  | unavailable_body _ _ => False
  end.
Proof.
  intros Hok.
  destruct (textual_dec request) as [Htext | Hnot].
  2: { rewrite (send_message_not_textual request Hnot) in Hok.
       destruct (req_data request); discriminate. }
  destruct (length_cases (length (trimmed request))) as [Hbad | Hlen].
  { destruct (send_message_rejects request Htext Hbad) as [err Herr].
    rewrite Herr in Hok. injection Hok as <-. reflexivity. }
  destruct (send_message_outcomes request Hlen)
    as (a & _ & [(Htier & bundle & Hb & [(e' & Hc & Hr) | (saved & Hr)])
                | (Htier & reply & Hacc & [Hr | (saved & summary & Hr)])]);
    rewrite Hr in Hok; try discriminate; injection Hok as <-; cbn [body status].
  - destruct (crisis_bundle _ Htier) as (Hrisk & bundle' & Hb' & Himm).
    rewrite Hb in Hb'. injection Hb' as <-.
    repeat split; try assumption; try apply Himm.
    exists bundle. repeat split. exact Hb.
  - repeat split; [now apply ordinary_tier | exact Hacc].
  - repeat split; [now apply ordinary_tier | exact Hacc].
Qed.

(** X23. When the classifier fails on the trimmed message, the tier the
    view answers with is the keyword tier of the reconciler: the emotion
    fallback never raises it. *)
Theorem classifier_failure_keeps_keyword_tier
    (request : Request Account) (e : exn) :
  3 <= length (trimmed request) <= 2000 ->
  classifier (trimmed request) = Raised e ->
  exists keyword_tier,
    detect_crisis_enhanced kw mc nlp (trimmed request) = Ok keyword_tier /\
    forall r,
      send_message A Account Timestamp kw mc nlp classifier prompt initialized api
        create history request = Ok r ->
      body_tier (body r) = Some keyword_tier.
Proof.
  intros Hlen Hfail.
  destruct (detect_crisis_enhanced_returns kw mc nlp (trimmed request)) as (k & Hk & _).
  exists k. split; [exact Hk|].
  assert (Hne : trimmed request <> ""%string)
    by (intros He; rewrite He in Hlen; simpl in Hlen; lia).
  destruct (analysis_failure_neutral_fields A classifier (trimmed request) Hne
              (or_introl (ex_intro _ e Hfail))) as (Hp & _ & Hu & _).
  destruct (detect_crisis_with_emotion_fields kw mc nlp (trimmed request)
              (signal_of (analyze_emotion A classifier (trimmed request))) k Hk)
    as (a' & Ha' & Hrisk & _).
  assert (Hsame : risk_level a' = k).
  { rewrite Hrisk. unfold signal_of. cbn [ed_urgency ed_primary_emotion ed_confidence].
    rewrite Hu, Hp. cbn [get].
    destruct (RiskTier_eqb
                (fst (fusion_table k "neutral"
                        (get (option_map (value A)
                                (d_confidence
                                   (analyze_emotion A classifier (trimmed request))))
                             0%Q) "low")) k) eqn:Heq.
    - destruct (fst _), k; simpl in Heq; try discriminate; reflexivity.
    - exfalso.
      assert (Hne' : fst (fusion_table k "neutral"
                           (get (option_map (value A)
                                   (d_confidence
                                      (analyze_emotion A classifier (trimmed request))))
                                0%Q) "low") <> k)
        by (intros Hk'; rewrite Hk' in Heq; destruct k; discriminate).
      apply fusion_table_changes in Hne' as (Hhigh & _). discriminate. }
  intros r Hok.
  destruct (send_message_outcomes request Hlen)
    as (a & Ha & [(_ & bundle & _ & [(e' & _ & Hr) | (saved & Hr)])
                | (_ & reply & _ & [Hr | (saved & summary & Hr)])]);
    rewrite Hr in Hok; try discriminate; injection Hok as <-; cbn [body body_tier];
    rewrite Ha in Ha'; injection Ha' as ->; now rewrite Hsame.
Qed.

End Endpoint.

Section CrisisBranch.

Variable A : Arithmetic.
Variable Account : Type.
Variable Timestamp : Type.
Variable kw : keyword_table.
Variable mc : context_table.
Variable nlp : string -> result (list string).
Variable classifier : string -> result (list (string * num A)).
Variable create : NewChatMessage A Account -> result (SavedChatMessage Timestamp).

(** X24. For a message assessed HIGH or CRITICAL the language model,
    the system prompt and the stored history play no part: the outcome
    of the view is the same whatever they are. *)
Theorem crisis_reply_ignores_language_model
    (prompt prompt' : string) (initialized initialized' : bool)
    (api api' : nat -> list ChatTurn -> result Completion)
    (history history' : Account -> nat -> result (list Exchange))
    (request : Request Account) (a : CrisisAssessment) :
  3 <= length (trimmed request) <= 2000 ->
  detect_crisis_with_emotion kw mc nlp (trimmed request)
    (signal_of (analyze_emotion A classifier (trimmed request))) = Ok a ->
  risk_level a = HIGH \/ risk_level a = CRITICAL ->
  send_message A Account Timestamp kw mc nlp classifier prompt initialized api
    create history request
  = send_message A Account Timestamp kw mc nlp classifier prompt' initialized' api'
    create history' request.
Proof.
  intros Hlen Ha Hrisk.
  destruct (send_message_accepted A Account Timestamp kw mc nlp classifier prompt
              initialized api create history request Hlen) as (a1 & Ha1 & ->).
  destruct (send_message_accepted A Account Timestamp kw mc nlp classifier prompt'
              initialized' api' create history' request Hlen) as (a2 & Ha2 & ->).
  rewrite Ha in Ha1, Ha2. injection Ha1 as <-. injection Ha2 as <-.
  destruct Hrisk as [-> | ->]; reflexivity.
Qed.

End CrisisBranch.

Lemma crisis_reply_ignores_language_model_witness :
  send_message exact_arithmetic string nat CRISIS_KEYWORDS METAPHORICAL_CONTEXTS
    sample_nlp fearful_classifier "You are a counselor." true flaky_model
    storing_database empty_history
    {| req_user := "ada@example.com"; req_data := Ok (data_mapping (Some (json_string "I want to kill myself"))) |}
  = send_message exact_arithmetic string nat CRISIS_KEYWORDS METAPHORICAL_CONTEXTS
    sample_nlp fearful_classifier "" false (fun _ _ => Raised "down")
    storing_database (fun _ _ => Raised "no history")
    {| req_user := "ada@example.com"; req_data := Ok (data_mapping (Some (json_string "I want to kill myself"))) |}.
Proof.
  destruct (detect_crisis_with_emotion CRISIS_KEYWORDS METAPHORICAL_CONTEXTS sample_nlp
              "I want to kill myself"
              (signal_of (analyze_emotion exact_arithmetic fearful_classifier
                            "I want to kill myself"))) as [a|e] eqn:Ha;
    [|vm_compute in Ha; discriminate].
  apply (crisis_reply_ignores_language_model exact_arithmetic string nat
           CRISIS_KEYWORDS METAPHORICAL_CONTEXTS sample_nlp fearful_classifier
           storing_database
           "You are a counselor." "" true false flaky_model (fun _ _ => Raised "down")
           empty_history (fun _ _ => Raised "no history")
           {| req_user := "ada@example.com";
              req_data := Ok (data_mapping (Some (json_string "I want to kill myself"))) |} a).
  - vm_compute. lia.
  - exact Ha.
  - right. vm_compute in Ha. injection Ha as <-. reflexivity.
Defined.

Lemma send_message_failure_witness :
  let request :=
    {| req_user := "ada@example.com"%string;
       req_data := Ok (data_mapping (Some (json_string "  I want to kill myself  "))) |} in
  req_data request = Raised "database unavailable" \/
  ((exists data, req_data request = Ok data) /\ ~ textual request /\
   "database unavailable"%string = "AttributeError"%string) \/
  exists (row : NewChatMessage exact_arithmetic string) bundle,
    textual request /\
    failing_database row = Raised "database unavailable" /\
    (new_risk_level row = HIGH \/ new_risk_level row = CRITICAL) /\
    new_message row = "I want to kill myself"%string /\
    get_crisis_response (new_risk_level row) = Some bundle /\
    new_response row = response bundle.
Proof.
  apply (send_message_failure exact_arithmetic string nat CRISIS_KEYWORDS
           METAPHORICAL_CONTEXTS sample_nlp fearful_classifier "You are a counselor."
           true flaky_model failing_database empty_history
           {| req_user := "ada@example.com";
              req_data := Ok (data_mapping (Some (json_string "  I want to kill myself  "))) |}
           "database unavailable").
  vm_compute. reflexivity.
Defined.

Lemma send_message_validation_witness :
  (length (trimmed {| req_user := "ada@example.com";
                      req_data := Ok (data_mapping (Some (json_string " ok "))) |}) < 3
   \/ 2000 < length (trimmed {| req_user := "ada@example.com";
                                req_data := Ok (data_mapping (Some (json_string " ok "))) |})) <->
  exists err,
    send_message exact_arithmetic string nat CRISIS_KEYWORDS METAPHORICAL_CONTEXTS
      sample_nlp fearful_classifier "You are a counselor." true flaky_model
      storing_database empty_history
      {| req_user := "ada@example.com"; req_data := Ok (data_mapping (Some (json_string " ok "))) |}
    = Ok {| body := error_body err; status := HTTP_400_BAD_REQUEST |}.
Proof.
  apply (send_message_validation exact_arithmetic string nat CRISIS_KEYWORDS
           METAPHORICAL_CONTEXTS sample_nlp fearful_classifier "You are a counselor."
           true flaky_model storing_database empty_history
           {| req_user := "ada@example.com"; req_data := Ok (data_mapping (Some (json_string " ok "))) |}).
  discriminate.
Defined.

Lemma send_message_response_witness :
  exists r,
    send_message exact_arithmetic string nat CRISIS_KEYWORDS METAPHORICAL_CONTEXTS
      sample_nlp fearful_classifier "You are a counselor." true flaky_model
      storing_database empty_history
      {| req_user := "ada@example.com"; req_data := Ok (data_mapping (Some (json_string "I feel hopeless"))) |}
    = Ok r /\
    match body r with
    | error_body _ => status r = HTTP_400_BAD_REQUEST
    | crisis_body reply support tier is_crisis immediate _ _ _ =>
        status r = HTTP_201_CREATED /\
        (tier = HIGH \/ tier = CRITICAL) /\
        is_crisis = true /\
        (immediate = true <-> tier = CRITICAL) /\
        exists bundle,
          get_crisis_response tier = Some bundle /\
          reply = response bundle /\ support = resources bundle
    | unsaved_body reply _ tier is_crisis _
    | reply_body reply _ tier is_crisis _ _ =>
        status r = HTTP_201_CREATED /\
        (tier = SAFE \/ tier = MEDIUM) /\
        is_crisis = false /\
        acceptable_reply reply
    | unavailable_body _ _ => False
    end.
Proof.
  assert (Hsome : exists r,
             send_message exact_arithmetic string nat CRISIS_KEYWORDS
               METAPHORICAL_CONTEXTS sample_nlp fearful_classifier
               "You are a counselor." true flaky_model storing_database empty_history
               {| req_user := "ada@example.com"; req_data := Ok (data_mapping (Some (json_string "I feel hopeless"))) |}
             = Ok r)
    by (eexists; vm_compute; reflexivity).
  destruct Hsome as [r Hsend]. exists r. split; [exact Hsend|].
  exact (send_message_response exact_arithmetic string nat CRISIS_KEYWORDS
           METAPHORICAL_CONTEXTS sample_nlp fearful_classifier "You are a counselor."
           true flaky_model storing_database empty_history
           {| req_user := "ada@example.com"; req_data := Ok (data_mapping (Some (json_string "I feel hopeless"))) |}
           r Hsend).
Defined.

Lemma classifier_failure_keeps_keyword_tier_witness :
  exists keyword_tier,
    detect_crisis_enhanced CRISIS_KEYWORDS METAPHORICAL_CONTEXTS sample_nlp
      (trimmed {| req_user := "ada@example.com";
                  req_data := Ok (data_mapping (Some (json_string " I feel hopeless "))) |})
    = Ok keyword_tier /\
    forall r,
      send_message exact_arithmetic string nat CRISIS_KEYWORDS METAPHORICAL_CONTEXTS
        sample_nlp failing_classifier "You are a counselor." true flaky_model
        storing_database empty_history
        {| req_user := "ada@example.com"; req_data := Ok (data_mapping (Some (json_string " I feel hopeless "))) |}
      = Ok r ->
      body_tier (body r) = Some keyword_tier.
Proof.
  apply (classifier_failure_keeps_keyword_tier exact_arithmetic string nat
           CRISIS_KEYWORDS METAPHORICAL_CONTEXTS sample_nlp failing_classifier
           "You are a counselor." true flaky_model storing_database empty_history
           {| req_user := "ada@example.com"; req_data := Ok (data_mapping (Some (json_string " I feel hopeless "))) |}
           "model unavailable").
  - vm_compute. lia.
  - reflexivity.
Defined.
